(** * matterircd: the bridge session engine

    A shallow embedding of [mm-go-irckit/userbridge.go] (the session engine:
    identity registry, channel router, membership synchronizer, backfill
    worker, and the handlers of the bridge's events) and of the Mattermost
    adapter (its handlers of the web socket's events, with the echo
    suppression, and its methods to name, list and join channels and to
    gather a channel's users), with the properties of the specification
    settled against them, and further properties of the code after these.

    Conventions.
    - Go strings are [string] (byte strings); [==] on strings is
      [bool_decide] of Leibniz equality.
    - A Go [*User] is a pointer [ptr] into [heap]; two ghosts are the same
      instance exactly when their pointers are equal.
    - A [*bridge.UserInfo] is held by value: the session only re-seats
      the [UserInfo] field of a [User], and the one write through such a
      pointer, the adapter's [ghost.Nick = overrideUsername], is to a
      profile the adapter has just built and that nothing else holds.
    - The session engine threads one [State] (the Go heap of users, the
      tables of the virtual IRC server and the trace of what the session
      sends outwards) through every call, and a call may panic; that is the
      monad [M]. The adapter uses the same monad over its own trace.
    - The trace holds the calls by which the engine itself sends: a line
      encoded to the client, a message or notice spoofed on a channel, a
      channel marked viewed at the backend. A call of the server's [Join],
      [BatchJoin], [Part] or [Topic] is recorded by what it does to the
      server's tables; the lines the server sends the client for it are
      the server's own and are no part of the trace.
    - The virtual IRC server (interfaces [Server] and [Channel]) is not
      among the sources; what the engine calls on it is modelled from the
      interface list of the specification, each definition saying so.
    - Goroutines are not modelled: a function is embedded as one sequential
      run. *)

From Stdlib Require Import Ascii String ZArith.
From stdpp Require Import base strings list gmap sorting.

#[local] Open Scope string_scope.
#[local] Open Scope Z_scope.

(* ===================================================================== *)
(** ** Machine integers and the state-and-panic monad                     *)
(* ===================================================================== *)

(** Go's [int64] arithmetic: the mathematical result reduced to
    [-2^63 .. 2^63-1]. *)
Definition wrap64 (z : Z) : Z := (z + 2^63) `mod` 2^64 - 2^63.

(** A computation over a state [S] that returns, or panics part-way (Go's
    run-time panic: a nil dereference, a failed type assertion); the state
    reached is kept in both cases. *)
Definition M (S A : Type) : Type := S → option A * S.

Definition ret {S A} (x : A) : M S A := λ s, (Some x, s).
Definition panic {S A} : M S A := λ s, (None, s).
Definition bind {S A B} (c : M S A) (k : A → M S B) : M S B :=
  λ s, match c s with
       | (Some x, s') => k x s'
       | (None, s') => (None, s')
       end.
Definition gets {S A} (f : S → A) : M S A := λ s, (Some (f s), s).
Definition modify {S} (f : S → S) : M S unit := λ s, (Some tt, f s).

Declare Scope go_scope.
Delimit Scope go_scope with go.
Notation "'let*' x ':=' c 'in' k" := (bind c (λ x, k))
  (at level 10, x pattern, c at level 100, k at level 200) : go_scope.
Notation "c ';;' k" := (bind c (λ _, k))
  (at level 100, k at level 200, right associativity) : go_scope.
#[local] Open Scope go_scope.

(** [if b { c }] with a body that returns nothing. *)
Definition when {S} (b : bool) (c : M S unit) : M S unit :=
  if b then c else ret tt.

(** [for _, x := range l { body x }]. *)
Fixpoint forM_ {S A} (l : list A) (body : A → M S unit) : M S unit :=
  match l with
  | [] => ret tt
  | x :: l' => body x ;; forM_ l' body
  end.

(* ===================================================================== *)
(** ** Packages [unicode] and [unicode/utf8] (Go's standard library)      *)
(* ===================================================================== *)

Module unicode.

(** The runes for which [unicode.IsSpace] answers true, Unicode's
    [White_Space] property: U+0009 to U+000D, U+0020, U+0085 (NEL), U+00A0
    (NBSP), U+1680, U+2000 to U+200A, U+2028, U+2029, U+202F, U+205F and
    U+3000. *)
Definition White_Space : list N :=
  [0x09; 0x0A; 0x0B; 0x0C; 0x0D; 0x20; 0x85; 0xA0; 0x1680;
   0x2000; 0x2001; 0x2002; 0x2003; 0x2004; 0x2005; 0x2006; 0x2007; 0x2008; 0x2009; 0x200A;
   0x2028; 0x2029; 0x202F; 0x205F; 0x3000]%N.

End unicode.

Module utf8.

(** [utf8.EncodeRune] for a rune below U+10000 that is no surrogate: one
    byte below U+0080, two below U+0800, three otherwise. *)
Definition EncodeRune (r : N) : list ascii :=
  if (r <? 0x80)%N then [ascii_of_N r]
  else if (r <? 0x800)%N
  then [ascii_of_N (N.lor 0xC0 (N.shiftr r 6)); ascii_of_N (N.lor 0x80 (N.land r 0x3F))]
  else [ascii_of_N (N.lor 0xE0 (N.shiftr r 12));
        ascii_of_N (N.lor 0x80 (N.land (N.shiftr r 6) 0x3F));
        ascii_of_N (N.lor 0x80 (N.land r 0x3F))].

End utf8.

(* ===================================================================== *)
(** ** Package [strings] (Go's standard library), on byte strings         *)
(* ===================================================================== *)

Module strings.

Fixpoint HasPrefix (s prefix : string) {struct prefix} : bool :=
  match prefix, s with
  | EmptyString, _ => true
  | String a p', String b s' => bool_decide (a = b) && HasPrefix s' p'
  | String _ _, EmptyString => false
  end.

Fixpoint Contains (s substr : string) : bool :=
  HasPrefix s substr ||
  match s with
  | EmptyString => false
  | String _ s' => Contains s' substr
  end.

(** The segments of [s] from its current position on; [skip] bytes of a
    separator just matched are still to be passed over. The head of the
    result is the segment being read. *)
Fixpoint split_from (sep : string) (skip : nat) (s : string) : list string :=
  match s with
  | EmptyString => [""]
  | String c s' =>
      match skip with
      | S k => split_from sep k s'
      | O =>
          if HasPrefix s sep
          then "" :: split_from sep (String.length sep - 1) s'
          else match split_from sep 0 s' with
               | seg :: rest => String c seg :: rest
               | [] => [String c ""]
               end
      end
  end.

(** [strings.Split(s, sep)] for a non-empty [sep] (every call site passes
    a literal, ["\n"] or ["__"]): the substrings between the
    non-overlapping occurrences of [sep], leftmost first. *)
Definition Split (s sep : string) : list string := split_from sep 0 s.

(** The white-space runes in UTF-8, as [strings.TrimSpace] meets them. *)
Definition spaces : list (list ascii) := utf8.EncodeRune <$> unicode.White_Space.

(** The number of bytes of the word of [code] that [l] starts with; 0 when
    it starts with none. *)
Definition leading (code : list (list ascii)) (l : list ascii) : nat :=
  from_option (λ iw, length iw.2) 0%nat (list_find (λ w, w `prefix_of` l) code).

(** [l] from its current position on, without the words of [code] it
    starts with; [skip] bytes of a word just met are still to be passed
    over. *)
Fixpoint trim_from (code : list (list ascii)) (skip : nat) (l : list ascii) : list ascii :=
  match l with
  | [] => []
  | _ :: l' =>
      match skip with
      | S k => trim_from code k l'
      | O =>
          match leading code l with
          | S k => trim_from code k l'
          | O => l
          end
      end
  end.

(** [strings.TrimSpace(s)]: [s] without its leading and trailing white
    space, as Unicode defines it. Go reads [s] as UTF-8, rune by rune from
    the left and then from the right, and stops at the first rune that is
    not white space. A rune it reads is a white-space rune exactly where
    the bytes are that rune's encoding: bytes that are no well-formed
    shortest encoding are read as U+FFFD, one byte wide, which is not white
    space. From the right the bytes are met in reverse, so the encodings
    are matched reversed. *)
Definition TrimSpace (s : string) : string :=
  let l := trim_from spaces 0 (list_ascii_of_string s) in
  string_of_list_ascii (reverse (trim_from (reverse <$> spaces) 0 (reverse l))).

(** The text of [s] from its current position on, with every occurrence
    of [old] met from there replaced by [new]; [skip] bytes of an
    occurrence just replaced are still to be passed over. *)
Fixpoint replace_from (old new : string) (skip : nat) (s : string) : string :=
  match s with
  | EmptyString => ""
  | String c s' =>
      match skip with
      | S k => replace_from old new k s'
      | O =>
          if HasPrefix s old
          then new ++ replace_from old new (String.length old - 1) s'
          else String c (replace_from old new 0 s')
      end
  end.

(** [strings.ReplaceAll(s, old, new)] for a non-empty [old] (the call site
    passes ["\n"]): the non-overlapping occurrences of [old], leftmost
    first, replaced by [new]. *)
Definition ReplaceAll (s old new : string) : string := replace_from old new 0 s.

End strings.

(** The line feed, Go's ["\n"]. *)
Definition LF : string := String (ascii_of_nat 10) "".

(* ===================================================================== *)
(** ** Package [viper]: the configuration the session reads               *)
(* ===================================================================== *)

Module viper.
Record Viper := mk {
  GetStringSlice : string → list string;
  GetBool : string → bool
}.
End viper.

(* ===================================================================== *)
(** ** Package [model] (mattermost-server): posts and their constants     *)
(* ===================================================================== *)

Module model.

Definition POST_JOIN_LEAVE : string := "system_join_leave".
Definition POST_JOIN_CHANNEL : string := "system_join_channel".
Definition WEBSOCKET_EVENT_POSTED : string := "posted".
Definition WEBSOCKET_EVENT_POST_EDITED : string := "post_edited".

#[local] Set Warnings "-register-all".

(** A decoded JSON value, Go's [interface{}] after [json.Unmarshal]. *)
Inductive JSON :=
| JNull
| JBool (b : bool)
| JNumber (z : Z)
| JString (s : string)
| JArray (l : list JSON)
| JObject (fields : list (string * JSON)).

Module Post.
Record t := mk {
  Id : string;
  CreateAt : Z;
  DeleteAt : Z;
  UserId : string;
  ChannelId : string;
  ParentId : string;
  Message : string;
  Type_ : string;
  Props : gmap string JSON;
  FileIds : list string;
  HasReactions : bool
}.
End Post.

Module User.
Record t := mk {
  Id : string;
  Username : string;
  Nickname : string;
  FirstName : string;
  LastName : string;
  Roles : string
}.
End User.

Module PostList.
Record t := mk {
  Order : list string;
  Posts : gmap string Post.t
}.
End PostList.

(** [model.Channel], the fields the adapter reads. *)
Module Channel.
Record t := mk {
  Id : string;
  Name : string;
  TeamId : string;
  Header : string
}.
End Channel.

End model.

(* ===================================================================== *)
(** ** Package [irc] (github.com/sorcix/irc): the wire message            *)
(* ===================================================================== *)

Module irc.
Module Prefix.
Record t := mk { Name : string; User : string; Host : string }.
End Prefix.

Module Message.
Record t := mk {
      Prefix : option Prefix.t;
      Command : string;
      Params : list string;
      Trailing : string
    }.
End Message.

Definition NICK : string := "NICK".
Definition PRIVMSG : string := "PRIVMSG".
End irc.

(* ===================================================================== *)
(** ** Package [bridge] (the adapter interface and the event model)       *)
(* ===================================================================== *)

Module bridge.

Module UserInfo.
Record t := mk {
      Nick : string;
      User : string;
      Real : string;
      Pass : list string;
      Host : string;
      Roles : string;
      DisplayName : string;
      Ghost : bool;
      Me : bool;
      Username : string;
      TeamID : string;
      FirstName : string;
      LastName : string
    }.

(** The Go zero value [&bridge.UserInfo{}]. *)
Definition zero : t := mk "" "" "" [] "" "" "" false false "" "" "" "".

Definition with_Nick (n : string) (i : t) : t :=
      mk n (User i) (Real i) (Pass i) (Host i) (Roles i) (DisplayName i)
         (Ghost i) (Me i) (Username i) (TeamID i) (FirstName i) (LastName i).
End UserInfo.

Module ChannelInfo.
Record t := mk { Name : string; ID : string; TeamID : string }.
End ChannelInfo.

Module File.
Record t := mk { Name : string }.
End File.

Module ChannelAddEvent.
Record t := mk {
  Adder : option UserInfo.t;
  Added : list UserInfo.t;
  ChannelID : string
}.
End ChannelAddEvent.

Module ChannelRemoveEvent.
Record t := mk {
  Remover : option UserInfo.t;
  Removed : list UserInfo.t;
  ChannelID : string
}.
End ChannelRemoveEvent.

Module ChannelMessageEvent.
Record t := mk {
  Text : string;
  ChannelID : string;
  Sender : UserInfo.t;
  MessageType : string;
  ChannelType : string;
  Files : list File.t
}.
End ChannelMessageEvent.

Module ChannelTopicEvent.
Record t := mk { Text : string; ChannelID : string; Sender : string }.
End ChannelTopicEvent.

Module DirectMessageEvent.
Record t := mk {
  Text : string;
  Receiver : UserInfo.t;
  Sender : UserInfo.t;
  Files : list File.t
}.
End DirectMessageEvent.

Module FileEvent.
Record t := mk {
  Receiver : UserInfo.t;
  Sender : UserInfo.t;
  ChannelID : string;
  ChannelType : string;
  Files : list File.t
}.
End FileEvent.

(** [type Event struct { Type string; Data interface{} }]: the tag and the
    payload it announces, for the events the embedded adapter code sends. *)
Inductive Event :=
| channel_message (e : ChannelMessageEvent.t)
| direct_message (e : DirectMessageEvent.t)
| channel_topic (e : ChannelTopicEvent.t)
| file_event (e : FileEvent.t)
| channel_add (e : ChannelAddEvent.t)
| channel_remove (e : ChannelRemoveEvent.t).

(** [type Bridger interface], the methods the session engine calls. The
    reads are functions of the backend's state, which no embedded function
    changes; [UpdateLastViewed] is an effect and appears in the trace
    instead. [GetChannelUsers] is [None] when the Go method returns an
    error; [GetPostsSince] is [None] when it returns nil. [GetUser] and
    [GetMe] always answer with a profile, as the Mattermost adapter's do
    (an unknown user is the zero profile). *)
Module Bridger.
Record t := mk {
  Protocol : string;
  Topic : string → string;
  GetChannelName : string → string;
  GetLastViewedAt : string → Z;
  GetChannelUsers : string → option (list UserInfo.t);
  GetUser : string → UserInfo.t;
  GetMe : UserInfo.t;
  GetTeamName : string → string;
  GetPostsSince : string → Z → option model.PostList.t
}.
End Bridger.

End bridge.

(* ===================================================================== *)
(** ** Package [irckit]: users, the virtual IRC server, the session       *)
(* ===================================================================== *)

Module irckit.

(** A [*User]: an index into the heap of allocated users. *)
Definition ptr := nat.

Module User.
(** [type User struct]: the embedded [*bridge.UserInfo] is the only field
    of a ghost the session engine reads or writes. *)
Record t := mk { UserInfo : bridge.UserInfo.t }.
End User.

(** What the session itself sends outwards, in order (not the lines the
    virtual server sends for a join, a part or a topic). *)
Inductive Effect :=
| Encode (m : irc.Message.t)            (* u.Encode(msg): a line to the IRC client *)
| SpoofMessage (ch nick text : string)  (* ch.SpoofMessage(nick, text) *)
| SpoofNotice (ch nick text : string)   (* ch.SpoofNotice(nick, text) *)
| UpdateLastViewed (ch : string).       (* u.br.UpdateLastViewed(id) *)

Record State := mkState {
  heap : list User.t;                          (* every allocated User, by pointer *)
  users : list ptr;                            (* Srv: the registered users *)
  members : gset (string * ptr);               (* Srv: (channel id, user) membership *)
  topics : gmap string (option ptr * string);  (* Srv: channel id -> (setter, topic) *)
  names : string → string;                     (* Srv: channel id -> display name *)
  trace : list Effect
}.

Definition set_heap (h : list User.t) (s : State) : State :=
  mkState h (users s) (members s) (topics s) (names s) (trace s).
Definition set_users (us : list ptr) (s : State) : State :=
  mkState (heap s) us (members s) (topics s) (names s) (trace s).
Definition set_members (ms : gset (string * ptr)) (s : State) : State :=
  mkState (heap s) (users s) ms (topics s) (names s) (trace s).
Definition set_topics (ts : gmap string (option ptr * string)) (s : State) : State :=
  mkState (heap s) (users s) (members s) ts (names s) (trace s).
Definition set_trace (tr : list Effect) (s : State) : State :=
  mkState (heap s) (users s) (members s) (topics s) (names s) tr.

Definition emit (e : Effect) : M State unit :=
  modify (λ s, set_trace (trace s ++ [e]) s).

(** *** The Go heap *)

(** [*g]: reading through a pointer; a pointer that was never allocated
    stands for nil, and the read panics. *)
Definition load (g : ptr) : M State User.t :=
  λ s, (heap s !! g, s).

(** Modelled from the spec: the constructor [NewUser], not among the
    sources (the spec's "constructs a new ghost"), together with the
    assignment that follows it at each call site, [ghost := NewUser(u.Conn);
    ghost.UserInfo = info]: a fresh object, its profile set. *)
Definition NewUser (info : bridge.UserInfo.t) : M State ptr :=
  λ s, (Some (length (heap s)), set_heap (heap s ++ [User.mk info]) s).

(** [ghost.UserInfo = info] on an allocated object. *)
Definition set_UserInfo (g : ptr) (info : bridge.UserInfo.t) : M State unit :=
  load g ;; modify (λ s, set_heap (<[g := User.mk info]> (heap s)) s).

(** The profile a registry lookup reads behind a registered pointer. *)
Definition info_of (s : State) (g : ptr) : bridge.UserInfo.t :=
  User.UserInfo (default (User.mk bridge.UserInfo.zero) (heap s !! g)).

(** *** The virtual IRC server (interfaces [Server] and [Channel]) *)

Module Srv.

(** Modelled from the spec: [server.lookup-by-id(backendID) -> (ghost,
    found)], the method [HasUserID] of the server, whose implementation is
    not among the sources: the registered user whose backend identifier is
    [id], if there is one. *)
Definition HasUserID (id : string) (s : State) : option ptr :=
  snd <$> list_find (λ g, bridge.UserInfo.User (info_of s g) = id) (users s).

(** Modelled from the spec: [server.lookup-by-nick(nick) -> (ghost,
    found)], the server's method [HasUser]. *)
Definition HasUser (nick : string) (s : State) : option ptr :=
  snd <$> list_find (λ g, bridge.UserInfo.Nick (info_of s g) = nick) (users s).

(** Modelled from the spec: [server.add(ghost)], the server's method [Add]:
    the ghost is registered. *)
Definition Add (g : ptr) : M State unit :=
  modify (λ s, set_users (users s ++ [g]) s).

(** Modelled from the spec: [server.batch-add([ghost])], the server's
    method [BatchAdd]. *)
Definition BatchAdd (gs : list ptr) : M State unit :=
  modify (λ s, set_users (users s ++ gs) s).

(** Modelled from the spec: [channel-by-id(id) -> Channel], the server's
    method [Channel]; a channel is stood for by its identifier. *)
Definition Channel (id : string) : string := id.

End Srv.

Module Channel.

(** Modelled from the spec: the channel's identifier, [ch.ID()]. *)
Definition ID (ch : string) : string := ch.

(** Modelled from the spec: the channel's display name, [ch.String()]. *)
Definition String (ch : string) (s : State) : string := names s ch.

(** Modelled from the spec: [channel.has-user(ghost) -> bool]. *)
Definition HasUser (ch : string) (g : ptr) (s : State) : bool :=
  bool_decide ((ch, g) ∈ members s).

(** Modelled from the spec: [channel.join(ghost)]. *)
Definition Join (ch : string) (g : ptr) : M State unit :=
  modify (λ s, set_members ({[ (ch, g) ]} ∪ members s) s).

(** Modelled from the spec: [channel.batch-join([ghost])]. *)
Definition BatchJoin (ch : string) (gs : list ptr) : M State unit :=
  modify (λ s, set_members (list_to_set ((λ g, (ch, g)) <$> gs) ∪ members s) s).

(** Modelled from the spec: [channel.part(ghost, reason)]. *)
Definition Part (ch : string) (g : ptr) : M State unit :=
  modify (λ s, set_members (members s ∖ {[ (ch, g) ]}) s).

(** Modelled from the spec: [channel.set-topic(settingGhost, text)]. *)
Definition Topic (ch : string) (who : option ptr) (text : string) : M State unit :=
  modify (λ s, set_topics (<[ch := (who, text)]> (topics s)) s).

(** Modelled from the spec: [channel.spoof-message(nick, text)]. *)
Definition SpoofMessage (ch nick text : string) : M State unit :=
  emit (irckit.SpoofMessage ch nick text).

(** Modelled from the spec: [channel.spoof-notice(nick, text)]. *)
Definition SpoofNotice (ch nick text : string) : M State unit :=
  emit (irckit.SpoofNotice ch nick text).

End Channel.

(** Modelled from the spec: the helper [stringInSlice], not among the
    sources: whether the name appears in the list. *)
Definition stringInSlice (a : string) (l : list string) : bool :=
  bool_decide (a ∈ l).

(** *** The session engine ([userbridge.go]) *)

Section Session.

(** [u.br] and [u.v], fixed for the session. *)
Context (br : bridge.Bridger.t) (v : viper.Viper).

(** The method [Prefix] of [User], not among the sources: the IRC prefix
    of a user. *)
Context (Prefix : User.t → irc.Prefix.t).

(** [time.Unix(0, ns).Format(layout)], Go's standard library applied to
    the process's local time zone. *)
Context (Format : Z → string → string).

(** [wordwrap.String] of github.com/muesli/reflow. *)
Context (wordwrap_String : string → nat → string).

Definition updateUserFromInfo (u : ptr) (info : bridge.UserInfo.t) : M State ptr :=
  let* found := gets (Srv.HasUserID (bridge.UserInfo.User info)) in
  match found with
  | Some ghost =>
      let* g := load ghost in
      when (negb (bool_decide (bridge.UserInfo.Nick (User.UserInfo g)
                               = bridge.UserInfo.Nick info)))
           (emit (Encode (irc.Message.mk (Some (Prefix g)) irc.NICK
                                         [bridge.UserInfo.Nick info] ""))) ;;
      set_UserInfo ghost info ;;
      ret ghost
  | None =>
      let* ghost := NewUser info in
      Srv.Add ghost ;;
      ret ghost
  end.

Definition createUserFromInfo (u : ptr) (info : bridge.UserInfo.t) : M State ptr :=
  let* found := gets (Srv.HasUserID (bridge.UserInfo.User info)) in
  match found with
  | Some ghost => ret ghost
  | None =>
      let* ghost := NewUser info in
      Srv.Add ghost ;;
      ret ghost
  end.

Fixpoint CreateUsersFromInfo (u : ptr) (info : list bridge.UserInfo.t)
  : M State (list ptr) :=
  match info with
  | [] => ret []
  | userinfo :: rest =>
      if bridge.UserInfo.Me userinfo then CreateUsersFromInfo u rest
      else
        let* ghost := NewUser userinfo in
        let* users := CreateUsersFromInfo u rest in
        ret (ghost :: users)
  end.

Definition addUsersToChannel (u : ptr) (users : list ptr)
    (channel channelID : string) : M State unit :=
  let ch := Srv.Channel channelID in
  Channel.BatchJoin ch users.

Definition mayJoin (u : ptr) (channelID : string) : M State bool :=
  let ch := Srv.Channel channelID in
  let ji := viper.GetStringSlice v (bridge.Bridger.Protocol br ++ ".joininclude") in
  let je := viper.GetStringSlice v (bridge.Bridger.Protocol br ++ ".joinexclude") in
  let* name := gets (Channel.String ch) in
  (* are we in the joininclude we always are allowed to join *)
  if stringInSlice name ji then ret true
  (* if we are not in excluded and we don't have included specified we are
     always allowed to join *)
  else if negb (stringInSlice name je) && (length ji =? 0)%nat then ret true
  (* if we don't have anything specified to include we are allowed *)
  else if (length ji =? 0)%nat || (length je =? 0)%nat then ret true
  (* we are not in the joininclude or in the exclude *)
  else ret false.

Definition syncChannel (u : ptr) (id name : string) : M State unit :=
  match bridge.Bridger.GetChannelUsers br id with
  | None => ret tt
  | Some users =>
      let* batchUsers := CreateUsersFromInfo u users in
      Srv.BatchAdd batchUsers ;;
      addUsersToChannel u batchUsers "&users" "&users" ;;
      addUsersToChannel u batchUsers ("#" ++ name) id ;;
      (* add myself *)
      let ch := Srv.Channel id in
      let* has := gets (Channel.HasUser ch u) in
      let* may := (if has then ret false else mayJoin u id) in
      when (negb has && may)
           (Channel.Join ch u ;;
            let* svc := gets (Srv.HasUser (bridge.Bridger.Protocol br)) in
            Channel.Topic ch svc (bridge.Bridger.Topic br (Channel.ID ch)))
  end.

Definition getMessageChannel (u : ptr) (channelID channelType : string)
    (sender : bridge.UserInfo.t) : M State string :=
  let ch := Srv.Channel channelID in
  (* in an group *)
  when (bool_decide (channelType = "G"))
       (let* myself := createUserFromInfo u (bridge.Bridger.GetMe br) in
        let* has := gets (Channel.HasUser ch myself) in
        when (negb has)
             (Channel.Join ch myself ;;
              syncChannel u channelID (bridge.Bridger.GetChannelName br channelID))) ;;
  let* ghost := createUserFromInfo u sender in
  (* join if not in channel *)
  let* has := gets (Channel.HasUser ch ghost) in
  let* join := (if has then ret false
                else let* g := load ghost in
                     ret (negb (bridge.UserInfo.Me (User.UserInfo g)))) in
  when join (Channel.Join ch ghost) ;;
  let je := viper.GetStringSlice v (bridge.Bridger.Protocol br ++ ".joinexclude") in
  let ji := viper.GetStringSlice v (bridge.Bridger.Protocol br ++ ".joininclude") in
  (* excluded channel *)
  let* name := gets (Channel.String ch) in
  let ch := if stringInSlice name je then Srv.Channel "&messages" else ch in
  (* not in included channel *)
  let* name := gets (Channel.String ch) in
  let ch := if negb (stringInSlice name ji) && (0 <? length ji)%nat
            then Srv.Channel "&messages" else ch in
  ret ch.

Definition handleChannelMessageEvent (u : ptr)
    (event : bridge.ChannelMessageEvent.t) : M State unit :=
  let nick := bridge.UserInfo.Nick (bridge.ChannelMessageEvent.Sender event) in
  let* ch := getMessageChannel u (bridge.ChannelMessageEvent.ChannelID event)
               (bridge.ChannelMessageEvent.ChannelType event)
               (bridge.ChannelMessageEvent.Sender event) in
  let* nick :=
    (if bridge.UserInfo.Me (bridge.ChannelMessageEvent.Sender event)
     then let* me := load u in ret (bridge.UserInfo.Nick (User.UserInfo me))
     else ret nick) in
  let* nick :=
    (if negb (bool_decide (bridge.ChannelMessageEvent.ChannelType event = "D"))
        && bool_decide (Channel.ID ch = "&messages")
     then let* name := gets (Channel.String
                               (Srv.Channel (bridge.ChannelMessageEvent.ChannelID event))) in
          ret (nick ++ "/" ++ name)
     else ret nick) in
  if bool_decide (bridge.ChannelMessageEvent.MessageType event = "notice")
  then Channel.SpoofNotice ch nick (bridge.ChannelMessageEvent.Text event)
  else Channel.SpoofMessage ch nick (bridge.ChannelMessageEvent.Text event).

Definition MsgSpoofUser (u : ptr) (sender : ptr) (rcvuser msg : string)
  : M State unit :=
  let msg := wordwrap_String msg 440 in
  let lines := strings.Split msg LF in
  forM_ lines (λ l,
    let l := strings.TrimSpace l in
    if (String.length l =? 0)%nat then ret tt
    else
      let* snd := load sender in
      emit (Encode (irc.Message.mk
                      (Some (irc.Prefix.mk
                               (bridge.UserInfo.Nick (User.UserInfo snd))
                               (bridge.UserInfo.Nick (User.UserInfo snd))
                               (bridge.UserInfo.Host (User.UserInfo snd))))
                      irc.PRIVMSG [rcvuser] (l ++ LF)))).

Definition createSpoof (u : ptr) (mmchannel : bridge.ChannelInfo.t)
  : M State (string → string → M State unit) :=
  if strings.Contains (bridge.ChannelInfo.Name mmchannel) "__" then
    let userID := hd "" (strings.Split (bridge.ChannelInfo.Name mmchannel) "__") in
    createUserFromInfo u (bridge.Bridger.GetUser br userID) ;;
    (* wrap MsgSpoofser here *)
    ret (λ spoofUsername msg, MsgSpoofUser u u spoofUsername msg)
  else
    let channelName :=
      if negb (bool_decide (bridge.ChannelInfo.TeamID mmchannel
                            = bridge.UserInfo.TeamID (bridge.Bridger.GetMe br)))
         || viper.GetBool v (bridge.Bridger.Protocol br ++ ".prefixmainteam")
      then bridge.Bridger.GetTeamName br (bridge.ChannelInfo.TeamID mmchannel)
           ++ "/" ++ bridge.ChannelInfo.Name mmchannel
      else bridge.ChannelInfo.Name mmchannel in
    syncChannel u (bridge.ChannelInfo.ID mmchannel) channelName ;;
    let ch := Srv.Channel (bridge.ChannelInfo.ID mmchannel) in
    ret (Channel.SpoofMessage ch).

(** The inner loop of the replay, [for _, post := range
    strings.Split(p.Message, "\n")]; the local variable [prevDate] is
    passed in and handed back. [ts] is the post's time in nanoseconds. *)
Fixpoint replayLines (spoof : string → string → M State unit)
    (p : model.Post.t) (ts : Z) (lines : list string) (prevDate : string)
  : M State string :=
  match lines with
  | [] => ret prevDate
  | post :: rest =>
      let user := bridge.Bridger.GetUser br (model.Post.UserId p) in
      let date := Format ts "2006-01-02" in
      let* prevDate :=
        (if negb (bool_decide (date = prevDate))
         then spoof "matterircd" ("Replaying since " ++ date) ;; ret date
         else ret prevDate) in
      let nick := bridge.UserInfo.Nick user in
      spoof nick ("[" ++ Format ts "15:04" ++ "] " ++ post) ;;
      replayLines spoof p ts rest prevDate
  end.

(** The outer loop, [for i := len(mmPostList.Order) - 1; i >= 0; i--], run
    over the identifiers still to visit, [mmPostList.Order] reversed. A
    missing entry of [Posts] is a nil post, and reading its type panics. *)
Fixpoint replayPosts (spoof : string → string → M State unit)
    (mmPostList : model.PostList.t) (ids : list string) (prevDate : string)
  : M State string :=
  match ids with
  | [] => ret prevDate
  | id :: rest =>
      match model.PostList.Posts mmPostList !! id with
      | None => panic
      | Some p =>
          if bool_decide (model.Post.Type_ p = model.POST_JOIN_LEAVE)
          then replayPosts spoof mmPostList rest prevDate
          else if (model.Post.DeleteAt p >? model.Post.CreateAt p)%Z
          then replayPosts spoof mmPostList rest prevDate
          else
            let ts := wrap64 (model.Post.CreateAt p * 1000000) in
            let* prevDate :=
              replayLines spoof p ts
                          (strings.Split (model.Post.Message p) LF) prevDate in
            replayPosts spoof mmPostList rest prevDate
      end
  end.

(** The body of [for brchannel := range channels] in
    [addUserToChannelWorker]: one channel taken from the queue. The wait
    on the throttle ticker has no effect on the state. *)
Definition addUserToChannelWorker_channel (u : ptr)
    (brchannel : bridge.ChannelInfo.t) : M State unit :=
  let* spoof := createSpoof u brchannel in
  let since := bridge.Bridger.GetLastViewedAt br (bridge.ChannelInfo.ID brchannel) in
  (* ignore invalid/deleted/old channels *)
  if (since =? 0)%Z then ret tt
  else
    (* post everything to the channel you haven't seen yet *)
    match bridge.Bridger.GetPostsSince br (bridge.ChannelInfo.ID brchannel) since with
    | None => ret tt
    | Some mmPostList =>
        (* traverse the order in reverse *)
        replayPosts spoof mmPostList (rev (model.PostList.Order mmPostList)) "" ;;
        when (negb (viper.GetBool v (bridge.Bridger.Protocol br ++ ".disableautoview")))
             (emit (UpdateLastViewed (bridge.ChannelInfo.ID brchannel)))
    end.

(** One worker draining the queue (the pool's other workers, which run
    concurrently on other channels, are not part of this embedding). *)
Definition addUserToChannelWorker (u : ptr)
    (channels : list bridge.ChannelInfo.t) : M State unit :=
  forM_ channels (addUserToChannelWorker_channel u).

Definition handleUserUpdateEvent (u : ptr) (user : bridge.UserInfo.t) : M State unit :=
  updateUserFromInfo u user ;; ret tt.

Definition handleChannelTopicEvent (u : ptr) (event : bridge.ChannelTopicEvent.t)
  : M State unit :=
  let* tu := gets (Srv.HasUser (bridge.ChannelTopicEvent.Sender event)) in
  let ch := Srv.Channel (bridge.ChannelTopicEvent.ChannelID event) in
  Channel.Topic ch tu (bridge.ChannelTopicEvent.Text event).

Definition handleDirectMessageEvent (u : ptr) (event : bridge.DirectMessageEvent.t)
  : M State unit :=
  if bridge.UserInfo.Me (bridge.DirectMessageEvent.Sender event) then
    let* me := load u in
    MsgSpoofUser u u (bridge.UserInfo.Nick (User.UserInfo me))
                 (bridge.DirectMessageEvent.Text event)
  else
    let* ghost := createUserFromInfo u (bridge.DirectMessageEvent.Sender event) in
    MsgSpoofUser u ghost
                 (bridge.UserInfo.Nick (bridge.DirectMessageEvent.Receiver event))
                 (bridge.DirectMessageEvent.Text event).

Definition handleChannelAddEvent (u : ptr) (event : bridge.ChannelAddEvent.t)
  : M State unit :=
  let ch := Srv.Channel (bridge.ChannelAddEvent.ChannelID event) in
  forM_ (bridge.ChannelAddEvent.Added event) (λ added,
    if bridge.UserInfo.Me added then
      syncChannel u (bridge.ChannelAddEvent.ChannelID event)
                  (bridge.Bridger.GetChannelName br (bridge.ChannelAddEvent.ChannelID event))
    else
      let* ghost := createUserFromInfo u added in
      Channel.Join ch ghost ;;
      match bridge.ChannelAddEvent.Adder event with
      | Some adder =>
          when (negb (bool_decide (bridge.UserInfo.Nick added = bridge.UserInfo.Nick adder))
                && negb (bool_decide (bridge.UserInfo.Nick adder = "system")))
               (Channel.SpoofMessage ch "system"
                  ("added " ++ bridge.UserInfo.Nick added ++ " to the channel by "
                   ++ bridge.UserInfo.Nick adder))
      | None => ret tt
      end).

(** The dump of the event on the standard output, [spew.Dump(event)], is
    not among the effects the trace records. *)
Definition handleChannelRemoveEvent (u : ptr) (event : bridge.ChannelRemoveEvent.t)
  : M State unit :=
  let ch := Srv.Channel (bridge.ChannelRemoveEvent.ChannelID event) in
  forM_ (bridge.ChannelRemoveEvent.Removed event) (λ removed,
    if bridge.UserInfo.Me removed then Channel.Part ch u
    else
      let* ghost := createUserFromInfo u removed in
      Channel.Part ch ghost ;;
      match bridge.ChannelRemoveEvent.Remover event with
      | Some remover =>
          when (negb (bool_decide (bridge.UserInfo.Nick removed
                                   = bridge.UserInfo.Nick remover))
                && negb (bool_decide (bridge.UserInfo.Nick remover = "system")))
               (Channel.SpoofMessage ch "system"
                  ("removed " ++ bridge.UserInfo.Nick removed ++ " from the channel by "
                   ++ bridge.UserInfo.Nick remover))
      | None => ret tt
      end).

Definition handleFileEvent (u : ptr) (event : bridge.FileEvent.t) : M State unit :=
  let* ch := getMessageChannel u (bridge.FileEvent.ChannelID event)
               (bridge.FileEvent.ChannelType event) (bridge.FileEvent.Sender event) in
  if bool_decide (bridge.FileEvent.ChannelType event = "D") then
    forM_ (bridge.FileEvent.Files event) (λ fname,
      if bridge.UserInfo.Me (bridge.FileEvent.Sender event) then
        if bridge.UserInfo.Me (bridge.FileEvent.Receiver event) then
          let* me := load u in
          MsgSpoofUser u u (bridge.UserInfo.Nick (User.UserInfo me))
                       ("download file -" ++ bridge.File.Name fname)
        else
          MsgSpoofUser u u (bridge.UserInfo.Nick (bridge.FileEvent.Receiver event))
                       ("download file -" ++ bridge.File.Name fname)
      else
        let* ghost := createUserFromInfo u (bridge.FileEvent.Sender event) in
        MsgSpoofUser u ghost (bridge.UserInfo.Nick (bridge.FileEvent.Receiver event))
                     ("download file -" ++ bridge.File.Name fname))
  else
    forM_ (bridge.FileEvent.Files event) (λ fname,
      if bridge.UserInfo.Me (bridge.FileEvent.Sender event) then
        let* me := load u in
        Channel.SpoofMessage ch (bridge.UserInfo.Nick (User.UserInfo me))
                             ("download file -" ++ bridge.File.Name fname)
      else
        Channel.SpoofMessage ch (bridge.UserInfo.Nick (bridge.FileEvent.Sender event))
                             ("download file -" ++ bridge.File.Name fname)).

(** [for event := range events], the events taken from the channel in
    order; the type switch, on the kinds of event of [bridge.Event]. *)
Definition handleEventChan (u : ptr) (events : list bridge.Event) : M State unit :=
  forM_ events (λ event,
    match event with
    | bridge.channel_message e => handleChannelMessageEvent u e
    | bridge.direct_message e => handleDirectMessageEvent u e
    | bridge.channel_topic e => handleChannelTopicEvent u e
    | bridge.file_event e => handleFileEvent u e
    | bridge.channel_add e => handleChannelAddEvent u e
    | bridge.channel_remove e => handleChannelRemoveEvent u e
    end).

Definition isValidServer (u : ptr) (server protocol : string) : bool :=
  if (length (viper.GetStringSlice v (protocol ++ ".restrict")) =? 0)%nat then true
  else existsb (λ srv, bool_decide (srv = server))
               (viper.GetStringSlice v (protocol ++ ".restrict")).

(** [u.br.GetUsers()] and [u.br.GetChannels()], two methods of the bridge
    that [addUsersToChannels] alone calls. *)
Context (GetUsers : list bridge.UserInfo.t) (GetChannels : list bridge.ChannelInfo.t).

(** [addUsersToChannels] up to the start of its workers, once the bridge
    is there (the wait for it at the start is not part of the embedding:
    [br] is fixed): the statements that run before any worker does. The
    function then starts the workers and feeds them the bridge's channels,
    while they run beside it; the channels it feeds them are the result
    here, and what a worker does with one is [addUserToChannelWorker]. *)
Definition addUsersToChannels_setup (u : ptr) : M State (list bridge.ChannelInfo.t) :=
  (* add all users, also who are not on channels *)
  let ch := Srv.Channel "&users" in
  (* create and join the users *)
  let* users := CreateUsersFromInfo u GetUsers in
  Srv.BatchAdd users ;;
  addUsersToChannel u users "&users" "&users" ;;
  (* join ourself *)
  Channel.Join ch u ;;
  (* channel that receives messages from channels not joined on irc *)
  let ch := Srv.Channel "&messages" in
  Channel.Join ch u ;;
  ret GetChannels.

End Session.

End irckit.

(* ===================================================================== *)
(** ** Package [mattermost]: the backend adapter                          *)
(* ===================================================================== *)

Module mattermost.

(** What the adapter reads from [matterclient.MMClient], the transport
    client (an external library). A call that answers with an error, or a
    cache lookup that answers nil, is [None]. *)
Module MMClient.
Record t := mk {
  User : model.User.t;
  Team_Id : string;
  Client_Url : string;
  GetUser : string → option model.User.t;
  GetChannelName : string → string;
  GetTeamFromChannel : string → string;
  GetTeamName : string → string;
  GetFileLinks : list string → list string;
  Client_GetPost : string → option model.Post.t;
  Client_GetUserByUsername : string → option model.User.t
}.
End MMClient.

(** [model.WebSocketEvent]. [Post] is the post that [model.PostFromJson]
    decodes from [Data["post"]], and its [Props] the object that
    [model.StringInterfaceFromJson] finds under ["props"] in the same text;
    [Data] holds the event's other fields. *)
Module WebSocketEvent.
Record t := mk {
  Event : string;
  Data : gmap string model.JSON;
  Post : model.Post.t;
  Broadcast_ChannelId : string;
  Broadcast_UserId : string
}.
End WebSocketEvent.

(** What the adapter does outwards, in order: an event sent on
    [m.eventChan], or a call on the transport client. *)
Inductive Action :=
| Send (e : bridge.Event)
| CreatePost (p : model.Post.t)
| SendDirectMessageProps (username text rootID : string)
                         (props : gmap string model.JSON)
| UpdateChannels
| UpdateLastViewed (ch : string).

(** A field of a decoded JSON object; of two equal keys the later one is
    the one the decoder keeps. *)
Fixpoint jfield (k : string) (fields : list (string * model.JSON))
  : option model.JSON :=
  match fields with
  | [] => None
  | (k', x) :: rest =>
      match jfield k rest with
      | Some y => Some y
      | None => if bool_decide (k = k') then Some x else None
      end
  end.

(** The type assertions [x.(string)] and [x.(bool)] on a map entry. *)
Definition asString (x : option model.JSON) : option string :=
  match x with Some (model.JString s) => Some s | _ => None end.
Definition asBool (x : option model.JSON) : option bool :=
  match x with Some (model.JBool b) => Some b | _ => None end.

Definition with_Message (msg : string) (p : model.Post.t) : model.Post.t :=
  model.Post.mk (model.Post.Id p) (model.Post.CreateAt p) (model.Post.DeleteAt p)
    (model.Post.UserId p) (model.Post.ChannelId p) (model.Post.ParentId p) msg
    (model.Post.Type_ p) (model.Post.Props p) (model.Post.FileIds p)
    (model.Post.HasReactions p).

Definition isValidNick (s : string) : bool :=
  if (String.length s <? 1)%nat || (27 <? String.length s)%nat then false
  else
    match s with
    | EmptyString => false
    | String c0 rest =>
        let b0 := nat_of_ascii c0 in
        if negb (b0 =? 59)%nat && ((b0 <? 65)%nat || (125 <? b0)%nat) then false
        else
          forallb (λ c, let b := nat_of_ascii c in
                        negb (negb (b =? 45)%nat && negb (b =? 59)%nat
                              && ((b <? 65)%nat || (125 <? b)%nat)
                              && ((b <? 48)%nat || (57 <? b)%nat)))
                  (list_ascii_of_string rest)
    end.

(** [regexp.MustCompile("^[a-zA-Z0-9_]*$").MatchString]. *)
Definition matchNickChars (s : string) : bool :=
  forallb (λ c, let b := nat_of_ascii c in
                ((97 <=? b)%nat && (b <=? 122)%nat)
                || ((65 <=? b)%nat && (b <=? 90)%nat)
                || ((48 <=? b)%nat && (b <=? 57)%nat)
                || (b =? 95)%nat)
          (list_ascii_of_string s).

Section Adapter.

(** [m.mc] and [m.v]. *)
Context (mc : MMClient.t) (v : viper.Viper).

Definition createUser (mmuser : option model.User.t) : bridge.UserInfo.t :=
  match mmuser with
  | None => bridge.UserInfo.zero
  | Some mmuser =>
      let nick :=
        if viper.GetBool v "mattermost.PreferNickname"
           && isValidNick (model.User.Nickname mmuser)
        then model.User.Nickname mmuser
        else model.User.Username mmuser in
      let me := bool_decide (model.User.Id mmuser = model.User.Id (MMClient.User mc)) in
      let teamID := if me then MMClient.Team_Id mc else "" in
      bridge.UserInfo.mk nick (model.User.Id mmuser)
        (model.User.FirstName mmuser ++ " " ++ model.User.LastName mmuser)
        [] (MMClient.Client_Url mc) (model.User.Roles mmuser) "" true me
        (model.User.Username mmuser) teamID
        (model.User.FirstName mmuser) (model.User.LastName mmuser)
  end.

Definition GetUser (userID : string) : bridge.UserInfo.t :=
  createUser (MMClient.GetUser mc userID).

Definition GetMe : bridge.UserInfo.t :=
  createUser (Some (MMClient.User mc)).

Definition GetUserByUsername (username : string) : bridge.UserInfo.t :=
  match MMClient.Client_GetUserByUsername mc username with
  | None => bridge.UserInfo.zero
  | Some mmuser => createUser (Some mmuser)
  end.

Definition GetChannelName (channelID : string) : string :=
  let channelName := MMClient.GetChannelName mc channelID in
  let teamID := MMClient.GetTeamFromChannel mc channelID in
  let teamName := MMClient.GetTeamName mc teamID in
  if negb (bool_decide (channelName = "")) then
    let name := "" in
    let name :=
      if (negb (bool_decide (teamName = ""))
          && negb (bool_decide (teamID = MMClient.Team_Id mc)))
         || viper.GetBool v "mattermost.PrefixMainTeam"
      then "#" ++ teamName ++ "/" ++ channelName else name in
    let name :=
      if bool_decide (teamID = MMClient.Team_Id mc)
         && negb (viper.GetBool v "mattermost.PrefixMainTeam")
      then "#" ++ channelName else name in
    let name := if bool_decide (teamID = "G") then "#" ++ channelName else name in
    name
  else channelID.

(** The marker property of the bridge's own posts. *)
Definition MsgUser (username text : string) : M (list Action) unit :=
  let props : gmap string model.JSON :=
    <["matterircd_" ++ model.User.Id (MMClient.User mc) := model.JBool true]> ∅ in
  modify (λ tr, (tr ++ [SendDirectMessageProps username text "" props])%list).

Definition MsgChannel (channelID text : string) : M (list Action) unit :=
  let props : gmap string model.JSON :=
    <["matterircd_" ++ model.User.Id (MMClient.User mc) := model.JBool true]> ∅ in
  let post := model.Post.mk "" 0 0 "" channelID "" text "" props [] false in
  modify (λ tr, (tr ++ [CreatePost post])%list).

Definition wsActionPostSkip (rmsg : WebSocketEvent.t) : bool :=
  let data := WebSocketEvent.Post rmsg in
  let extraProps := model.Post.Props data in
  if bool_decide (WebSocketEvent.Event rmsg = model.WEBSOCKET_EVENT_POST_EDITED)
     && model.Post.HasReactions data
  then true
  else if bool_decide (model.Post.UserId data = bridge.UserInfo.User GetMe) then
    if bool_decide (is_Some (asBool (extraProps !! ("matterircd_" ++ bridge.UserInfo.User GetMe))))
    then true
    else if bool_decide (model.Post.Type_ data = model.POST_JOIN_LEAVE)
            || bool_decide (model.Post.Type_ data = model.POST_JOIN_CHANNEL)
    then true
    else false
  else false.

Definition getFilesFromData (data : model.Post.t) : list bridge.File.t :=
  bridge.File.mk <$> MMClient.GetFileLinks mc (model.Post.FileIds data).

Definition send (e : bridge.Event) : M (list Action) unit :=
  modify (λ tr, (tr ++ [Send e])%list).

Definition handleFileEvent (channelType : string) (ghost : bridge.UserInfo.t)
    (data : model.Post.t) : M (list Action) unit :=
  let files := (λ fname, bridge.File.mk (bridge.File.Name fname))
                 <$> getFilesFromData data in
  if (0 <? length files)%nat then
    if bool_decide (channelType = "D")
    then send (bridge.file_event
                 (bridge.FileEvent.mk GetMe ghost (model.Post.ChannelId data)
                                      channelType files))
    else send (bridge.file_event
                 (bridge.FileEvent.mk ghost ghost (model.Post.ChannelId data)
                                      channelType files))
  else ret tt.

Definition wsActionPostJoinLeave (data : model.Post.t)
    (extraProps : gmap string model.JSON) : M (list Action) unit :=
  if bool_decide (model.Post.Type_ data = "system_add_to_channel") then
    match asString (extraProps !! "addedUsername") with
    | Some added =>
        match asString (extraProps !! "username") with
        | Some adder =>
            send (bridge.channel_add
                    (bridge.ChannelAddEvent.mk (Some (GetUserByUsername adder))
                       [GetUserByUsername added] (model.Post.ChannelId data)))
        | None => ret tt
        end
    | None => ret tt
    end
  else if bool_decide (model.Post.Type_ data = "system_remove_from_channel") then
    match asString (extraProps !! "removedUsername") with
    | Some removed =>
        send (bridge.channel_remove
                (bridge.ChannelRemoveEvent.mk None [GetUserByUsername removed]
                   (model.Post.ChannelId data)))
    | None => ret tt
    end
  else ret tt.

(** [for _, entry := range entries]: the fallback text of every attachment
    is added to the message; [f["fallback"].(string)] panics when the
    attachment has none. *)
Fixpoint addFallbacks (entries : list model.JSON) (msg : string)
  : M (list Action) string :=
  match entries with
  | [] => ret msg
  | model.JObject f :: rest =>
      match asString (jfield "fallback" f) with
      | Some fb => addFallbacks rest (msg ++ LF ++ fb)
      | None => panic
      end
  | _ :: rest => addFallbacks rest msg
  end.

(** [msgs[len(msgs)-1] = msgs[len(msgs)-1] + " (edited)"]. *)
Fixpoint markEdited (msgs : list string) : list string :=
  match msgs with
  | [] => []
  | [m] => [m ++ " (edited)"]
  | m :: rest => m :: markEdited rest
  end.

Definition handleWsActionPost (rmsg : WebSocketEvent.t) : M (list Action) unit :=
  let data := WebSocketEvent.Post rmsg in
  let props := WebSocketEvent.Data rmsg in
  let extraProps := model.Post.Props data in
  if wsActionPostSkip rmsg then ret tt
  else
    let data :=
      if negb (bool_decide (model.Post.ParentId data = "")) then
        match MMClient.Client_GetPost mc (model.Post.ParentId data) with
        | None => data
        | Some parentPost =>
            let parentGhost := GetUser (model.Post.UserId parentPost) in
            if viper.GetBool v "mattermost.HideReplies"
            then with_Message (model.Post.Message data ++ " (re @"
                               ++ bridge.UserInfo.Nick parentGhost ++ ")") data
            else with_Message (model.Post.Message data ++ " (re @"
                               ++ bridge.UserInfo.Nick parentGhost ++ ": "
                               ++ model.Post.Message parentPost ++ ")") data
        end
      else data in
    (* create new "ghost" user *)
    let ghost := GetUser (model.Post.UserId data) in
    (* our own message, set our IRC self as user, not our mattermost self *)
    let ghost := if bool_decide (model.Post.UserId data = bridge.UserInfo.User GetMe)
                 then GetMe else ghost in
    (* if we got attachments and we have a fallback message, show this *)
    let* message :=
      (match extraProps !! "attachments" with
       | Some (model.JArray entries) => addFallbacks entries (model.Post.Message data)
       | _ => ret (model.Post.Message data)
       end) in
    let data := with_Message message data in
    (* check if we have a override_username (from webhooks) and use it *)
    let overrideUsername := default "" (asString (extraProps !! "override_username")) in
    let ghost :=
      if negb (bool_decide (overrideUsername = "")) && matchNickChars overrideUsername
      then bridge.UserInfo.with_Nick overrideUsername ghost else ghost in
    if bool_decide (model.Post.Type_ data = model.POST_JOIN_LEAVE)
       || bool_decide (model.Post.Type_ data = "system_leave_channel")
       || bool_decide (model.Post.Type_ data = "system_join_channel")
       || bool_decide (model.Post.Type_ data = "system_add_to_channel")
       || bool_decide (model.Post.Type_ data = "system_remove_from_channel")
    then
      modify (λ tr, (tr ++ [UpdateChannels])%list) ;;
      wsActionPostJoinLeave data extraProps
    else
      when (bool_decide (model.Post.Type_ data = "system_header_change"))
           (match asString (extraProps !! "new_header"),
                  asString (extraProps !! "username") with
            | Some topic, Some topicuser =>
                send (bridge.channel_topic
                        (bridge.ChannelTopicEvent.mk topic (model.Post.ChannelId data)
                                                     topicuser))
            | _, _ => ret tt
            end) ;;
      let msgs := strings.Split (model.Post.Message data) LF in
      let channelType := default "" (asString (props !! "channel_type")) in
      (* add an edited string when messages are edited *)
      let edited := (0 <? length msgs)%nat
                    && bool_decide (WebSocketEvent.Event rmsg
                                    = model.WEBSOCKET_EVENT_POST_EDITED) in
      let msgs := if edited then markEdited msgs else msgs in
      (* check if we have an edited direct message (channels have __) *)
      let channelType :=
        if edited && strings.Contains (GetChannelName (model.Post.ChannelId data)) "__"
        then "D" else channelType in
      forM_ msgs (λ msg,
        if bool_decide (msg = "") then ret tt
        else if bool_decide (channelType = "D") then
          send (bridge.direct_message
                  (bridge.DirectMessageEvent.mk msg GetMe ghost (getFilesFromData data)))
        else if strings.Contains (model.Post.Message data) "@channel"
                || strings.Contains (model.Post.Message data) "@here"
                || strings.Contains (model.Post.Message data) "@all" then
          send (bridge.channel_message
                  (bridge.ChannelMessageEvent.mk msg (model.Post.ChannelId data) ghost
                     "notice" channelType (getFilesFromData data)))
        else
          send (bridge.channel_message
                  (bridge.ChannelMessageEvent.mk msg (model.Post.ChannelId data) ghost
                     "" channelType (getFilesFromData data)))) ;;
      handleFileEvent channelType ghost data ;;
      (* the debug line reads m.mc.GetUser(data.UserId).Username *)
      (match MMClient.GetUser mc (model.Post.UserId data) with
       | None => panic
       | Some _ => ret tt
       end) ;;
      (* updatelastviewed *)
      when (negb (viper.GetBool v "mattermost.DisableAutoView"))
           (modify (λ tr, (tr ++ [UpdateLastViewed (model.Post.ChannelId data)])%list)).

(** [checkWsActionMessage]; [tick] says whether the throttle ticker has a
    tick waiting. *)
Definition checkWsActionMessage (rmsg : WebSocketEvent.t) (tick : bool)
  : M (list Action) unit :=
  if negb (bool_decide (GetChannelName (WebSocketEvent.Broadcast_ChannelId rmsg) = ""))
  then ret tt
  else when tick (modify (λ tr, (tr ++ [UpdateChannels])%list)).

(** The handlers of the events that carry no post
    ([handleWsActionUserAdded] and the like). *)
Context (handleOther : WebSocketEvent.t → M (list Action) unit).

(** One turn of the loop of [handleWsMessage], for the message [rmsg] taken
    from [m.mc.MessageChan]. *)
Definition handleWsMessage (rmsg : WebSocketEvent.t) (tick : bool)
  : M (list Action) unit :=
  checkWsActionMessage rmsg tick ;;
  if bool_decide (WebSocketEvent.Event rmsg = model.WEBSOCKET_EVENT_POSTED)
     || bool_decide (WebSocketEvent.Event rmsg = model.WEBSOCKET_EVENT_POST_EDITED)
  then handleWsActionPost rmsg
  else handleOther rmsg.

Definition handleWsActionUserAdded (rmsg : WebSocketEvent.t) : M (list Action) unit :=
  match asString (WebSocketEvent.Data rmsg !! "user_id") with
  | None => ret tt
  | Some userID =>
      send (bridge.channel_add
              (bridge.ChannelAddEvent.mk
                 (Some (bridge.UserInfo.with_Nick "system" bridge.UserInfo.zero))
                 [GetUser userID] (WebSocketEvent.Broadcast_ChannelId rmsg)))
  end.

(** The line the function prints on the standard output when the event
    names no remover is not among the actions the trace records. *)
Definition handleWsActionUserRemoved (rmsg : WebSocketEvent.t) : M (list Action) unit :=
  let userID := default (WebSocketEvent.Broadcast_UserId rmsg)
                        (asString (WebSocketEvent.Data rmsg !! "user_id")) in
  match asString (WebSocketEvent.Data rmsg !! "remover_id") with
  | None => ret tt
  | Some removerID =>
      let channelID := default (WebSocketEvent.Broadcast_ChannelId rmsg)
                               (asString (WebSocketEvent.Data rmsg !! "channel_id")) in
      send (bridge.channel_remove
              (bridge.ChannelRemoveEvent.mk (Some (GetUser removerID))
                 [GetUser userID] channelID))
  end.

(** More of the transport client: its caches [GetChannels] and
    [GetMoreChannels], in the order it returns them;
    [Client.GetTeamByName], the identifier of the team of that name, [None]
    when the client answers nil; [GetChannelId]; whether [JoinChannel]
    answers with an error; [GetChannelHeader]; and
    [Client.GetUsersInChannel] for a channel and a page of 200 users, [None]
    when it answers with an error. *)
Context (mc_GetChannels mc_GetMoreChannels : list model.Channel.t).
Context (Client_GetTeamByName : string → option string).
Context (mc_GetChannelId : string → string → string).
Context (mc_JoinChannel_fails : string → bool).
Context (mc_GetChannelHeader : string → string).
Context (Client_GetUsersInChannel : string → nat → option (list model.User.t)).

(** [Join]. The state is the list of the channels [JoinChannel] was called
    for; the result is the triple the Go method returns, the error [None]
    for nil. *)
Definition Join (channelName : string)
  : M (list string) (string * string * option string) :=
  let teamID := "" in
  let sp := strings.Split channelName "/" in
  match (if (1 <? length sp)%nat then
           match Client_GetTeamByName (nth 0 sp "") with
           | None => None
           | Some team_Id => Some (team_Id, nth 1 sp "")
           end
         else Some (teamID, channelName)) with
  | None => ret ("", "", Some "cannot join channel (+i)")
  | Some (teamID, channelName) =>
      let teamID := if bool_decide (teamID = "") then MMClient.Team_Id mc else teamID in
      let channelID := mc_GetChannelId channelName teamID in
      modify (λ joined, (joined ++ [channelID])%list) ;;
      if mc_JoinChannel_fails channelID
      then ret ("", "", Some "cannot join channel (+i)")
      else
        let topic := mc_GetChannelHeader channelID in
        ret (channelID, topic, None)
  end.

(** [List]: the map [channelinfo] after the loop; the error returned is
    always nil. *)
Definition List : gmap string string :=
  foldl (λ (channelinfo : gmap string string) (channel : model.Channel.t),
           if strings.Contains (model.Channel.Name channel) "__" then channelinfo
           else
             let channelName := "#" ++ model.Channel.Name channel in
             (* prefix channels outside of our team with team name *)
             let channelName :=
               if negb (bool_decide (model.Channel.TeamId channel = MMClient.Team_Id mc))
               then MMClient.GetTeamName mc (model.Channel.TeamId channel)
                    ++ "/" ++ model.Channel.Name channel
               else channelName in
             <[channelName := strings.ReplaceAll (model.Channel.Header channel) LF " | "]>
               channelinfo)
        ∅ (mc_GetChannels ++ mc_GetMoreChannels)%list.

Definition GetChannels : list bridge.ChannelInfo.t :=
  (λ mmchannel, bridge.ChannelInfo.mk (model.Channel.Name mmchannel)
                  (model.Channel.Id mmchannel) (model.Channel.TeamId mmchannel))
    <$> mc_GetChannels.

(** The loop of [GetChannelUsers], [for len(mmusersPaged) > 0]: it ends
    when a page comes back empty, and [fuel] bounds the number of its
    turns. The result is [None] when the fuel runs out, [Some None] when a
    request fails, and the users gathered otherwise. *)
Fixpoint GetChannelUsers_pages (fuel : nat) (channelID : string) (idx : nat)
    (mmusersPaged mmusers : list model.User.t)
  : option (option (list model.User.t)) :=
  match mmusersPaged with
  | [] => Some (Some mmusers)
  | _ :: _ =>
      match fuel with
      | O => None
      | S fuel' =>
          match Client_GetUsersInChannel channelID idx with
          | None => Some None
          | Some mmusersPaged =>
              GetChannelUsers_pages fuel' channelID (idx + 1) mmusersPaged
                                    (mmusers ++ mmusersPaged)%list
          end
      end
  end.

Definition GetChannelUsers (fuel : nat) (channelID : string)
  : option (option (list bridge.UserInfo.t)) :=
  let idx := 0%nat in
  match Client_GetUsersInChannel channelID idx with
  | None => Some None
  | Some mmusersPaged =>
      match GetChannelUsers_pages fuel channelID idx mmusersPaged [] with
      | None => None
      | Some None => Some None
      | Some (Some mmusers) => Some (Some ((λ mmuser, createUser (Some mmuser)) <$> mmusers))
      end
  end.

End Adapter.

End mattermost.

(* ===================================================================== *)
(** ** The vocabulary of the properties                                   *)
(* ===================================================================== *)

Import irckit.

#[local] Close Scope Z_scope.
#[local] Open Scope list_scope.

(** *** The identity registry *)

(** The backend identifier behind a registered pointer. *)
Definition uid (s : State) (g : ptr) : string := bridge.UserInfo.User (info_of s g).

(** The ghosts registered for a backend identifier. *)
Definition ghosts_for (id : string) (s : State) : list ptr :=
  filter (λ g, uid s g = id) (users s).

(** Every registered user is an allocated object. *)
Definition registered_ok (s : State) : Prop :=
  Forall (λ g, (g < length (heap s))%nat) (users s).

(** A call on the registry: [resolve] is [createUserFromInfo], [refresh]
    is [updateUserFromInfo]. *)
Inductive RegistryCall :=
| resolve (info : bridge.UserInfo.t)
| refresh (info : bridge.UserInfo.t).

Definition call (Prefix : User.t → irc.Prefix.t) (u : ptr) (c : RegistryCall)
  : M State ptr :=
  match c with
  | resolve info => createUserFromInfo u info
  | refresh info => updateUserFromInfo Prefix u info
  end.

Definition calls (Prefix : User.t → irc.Prefix.t) (u : ptr) (cs : list RegistryCall)
  : M State unit :=
  forM_ cs (λ c, call Prefix u c ;; ret tt).

(** The state a registration leaves. *)
Definition registered (info : bridge.UserInfo.t) (s : State) : State :=
  set_users (users s ++ [length (heap s)]) (set_heap (heap s ++ [User.mk info]) s).

(** The NICK line [updateUserFromInfo] sends for the ghost object [x]. *)
Definition nickChange (Prefix : User.t → irc.Prefix.t) (x : User.t)
    (info : bridge.UserInfo.t) : Effect :=
  Encode (irc.Message.mk (Some (Prefix x)) irc.NICK [bridge.UserInfo.Nick info] "").

(** The state a refresh of the ghost [g], whose object was [x], leaves. *)
Definition refreshed (Prefix : User.t → irc.Prefix.t) (g : ptr) (x : User.t)
    (info : bridge.UserInfo.t) (s : State) : State :=
  set_heap (<[g := User.mk info]> (heap s))
    (if decide (bridge.UserInfo.Nick (User.UserInfo x) = bridge.UserInfo.Nick info)
     then s else set_trace (trace s ++ [nickChange Prefix x info]) s).

(** [frame s s']: from [s] to [s'] the display names and the trace are the
    same, every allocated user is still the same object, and a well-formed
    registry stays well-formed. *)
Definition frame (s s' : State) : Prop :=
  names s' = names s ∧ trace s' = trace s ∧ heap s `prefix_of` heap s' ∧
  (registered_ok s → registered_ok s').

(** *** The routing policy *)

Definition joininclude (br : bridge.Bridger.t) (v : viper.Viper) : list string :=
  viper.GetStringSlice v (bridge.Bridger.Protocol br +:+ ".joininclude").
Definition joinexclude (br : bridge.Bridger.t) (v : viper.Viper) : list string :=
  viper.GetStringSlice v (bridge.Bridger.Protocol br +:+ ".joinexclude").

(** Spec, 4.3 step 3, in its words: excluded, to the overflow channel;
    else an inclusion list configured and non-empty and the channel not in
    it, to the overflow channel; else the mapped channel. *)
Definition route_by_policy (je ji : list string) (display : string → string)
    (channelID : string) : string :=
  if bool_decide (display channelID ∈ je) then "&messages"
  else if bool_decide (ji ≠ [] ∧ display channelID ∉ ji) then "&messages"
  else channelID.

(** The nick a channel message is shown under before any suffix: the
    owner's own nick for the owner's messages, the sender's otherwise. *)
Definition shown_nick (u : ptr) (event : bridge.ChannelMessageEvent.t) (s : State)
  : string :=
  if bridge.UserInfo.Me (bridge.ChannelMessageEvent.Sender event)
  then bridge.UserInfo.Nick (info_of s u)
  else bridge.UserInfo.Nick (bridge.ChannelMessageEvent.Sender event).

(** The effect by which a channel message reaches the IRC client. *)
Definition delivered (event : bridge.ChannelMessageEvent.t) (ch nick : string) : Effect :=
  if bool_decide (bridge.ChannelMessageEvent.MessageType event = "notice")
  then SpoofNotice ch nick (bridge.ChannelMessageEvent.Text event)
  else SpoofMessage ch nick (bridge.ChannelMessageEvent.Text event).

(** *** The membership synchronizer *)

(** What [mayJoin] answers in a state. *)
Definition mayJoin_answer (br : bridge.Bridger.t) (v : viper.Viper) (u : ptr)
    (id : string) (s : State) : bool :=
  default false (fst (mayJoin br v u id s)).

(** The objects [CreateUsersFromInfo] allocates: one for each profile that
    is not the owner's. *)
Definition fresh_infos (infos : list bridge.UserInfo.t) : list User.t :=
  User.mk <$> filter (λ i, bridge.UserInfo.Me i = false) infos.

(** The state [syncChannel] reaches before it turns to the owner: the
    channel's members other than the owner, as fresh ghosts, registered and
    joined to the all-users channel and to the channel. *)
Definition synced_ghosts (id : string) (infos : list bridge.UserInfo.t) (s : State)
  : State :=
  let gs := seq (length (heap s)) (length (fresh_infos infos)) in
  set_members (list_to_set ((λ g, (id, g)) <$> gs)
               ∪ (list_to_set ((λ g, ("&users", g)) <$> gs) ∪ members s))
    (set_users (users s ++ gs) (set_heap (heap s ++ fresh_infos infos) s)).

(** The state the owner's join leaves: a member, the topic set. *)
Definition owner_joined (br : bridge.Bridger.t) (u : ptr) (id : string) (s : State)
  : State :=
  set_topics (<[id := (Srv.HasUser (bridge.Bridger.Protocol br) s,
                       bridge.Bridger.Topic br id)]> (topics s))
    (set_members ({[ (id, u) ]} ∪ members s) s).

(** *** The backfill replay *)

(** A recorded call of [spoof], made. *)
Definition apply_spoof {S} (spoof : string → string → M S unit) (c : string * string)
  : M S unit := spoof c.1 c.2.

(** The instant of a post, in nanoseconds, as the worker computes it. *)
Definition post_time (p : model.Post.t) : Z := wrap64 (model.Post.CreateAt p * 1000000).

(** A post the replay does not skip: not of type [model.POST_JOIN_LEAVE],
    and not deleted after it was created. *)
Definition kept (p : model.Post.t) : bool :=
  negb (bool_decide (model.Post.Type_ p = model.POST_JOIN_LEAVE))
  && negb (model.Post.DeleteAt p >? model.Post.CreateAt p)%Z.

(** The posts the identifiers name, in the identifiers' order. *)
Definition listed (pl : model.PostList.t) (ids : list string) : list model.Post.t :=
  omap (λ id, model.PostList.Posts pl !! id) ids.

(** The posts the replay of a post list plays: the backend's list, newest
    first, reversed, the skipped posts left out. *)
Definition replayed_posts (pl : model.PostList.t) : list model.Post.t :=
  filter kept (rev (listed pl (model.PostList.Order pl))).

(** The arguments of the call [spoof(nick, text)] for a date marker. *)
Definition marker (date : string) : string * string :=
  ("matterircd", "Replaying since " +:+ date).

(** A call that replays a line of a post, as opposed to a marker. *)
Definition is_line (c : string * string) : bool := strings.HasPrefix c.2 "[".

(** The dates of a sequence, a date dropped when it repeats the one before. *)
Fixpoint day_changes (prev : string) (dates : list string) : list string :=
  match dates with
  | [] => []
  | d :: rest => (if bool_decide (d = prev) then [] else [d]) ++ day_changes d rest
  end.

(** Oldest first. *)
Definition chronological (ps : list model.Post.t) : Prop :=
  StronglySorted (λ p q, (post_time p ≤ post_time q)%Z) ps.

Section ReplayVocabulary.
Context (br : bridge.Bridger.t) (v : viper.Viper) (Format : Z → string → string).

Definition post_date (p : model.Post.t) : string := Format (post_time p) "2006-01-02".

(** The arguments of the call [spoof(nick, text)] for one line of a post. *)
Definition line_of (p : model.Post.t) (segment : string) : string * string :=
  (bridge.UserInfo.Nick (bridge.Bridger.GetUser br (model.Post.UserId p)),
   "[" +:+ Format (post_time p) "15:04" +:+ "] " +:+ segment).

Definition post_lines (p : model.Post.t) : list (string * string) :=
  line_of p <$> strings.Split (model.Post.Message p) LF.

(** The calls of [spoof] a replay of the posts [ps] makes, [prev] being the
    date of the last marker. *)
Fixpoint replay_calls (prev : string) (ps : list model.Post.t) : list (string * string) :=
  match ps with
  | [] => []
  | p :: rest =>
      (if bool_decide (post_date p = prev) then [] else [marker (post_date p)])
      ++ post_lines p ++ replay_calls (post_date p) rest
  end.

(** The date of the last marker when the replay of [ps] ends. *)
Definition last_date (prev : string) (ps : list model.Post.t) : string :=
  List.last (post_date <$> ps) prev.

(** Equal days are not interrupted: between two instants of one calendar
    day every instant is of that day. *)
Definition day_monotone : Prop :=
  ∀ t1 t2 t3 : Z, (t1 ≤ t2)%Z → (t2 ≤ t3)%Z →
    Format t1 "2006-01-02" = Format t3 "2006-01-02" →
    Format t2 "2006-01-02" = Format t1 "2006-01-02".

(** The step that closes the replay of a channel. *)
Definition mark_viewed (id : string) : M State unit :=
  when (negb (viper.GetBool v (bridge.Bridger.Protocol br +:+ ".disableautoview")))
       (emit (UpdateLastViewed id)).

End ReplayVocabulary.

(** *** Spoofed private messages *)

(** White space only: the text, in UTF-8, of white-space runes and nothing
    else (of none, for the empty string). *)
Definition blank (s : string) : Prop :=
  ∃ rs, Forall (λ r, r ∈ unicode.White_Space) rs
        ∧ list_ascii_of_string s = concat (utf8.EncodeRune <$> rs).

(** [l] is made of words of [code], one after the other. *)
Definition made_of (code : list (list ascii)) (l : list ascii) : Prop :=
  ∃ ws, Forall (λ w, w ∈ code) ws ∧ l = concat ws.

(** The lines [MsgSpoofUser] sends for a text: the text wrapped at 440,
    split at the line feeds, each piece trimmed, the empty ones dropped. *)
Definition sent_lines (wordwrap_String : string → nat → string) (msg : string)
  : list string :=
  filter (λ l, l ≠ "") (strings.TrimSpace <$> strings.Split (wordwrap_String msg 440%nat) LF).

(** The PRIVMSG line for a sender object, a receiver and a text. *)
Definition privmsg (snd : User.t) (rcvuser l : string) : Effect :=
  Encode (irc.Message.mk
            (Some (irc.Prefix.mk (bridge.UserInfo.Nick (User.UserInfo snd))
                                 (bridge.UserInfo.Nick (User.UserInfo snd))
                                 (bridge.UserInfo.Host (User.UserInfo snd))))
            irc.PRIVMSG [rcvuser] (l +:+ LF)).

(** *** The adapter *)

(** The property that marks the bridge's own posts. *)
Definition marker_key (mc : mattermost.MMClient.t) : string :=
  "matterircd_" +:+ model.User.Id (mattermost.MMClient.User mc).

(** *** The session's other handlers *)

(** [grown s s']: from [s] to [s'] the display names are the same, every
    allocated user is still the same object, every registered user is still
    registered, in the same place, and a well-formed registry stays
    well-formed. *)
Definition grown (s s' : State) : Prop :=
  names s' = names s ∧ heap s `prefix_of` heap s' ∧ users s `prefix_of` users s' ∧
  (registered_ok s → registered_ok s').

(** The line a channel shows for a member added by someone else. *)
Definition added_notice (event : bridge.ChannelAddEvent.t) (added : bridge.UserInfo.t)
  : option Effect :=
  if bridge.UserInfo.Me added then None
  else match bridge.ChannelAddEvent.Adder event with
       | Some adder =>
           if bool_decide (bridge.UserInfo.Nick added ≠ bridge.UserInfo.Nick adder
                           ∧ bridge.UserInfo.Nick adder ≠ "system")
           then Some (SpoofMessage (bridge.ChannelAddEvent.ChannelID event) "system"
                        ("added " +:+ bridge.UserInfo.Nick added
                         +:+ " to the channel by " +:+ bridge.UserInfo.Nick adder))
           else None
       | None => None
       end.

(** The line a channel shows for a member removed by someone else. *)
Definition removed_notice (event : bridge.ChannelRemoveEvent.t)
    (removed : bridge.UserInfo.t) : option Effect :=
  if bridge.UserInfo.Me removed then None
  else match bridge.ChannelRemoveEvent.Remover event with
       | Some remover =>
           if bool_decide (bridge.UserInfo.Nick removed ≠ bridge.UserInfo.Nick remover
                           ∧ bridge.UserInfo.Nick remover ≠ "system")
           then Some (SpoofMessage (bridge.ChannelRemoveEvent.ChannelID event) "system"
                        ("removed " +:+ bridge.UserInfo.Nick removed
                         +:+ " from the channel by " +:+ bridge.UserInfo.Nick remover))
           else None
       | None => None
       end.

(** The line a file of an event is announced with. *)
Definition download_line (fname : bridge.File.t) : string :=
  "download file -" +:+ bridge.File.Name fname.

(** The PRIVMSG lines a replayed call sends in a direct channel. *)
Definition direct_lines (wordwrap_String : string → nat → string) (me : User.t)
    (c : string * string) : list Effect :=
  privmsg me c.1 <$> sent_lines wordwrap_String c.2.

(** What one call of the spoof that [createSpoof] makes for a channel adds
    to the trace, [me] being the owner's object: for a direct channel the
    PRIVMSG lines that [MsgSpoofUser] sends, for any other channel one
    message spoofed on it. *)
Definition emitted (wordwrap_String : string → nat → string)
    (brchannel : bridge.ChannelInfo.t) (me : User.t) (c : string * string) : list Effect :=
  if strings.Contains (bridge.ChannelInfo.Name brchannel) "__"
  then direct_lines wordwrap_String me c
  else [SpoofMessage (bridge.ChannelInfo.ID brchannel) c.1 c.2].

(** The marker of a date, as it is spoofed on a channel. *)
Definition marker_entry (id date : string) : Effect :=
  SpoofMessage id "matterircd" ("Replaying since " +:+ date).

(** An entry of the trace that is a marker: a message spoofed under the
    nick [matterircd] whose text starts as a marker's. *)
Definition is_marker_entry (e : Effect) : bool :=
  match e with
  | SpoofMessage _ nick text =>
      bool_decide (nick = "matterircd") && strings.HasPrefix text "Replaying since "
  | _ => false
  end.

(** *** The adapter's handlers *)

(** The events among the adapter's actions, in order. *)
Definition sent (acts : list mattermost.Action) : list bridge.Event :=
  omap (λ a, match a with mattermost.Send e => Some e | _ => None end) acts.

(** The text of a message event, of a channel or direct. *)
Definition message_text (e : bridge.Event) : option string :=
  match e with
  | bridge.channel_message e => Some (bridge.ChannelMessageEvent.Text e)
  | bridge.direct_message e => Some (bridge.DirectMessageEvent.Text e)
  | _ => None
  end.

(** The texts of the message events among the actions, in order. *)
Definition texts (acts : list mattermost.Action) : list string :=
  omap message_text (sent acts).

(** [appends P c]: whatever the trace, [c] only adds actions to it, and
    every action it adds satisfies [P]; so also when it panics. *)
Definition appends {A} (P : mattermost.Action → Prop) (c : M (list mattermost.Action) A)
  : Prop :=
  ∀ tr, ∃ acts, (c tr).2 = tr ++ acts ∧ Forall P acts.

(** The types of post the adapter treats as a join or a leave. *)
Definition join_leave_type (t : string) : Prop :=
  t = model.POST_JOIN_LEAVE ∨ t = "system_leave_channel" ∨ t = "system_join_channel"
  ∨ t = "system_add_to_channel" ∨ t = "system_remove_from_channel".

(** What an action of [handleWsActionPost] for the event [rmsg] can be. *)
Definition relayed (mc : mattermost.MMClient.t) (v : viper.Viper)
    (rmsg : mattermost.WebSocketEvent.t) (a : mattermost.Action) : Prop :=
  let data := mattermost.WebSocketEvent.Post rmsg in
  mattermost.wsActionPostSkip mc v rmsg = false ∧
  match a with
  | mattermost.Send (bridge.channel_message e) =>
      ¬ join_leave_type (model.Post.Type_ data)
      ∧ bridge.ChannelMessageEvent.Text e ≠ ""
      ∧ strings.Contains (bridge.ChannelMessageEvent.Text e) LF = false
      ∧ bridge.ChannelMessageEvent.ChannelID e = model.Post.ChannelId data
      ∧ bridge.ChannelMessageEvent.ChannelType e ≠ "D"
      ∧ (bridge.ChannelMessageEvent.MessageType e = "notice"
         ∨ bridge.ChannelMessageEvent.MessageType e = "")
  | mattermost.Send (bridge.direct_message e) =>
      ¬ join_leave_type (model.Post.Type_ data)
      ∧ bridge.DirectMessageEvent.Text e ≠ ""
      ∧ strings.Contains (bridge.DirectMessageEvent.Text e) LF = false
      ∧ bridge.DirectMessageEvent.Receiver e = mattermost.GetMe mc v
  | mattermost.Send (bridge.file_event e) =>
      ¬ join_leave_type (model.Post.Type_ data)
      ∧ bridge.FileEvent.Files e
        = bridge.File.mk <$> mattermost.MMClient.GetFileLinks mc (model.Post.FileIds data)
      ∧ bridge.FileEvent.Files e ≠ []
      ∧ bridge.FileEvent.ChannelID e = model.Post.ChannelId data
      ∧ bridge.FileEvent.Receiver e
        = (if bool_decide (bridge.FileEvent.ChannelType e = "D")
           then mattermost.GetMe mc v else bridge.FileEvent.Sender e)
  | mattermost.Send (bridge.channel_topic e) =>
      model.Post.Type_ data = "system_header_change"
      ∧ model.Post.Props data !! "new_header"
        = Some (model.JString (bridge.ChannelTopicEvent.Text e))
      ∧ model.Post.Props data !! "username"
        = Some (model.JString (bridge.ChannelTopicEvent.Sender e))
      ∧ bridge.ChannelTopicEvent.ChannelID e = model.Post.ChannelId data
  | mattermost.Send (bridge.channel_add e) =>
      model.Post.Type_ data = "system_add_to_channel"
      ∧ bridge.ChannelAddEvent.ChannelID e = model.Post.ChannelId data
      ∧ (∃ added adder,
           model.Post.Props data !! "addedUsername" = Some (model.JString added)
           ∧ model.Post.Props data !! "username" = Some (model.JString adder)
           ∧ bridge.ChannelAddEvent.Added e = [mattermost.GetUserByUsername mc v added]
           ∧ bridge.ChannelAddEvent.Adder e
             = Some (mattermost.GetUserByUsername mc v adder))
  | mattermost.Send (bridge.channel_remove e) =>
      model.Post.Type_ data = "system_remove_from_channel"
      ∧ bridge.ChannelRemoveEvent.ChannelID e = model.Post.ChannelId data
      ∧ bridge.ChannelRemoveEvent.Remover e = None
      ∧ (∃ removed,
           model.Post.Props data !! "removedUsername" = Some (model.JString removed)
           ∧ bridge.ChannelRemoveEvent.Removed e
             = [mattermost.GetUserByUsername mc v removed])
  | mattermost.UpdateChannels => join_leave_type (model.Post.Type_ data)
  | mattermost.UpdateLastViewed ch =>
      ¬ join_leave_type (model.Post.Type_ data)
      ∧ ch = model.Post.ChannelId data
      ∧ viper.GetBool v "mattermost.DisableAutoView" = false
  | mattermost.CreatePost _ => False
  | mattermost.SendDirectMessageProps _ _ _ _ => False
  end.

(** The lines a post's message is relayed in: the pieces between line
    feeds, the last one marked when the post was edited. *)
Definition relayed_lines (rmsg : mattermost.WebSocketEvent.t) : list string :=
  let msgs := strings.Split (model.Post.Message (mattermost.WebSocketEvent.Post rmsg)) LF in
  if bool_decide (mattermost.WebSocketEvent.Event rmsg = model.WEBSOCKET_EVENT_POST_EDITED)
  then mattermost.markEdited msgs else msgs.

(** A post that is relayed as it is: it is no reply, and it has no
    attachments. *)
Definition plain (p : model.Post.t) : Prop :=
  model.Post.ParentId p = "" ∧ model.Post.Props p !! "attachments" = None.

(** The classes of bytes of RFC 2812 as the comment in [isValidNick] lists
    them. *)
Definition rfc_letter (b : nat) : Prop := (65 ≤ b ≤ 90 ∨ 97 ≤ b ≤ 122)%nat.
Definition rfc_digit (b : nat) : Prop := (48 ≤ b ≤ 57)%nat.
Definition rfc_special (b : nat) : Prop :=
  (b = 59 ∨ 91 ≤ b ≤ 96 ∨ 123 ≤ b ≤ 125 ∨ b = 45)%nat.

(** The name [List] files a channel under. *)
Definition listed_name (mc : mattermost.MMClient.t) (channel : model.Channel.t) : string :=
  if bool_decide (model.Channel.TeamId channel = mattermost.MMClient.Team_Id mc)
  then "#" +:+ model.Channel.Name channel
  else mattermost.MMClient.GetTeamName mc (model.Channel.TeamId channel)
       +:+ "/" +:+ model.Channel.Name channel.

(** The entry [List] makes for a channel. *)
Definition list_step (mc : mattermost.MMClient.t) (channelinfo : gmap string string)
    (channel : model.Channel.t) : gmap string string :=
  if strings.Contains (model.Channel.Name channel) "__" then channelinfo
  else <[listed_name mc channel
         := strings.ReplaceAll (model.Channel.Header channel) LF " | "]> channelinfo.

(** The error [Join] answers with. *)
Definition cannot_join : string * string * option string :=
  ("", "", Some "cannot join channel (+i)").

(* ===================================================================== *)
(** ** A small world, for the properties to be tried on                   *)
(* ===================================================================== *)

Module Scenario.

Definition profile (nick id : string) (me : bool) : bridge.UserInfo.t :=
  bridge.UserInfo.mk nick id "" [] "chat.example.org" "" "" true me nick
                     (if me then "team1" else "") "" "".

Definition owner : bridge.UserInfo.t := profile "me" "me-id" true.
Definition alice : bridge.UserInfo.t := profile "alice" "alice-id" false.
Definition alicia : bridge.UserInfo.t := profile "alicia" "alice-id" false.

(** A session just logged in: the owner alone, registered, member of no
    channel; the channel with identifier [c] is shown as [#c]. *)
Definition fresh_session : State :=
  mkState [User.mk owner] [0%nat] ∅ ∅ (λ id, "#" +:+ id) [].

(** The session after alice was seen. *)
Definition session_with_alice : State :=
  mkState [User.mk owner; User.mk alice] [0%nat; 1%nat] ∅ ∅ (λ id, "#" +:+ id) [].

Definition config (ji je : list string) : viper.Viper :=
  viper.mk (λ key, if bool_decide (key = "mattermost.joininclude") then ji
                   else if bool_decide (key = "mattermost.joinexclude") then je
                   else [])
           (λ _, false).

Definition post (id : string) (createAt deleteAt : Z) (userID msg type : string)
  : model.Post.t :=
  model.Post.mk id createAt deleteAt userID "town" "" msg type ∅ [] false.

(** Four posts, newest first: one of the next day, a join/leave post, a
    deleted post, and a post of two lines. *)
Definition unread : model.PostList.t :=
  model.PostList.mk ["p4"; "p3"; "p2"; "p1"]
    (<["p1" := post "p1" 1000 0 "alice-id" ("hello" +:+ LF +:+ "world") ""]>
     (<["p2" := post "p2" 2000 3000 "alice-id" "oops" ""]>
      (<["p3" := post "p3" 4000 0 "alice-id" "alice joined" "system_join_leave"]>
       (<["p4" := post "p4" 90000000 0 "alice-id" "later" ""]> ∅)))).

(** A backend with the channel [town] of alice and the owner, whose
    last-viewed timestamp is [since]. *)
Definition backend (since : Z) : bridge.Bridger.t :=
  bridge.Bridger.mk "mattermost" (λ _, "header") (λ id, "#" +:+ id) (λ _, since)
    (λ _, Some [alice; owner])
    (λ id, if bool_decide (id = "alice-id") then alice else bridge.UserInfo.zero)
    owner (λ _, "team") (λ _ _, Some unread).

Definition town : bridge.ChannelInfo.t := bridge.ChannelInfo.mk "town" "town" "team1".

(** The post the backend writes when alice joins a channel, and a backend
    whose channel [town] has this one unread post. *)
Definition join_post : model.Post.t :=
  post "j1" 1000%Z 0%Z "alice-id" "alice joined the channel." "system_join_channel".

Definition backend_joined : bridge.Bridger.t :=
  bridge.Bridger.mk "mattermost" (λ _, "header") (λ id, "#" +:+ id) (λ _, 5%Z)
    (λ _, Some [alice; owner])
    (λ id, if bool_decide (id = "alice-id") then alice else bridge.UserInfo.zero)
    owner (λ _, "team")
    (λ _ _, Some (model.PostList.mk ["j1"] (<["j1" := join_post]> ∅))).

Definition user_prefix (x : User.t) : irc.Prefix.t :=
  irc.Prefix.mk (bridge.UserInfo.Nick (User.UserInfo x))
                (bridge.UserInfo.User (User.UserInfo x))
                (bridge.UserInfo.Host (User.UserInfo x)).

(** A calendar of two days, the second from 86400 seconds on. *)
Definition two_days (ns : Z) (layout : string) : string :=
  if bool_decide (layout = "2006-01-02")
  then (if (ns <? 86400000000000)%Z then "1970-01-01" else "1970-01-02")
  else "00:00".

Definition no_wrap (s : string) (width : nat) : string := s.

Definition hello (channelType : string) : bridge.ChannelMessageEvent.t :=
  bridge.ChannelMessageEvent.mk "hello" "town" alice "" channelType [].

Definition me_user : model.User.t := model.User.mk "me-id" "me" "" "" "" "".

Definition client : mattermost.MMClient.t :=
  mattermost.MMClient.mk me_user "team1" "chat.example.org"
    (λ id, if bool_decide (id = "me-id") then Some me_user else None)
    (λ id, id) (λ _, "team1") (λ _, "team") (λ _, []) (λ _, None) (λ _, None).

(** The bridge's own post, come back from the backend. *)
Definition echo : mattermost.WebSocketEvent.t :=
  mattermost.WebSocketEvent.mk "posted" ∅
    (model.Post.mk "x1" 5 0 "me-id" "town" "" "hello" ""
                   (<["matterircd_me-id" := model.JBool true]> ∅) [] false)
    "town" "me-id".

Definition bob : bridge.UserInfo.t := profile "bob" "bob-id" false.

(** Bob adds alice and the owner to the channel [town]. *)
Definition bob_adds : bridge.ChannelAddEvent.t :=
  bridge.ChannelAddEvent.mk (Some bob) [alice; owner] "town".

(** Bob removes alice from the channel [town]. *)
Definition bob_removes : bridge.ChannelRemoveEvent.t :=
  bridge.ChannelRemoveEvent.mk (Some bob) [alice] "town".

(** The session with alice, alice a member of [town]. *)
Definition alice_in_town : State :=
  mkState [User.mk owner; User.mk alice] [0%nat; 1%nat]
          {[ ("town", 1%nat) ]} ∅ (λ id, "#" +:+ id) [].

Definition two_files : bridge.FileEvent.t :=
  bridge.FileEvent.mk alice alice "town" "O"
                      [bridge.File.mk "a.png"; bridge.File.mk "b.txt"].

(** The direct channel of alice and the owner. *)
Definition alice_direct : bridge.ChannelInfo.t :=
  bridge.ChannelInfo.mk "alice-id__me-id" "dm1" "".

Definition alice_user : model.User.t := model.User.mk "alice-id" "alice" "Ally" "" "" "".
Definition bob_user : model.User.t := model.User.mk "bob-id" "bob" "" "" "" "".

(** A client that knows the owner, alice and bob, one team, and the channel
    [town] of it. *)
Definition team_client : mattermost.MMClient.t :=
  mattermost.MMClient.mk me_user "team1" "chat.example.org"
    (λ id, if bool_decide (id = "me-id") then Some me_user
           else if bool_decide (id = "alice-id") then Some alice_user
           else if bool_decide (id = "bob-id") then Some bob_user else None)
    (λ id, if bool_decide (id = "town") then "town" else "")
    (λ _, "team1") (λ _, "team")
    (λ ids, ids) (λ _, None)
    (λ name, if bool_decide (name = "alice") then Some alice_user
             else if bool_decide (name = "bob") then Some bob_user else None).

Definition posted (userID msg type : string) (props : gmap string model.JSON)
  : mattermost.WebSocketEvent.t :=
  mattermost.WebSocketEvent.mk "posted" (<["channel_type" := model.JString "O"]> ∅)
    (model.Post.mk "x2" 7 0 userID "town" "" msg type props [] false) "town" userID.

Definition edited (userID msg : string) : mattermost.WebSocketEvent.t :=
  mattermost.WebSocketEvent.mk "post_edited" (<["channel_type" := model.JString "O"]> ∅)
    (model.Post.mk "x2" 7 0 userID "town" "" msg "" ∅ [] false) "town" userID.

Definition alice_added : mattermost.WebSocketEvent.t :=
  mattermost.WebSocketEvent.mk "user_added" (<["user_id" := model.JString "alice-id"]> ∅)
    (model.Post.mk "" 0 0 "" "" "" "" "" ∅ [] false) "town" "".

Definition alice_removed : mattermost.WebSocketEvent.t :=
  mattermost.WebSocketEvent.mk "user_removed"
    (<["remover_id" := model.JString "bob-id"]> ∅)
    (model.Post.mk "" 0 0 "" "" "" "" "" ∅ [] false) "town" "alice-id".

End Scenario.

(* ===================================================================== *)
(** ** Lemmas                                                             *)
(* ===================================================================== *)

#[local] Open Scope go_scope.

(** *** The monad *)

Lemma bind_Some {S A B} (c : M S A) (k : A → M S B) s x s1 :
  c s = (Some x, s1) → bind c k s = k x s1.
Proof. intros H. unfold bind. by rewrite H. Qed.

(** [run H]: the first step of the computation in the goal returned as [H]
    says; go on with the rest. *)
Ltac run H := rewrite (bind_Some _ _ _ _ _ H).

Lemma bind_assoc {S A B C} (c : M S A) (k : A → M S B) (k' : B → M S C) s :
  bind (bind c k) k' s = bind c (λ x, bind (k x) k') s.
Proof. unfold bind. destruct (c s) as [[x|] s1]; done. Qed.

Lemma bind_ext {S A B} (c : M S A) (k k' : A → M S B) s :
  (∀ x s1, k x s1 = k' x s1) → bind c k s = bind c k' s.
Proof. intros H. unfold bind. destruct (c s) as [[x|] s1]; [apply H|done]. Qed.

Lemma bind_ext_l {S A B} (c c' : M S A) (k : A → M S B) s :
  c s = c' s → bind c k s = bind c' k s.
Proof. intros H. unfold bind. by rewrite H. Qed.

Lemma forM__app {S A} (l1 l2 : list A) (f : A → M S unit) s :
  forM_ (l1 ++ l2) f s = bind (forM_ l1 f) (λ _, forM_ l2 f) s.
Proof.
  revert s. induction l1 as [|x l1 IH]; intros s; [reflexivity|].
  cbn [forM_ app]. rewrite bind_assoc. apply bind_ext. intros _ s1. apply IH.
Qed.

(** *** Lists and strings *)

Lemma list_find_ext_in {A} (P Q : A → Prop) `{!∀ x, Decision (P x)}
    `{!∀ x, Decision (Q x)} (l : list A) :
  (∀ x, x ∈ l → P x ↔ Q x) → list_find P l = list_find Q l.
Proof.
  induction l as [|x l IH]; intros HPQ; [done|].
  cbn. rewrite IH by (intros y Hy; apply HPQ; by right).
  destruct (decide (P x)) as [HP|HP], (decide (Q x)) as [HQ|HQ]; try done.
  - exfalso. apply HQ, HPQ; [by left|done].
  - exfalso. apply HP, HPQ; [by left|done].
Qed.

Lemma filter_ext_in {A} (P Q : A → Prop) `{!∀ x, Decision (P x)}
    `{!∀ x, Decision (Q x)} (l : list A) :
  (∀ x, x ∈ l → P x ↔ Q x) → filter P l = filter Q l.
Proof.
  induction l as [|x l IH]; intros HPQ; [done|].
  rewrite !filter_cons, IH by (intros y Hy; apply HPQ; by right).
  destruct (decide (P x)) as [HP|HP], (decide (Q x)) as [HQ|HQ]; try done.
  - exfalso. apply HQ, HPQ; [by left|done].
  - exfalso. apply HP, HPQ; [by left|done].
Qed.

Lemma last_default {A} (x : A) (l : list A) (a b : A) :
  List.last (x :: l) a = List.last (x :: l) b.
Proof. revert x. induction l as [|y l IH]; intros x; [done|]. apply (IH y). Qed.

Lemma split_from_nonempty sep k s : strings.split_from sep k s ≠ [].
Proof.
  revert k. induction s as [|c s IH]; intros k; [by cbn|].
  cbn [strings.split_from]. destruct k; [|apply IH].
  destruct (strings.HasPrefix _ _); [done|].
  by destruct (strings.split_from sep 0 s).
Qed.

Lemma Split_cons s sep : ∃ l rest, strings.Split s sep = l :: rest.
Proof.
  unfold strings.Split. pose proof (split_from_nonempty sep 0 s).
  destruct (strings.split_from sep 0 s); [done|by eexists _, _].
Qed.

(** *** The heap and the registry *)

Lemma load_Some s (g : ptr) x : heap s !! g = Some x → load g s = (Some x, s).
Proof. intros H. unfold load. by rewrite H. Qed.

Lemma info_of_lookup s (g : ptr) x : heap s !! g = Some x → info_of s g = User.UserInfo x.
Proof. intros H. unfold info_of. by rewrite H. Qed.

Lemma HasUserID_eq id s : Srv.HasUserID id s = snd <$> list_find (λ g, uid s g = id) (users s).
Proof. reflexivity. Qed.

Lemma HasUserID_ext id s s' :
  users s' = users s → (∀ g, g ∈ users s → uid s' g = uid s g) →
  Srv.HasUserID id s' = Srv.HasUserID id s.
Proof.
  intros Hu Hid. rewrite !HasUserID_eq, Hu. f_equal.
  apply list_find_ext_in. intros g Hg. by rewrite Hid.
Qed.

Lemma ghosts_for_ext id s s' :
  users s' = users s → (∀ g, g ∈ users s → uid s' g = uid s g) →
  ghosts_for id s' = ghosts_for id s.
Proof.
  intros Hu Hid. unfold ghosts_for. rewrite Hu.
  apply filter_ext_in. intros g Hg. by rewrite Hid.
Qed.

Lemma HasUserID_Some id s g :
  Srv.HasUserID id s = Some g → g ∈ users s ∧ uid s g = id.
Proof.
  rewrite HasUserID_eq. destruct (list_find _ _) as [[i x]|] eqn:E; [|done].
  intros [= <-]. apply list_find_Some in E as (Hl & HP & _).
  split; [by eapply list_elem_of_lookup_2|done].
Qed.

Lemma HasUserID_None id s :
  Srv.HasUserID id s = None → ghosts_for id s = [].
Proof.
  rewrite HasUserID_eq. destruct (list_find _ _) eqn:E; [done|]. intros _.
  apply list_find_None in E. unfold ghosts_for.
  induction E; [done|]. rewrite filter_cons. by destruct (decide _).
Qed.

Lemma info_of_alloc s x g :
  (g < length (heap s))%nat → info_of (set_heap (heap s ++ [x]) s) g = info_of s g.
Proof. intros Hg. unfold info_of. cbn. by rewrite lookup_app_l. Qed.

Lemma info_of_alloc_new s x :
  info_of (set_heap (heap s ++ [x]) s) (length (heap s)) = User.UserInfo x.
Proof. unfold info_of. cbn. by rewrite list_lookup_middle. Qed.

Lemma info_of_store_eq s g x :
  (g < length (heap s))%nat →
  info_of (set_heap (<[g := x]> (heap s)) s) g = User.UserInfo x.
Proof. intros Hg. unfold info_of. cbn. by rewrite list_lookup_insert_eq. Qed.

Lemma info_of_store_ne s g g' x :
  g ≠ g' → info_of (set_heap (<[g := x]> (heap s)) s) g' = info_of s g'.
Proof. intros Hg. unfold info_of. cbn. by rewrite list_lookup_insert_ne. Qed.

Lemma info_of_set_users s us g : info_of (set_users us s) g = info_of s g.
Proof. reflexivity. Qed.

Lemma createUserFromInfo_found u info s g :
  Srv.HasUserID (bridge.UserInfo.User info) s = Some g →
  createUserFromInfo u info s = (Some g, s).
Proof. intros H. unfold createUserFromInfo, bind, gets. cbn. by rewrite H. Qed.

Lemma createUserFromInfo_new u info s :
  Srv.HasUserID (bridge.UserInfo.User info) s = None →
  createUserFromInfo u info s = (Some (length (heap s)), registered info s).
Proof. intros H. unfold createUserFromInfo, bind, gets. cbn. by rewrite H. Qed.

Lemma registered_ok_elem s g :
  registered_ok s → g ∈ users s → (g < length (heap s))%nat.
Proof. intros Hok. by apply (proj1 (Forall_forall _ _) Hok). Qed.

Lemma registered_ok_registered info s :
  registered_ok s → registered_ok (registered info s).
Proof.
  intros Hok. apply Forall_forall. intros g. cbn.
  rewrite length_app, elem_of_app, list_elem_of_singleton. cbn.
  intros [Hg | ->]; [apply (registered_ok_elem _ _ Hok) in Hg|]; lia.
Qed.

Lemma uid_registered_old info s g :
  registered_ok s → g ∈ users s → uid (registered info s) g = uid s g.
Proof.
  intros Hok Hg. unfold uid, registered. rewrite info_of_set_users.
  rewrite info_of_alloc; [done|by apply registered_ok_elem].
Qed.

Lemma uid_registered_new info s :
  uid (registered info s) (length (heap s)) = bridge.UserInfo.User info.
Proof. unfold uid, registered. by rewrite info_of_set_users, info_of_alloc_new. Qed.

Lemma ghosts_for_registered id info s :
  registered_ok s →
  ghosts_for id (registered info s) =
  ghosts_for id s ++
    (if decide (bridge.UserInfo.User info = id) then [length (heap s)] else []).
Proof.
  intros Hok. unfold ghosts_for at 1. cbn [users registered set_users].
  rewrite filter_app. f_equal.
  - apply filter_ext_in. intros g Hg. by rewrite uid_registered_old.
  - rewrite filter_cons, filter_nil, uid_registered_new. done.
Qed.

Lemma HasUserID_registered_old id info s g :
  registered_ok s → Srv.HasUserID id s = Some g →
  Srv.HasUserID id (registered info s) = Some g.
Proof.
  intros Hok. rewrite !HasUserID_eq. cbn [users registered set_users].
  destruct (list_find _ (users s)) as [[i x]|] eqn:E; [|done]. intros [= <-].
  apply list_find_Some in E as (Hl & HP & Hbefore).
  erewrite (proj2 (list_find_Some _ _ i x)); [done|].
  split_and!.
  - by apply lookup_app_l_Some.
  - rewrite uid_registered_old; [done..|]. by eapply list_elem_of_lookup_2.
  - intros j y Hj Hji. assert (users s !! j = Some y) as Hy.
    { rewrite lookup_app_l in Hj; [done|]. apply lookup_lt_Some in Hl. lia. }
    rewrite uid_registered_old; [by eapply Hbefore|done|].
    by eapply list_elem_of_lookup_2.
Qed.

Section RegistryProofs.
Context (Prefix : User.t → irc.Prefix.t).

#[local] Abbreviation refreshed := (refreshed Prefix).

Lemma updateUserFromInfo_found u info s g x :
  Srv.HasUserID (bridge.UserInfo.User info) s = Some g →
  heap s !! g = Some x →
  updateUserFromInfo Prefix u info s = (Some g, refreshed g x info s).
Proof.
  intros H Hx. unfold updateUserFromInfo, bind, gets. cbn. rewrite H.
  rewrite Hx. unfold refreshed, when.
  destruct (decide _) as [Hn|Hn].
  - rewrite bool_decide_eq_true_2 by done. cbn. by rewrite Hx.
  - rewrite bool_decide_eq_false_2 by done. cbn. by rewrite Hx.
Qed.

Lemma updateUserFromInfo_new u info s :
  Srv.HasUserID (bridge.UserInfo.User info) s = None →
  updateUserFromInfo Prefix u info s = (Some (length (heap s)), registered info s).
Proof. intros H. unfold updateUserFromInfo, bind, gets. cbn. by rewrite H. Qed.

Lemma users_refreshed g x info s : users (refreshed g x info s) = users s.
Proof. unfold refreshed. by destruct (decide _). Qed.

Lemma heap_refreshed g x info s :
  heap (refreshed g x info s) = <[g := User.mk info]> (heap s).
Proof. unfold refreshed. by destruct (decide _). Qed.

Lemma uid_refreshed g x info s g' :
  uid s g = bridge.UserInfo.User info → (g < length (heap s))%nat →
  uid (refreshed g x info s) g' = uid s g'.
Proof.
  intros Hid Hg. unfold uid, info_of. rewrite heap_refreshed.
  destruct (decide (g = g')) as [<-|Hne].
  - rewrite list_lookup_insert_eq by done. done.
  - by rewrite list_lookup_insert_ne.
Qed.

Lemma registered_ok_refreshed g x info s :
  registered_ok s → registered_ok (refreshed g x info s).
Proof.
  unfold registered_ok. by rewrite users_refreshed, heap_refreshed, length_insert.
Qed.

(** Every call returns, keeps the registry well-formed, keeps the ghost
    already found for an identifier, and adds at most the one it reports. *)
Lemma call_spec u c s :
  registered_ok s →
  ∃ g s', call Prefix u c s = (Some g, s') ∧ registered_ok s' ∧
    (∀ id, (length (ghosts_for id s) ≤ 1)%nat → (length (ghosts_for id s') ≤ 1)%nat) ∧
    (∀ id g0, Srv.HasUserID id s = Some g0 → Srv.HasUserID id s' = Some g0).
Proof.
  intros Hok.
  assert (∀ info, Srv.HasUserID (bridge.UserInfo.User info) s = None →
    registered_ok (registered info s) ∧
    (∀ id, (length (ghosts_for id s) ≤ 1)%nat → (length (ghosts_for id (registered info s)) ≤ 1)%nat) ∧
    (∀ id g0, Srv.HasUserID id s = Some g0 →
              Srv.HasUserID id (registered info s) = Some g0)) as Hnew.
  { intros info Hnone. split_and!.
    - by apply registered_ok_registered.
    - intros id Hle. rewrite ghosts_for_registered by done.
      destruct (decide _) as [<-|]; [|by rewrite app_nil_r].
      by rewrite (HasUserID_None _ _ Hnone).
    - intros id g0. by apply HasUserID_registered_old. }
  destruct c as [info|info]; cbn [call];
    destruct (Srv.HasUserID (bridge.UserInfo.User info) s) as [g|] eqn:E.
  - exists g, s. rewrite (createUserFromInfo_found _ _ _ _ E). done.
  - eexists _, _. rewrite (createUserFromInfo_new _ _ _ E). split; [done|]. by apply Hnew.
  - destruct (HasUserID_Some _ _ _ E) as [Hin Hid].
    pose proof (registered_ok_elem _ _ Hok Hin) as Hlt.
    destruct (lookup_lt_is_Some_2 _ _ Hlt) as [x Hx].
    eexists _, _. rewrite (updateUserFromInfo_found _ _ _ _ _ E Hx). split; [done|].
    split_and!.
    + by apply registered_ok_refreshed.
    + intros id. rewrite (ghosts_for_ext id s (refreshed g x info s)); [done|apply users_refreshed|].
      intros g' _. by apply uid_refreshed.
    + intros id g0. rewrite (HasUserID_ext id s (refreshed g x info s)); [done|apply users_refreshed|].
      intros g' _. by apply uid_refreshed.
  - eexists _, _. rewrite (updateUserFromInfo_new _ _ _ E). split; [done|]. by apply Hnew.
Qed.

Lemma calls_spec u cs s :
  registered_ok s →
  ∃ s', calls Prefix u cs s = (Some tt, s') ∧ registered_ok s' ∧
    (∀ id, (length (ghosts_for id s) ≤ 1)%nat → (length (ghosts_for id s') ≤ 1)%nat) ∧
    (∀ id g0, Srv.HasUserID id s = Some g0 → Srv.HasUserID id s' = Some g0).
Proof.
  revert s. induction cs as [|c cs IH]; intros s Hok.
  - exists s. done.
  - destruct (call_spec u c s Hok) as (g & s1 & Hc & Hok1 & Hinv1 & Hst1).
    destruct (IH s1 Hok1) as (s2 & Hcs & Hok2 & Hinv2 & Hst2).
    exists s2. split_and!; [|done|naive_solver..].
    unfold calls in *. cbn. unfold bind at 1. unfold bind at 1. rewrite Hc. cbn. done.
Qed.

End RegistryProofs.

(** *** The membership synchronizer *)

Lemma CreateUsersFromInfo_spec u infos s :
  CreateUsersFromInfo u infos s =
  (Some (seq (length (heap s)) (length (fresh_infos infos))),
   set_heap (heap s ++ fresh_infos infos) s).
Proof.
  revert s. induction infos as [|i infos IH]; intros s.
  - cbn. unfold ret, set_heap. rewrite app_nil_r. by destruct s.
  - cbn [CreateUsersFromInfo]. unfold fresh_infos. rewrite filter_cons.
    destruct (bridge.UserInfo.Me i) eqn:E.
    + rewrite decide_False by done. apply IH.
    + rewrite decide_True by done. unfold bind, NewUser. rewrite IH. cbn.
      rewrite length_app, Nat.add_1_r. unfold ret. f_equal.
      unfold set_heap. cbn. by rewrite <- app_assoc.
Qed.

Section SyncProofs.
Context (br : bridge.Bridger.t) (v : viper.Viper).

#[local] Abbreviation owner_joined := (owner_joined br).

Lemma mayJoin_returns u id s :
  mayJoin br v u id s = (Some (mayJoin_answer br v u id s), s).
Proof.
  unfold mayJoin_answer, mayJoin, bind, gets, ret. cbn.
  repeat case_match; done.
Qed.

Lemma mayJoin_answer_names u id s s' :
  names s' = names s → mayJoin_answer br v u id s' = mayJoin_answer br v u id s.
Proof.
  intros Hn. unfold mayJoin_answer, mayJoin, bind, gets, ret, Channel.String. cbn.
  rewrite Hn. repeat case_match; done.
Qed.

Lemma mayJoin_included u id s :
  names s id ∈ joininclude br v → mayJoin_answer br v u id s = true.
Proof.
  intros Hin. unfold mayJoin_answer, mayJoin, bind, gets, ret, Channel.String,
    Srv.Channel, stringInSlice. cbn.
  fold (joininclude br v). by rewrite bool_decide_eq_true_2.
Qed.

Lemma mayJoin_both_lists u id s :
  joininclude br v ≠ [] → joinexclude br v ≠ [] →
  names s id ∉ joininclude br v → mayJoin_answer br v u id s = false.
Proof.
  intros Hji Hje Hin. unfold mayJoin_answer, mayJoin, bind, gets, ret, Channel.String,
    Srv.Channel, stringInSlice. cbn.
  fold (joininclude br v) (joinexclude br v).
  rewrite (bool_decide_eq_false_2 _ Hin).
  destruct (joininclude br v); [done|]. destruct (joinexclude br v); [done|].
  cbn. by rewrite andb_false_r.
Qed.

Lemma syncChannel_spec u id name s infos :
  bridge.Bridger.GetChannelUsers br id = Some infos →
  syncChannel br v u id name s =
  (Some tt,
   let s4 := synced_ghosts id infos s in
   if bool_decide ((id, u) ∈ members s4) then s4
   else if mayJoin_answer br v u id s then owner_joined u id s4 else s4).
Proof.
  intros Hu. unfold syncChannel. rewrite Hu. unfold bind at 1.
  rewrite CreateUsersFromInfo_spec.
  unfold bind, Srv.BatchAdd, addUsersToChannel, Channel.BatchJoin, modify, gets,
    Srv.Channel, Channel.HasUser.
  cbn [users heap members set_users set_heap set_members names].
  match goal with
  | |- context [bool_decide ?P] =>
      change (bool_decide ((id, u) ∈ members (synced_ghosts id infos s)))
        with (bool_decide P);
      destruct (bool_decide P) eqn:E
  end.
  - reflexivity.
  - rewrite mayJoin_returns.
    match goal with
    | |- context [mayJoin_answer br v u id ?s4] =>
        rewrite (mayJoin_answer_names u id s s4) by reflexivity
    end.
    destruct (mayJoin_answer br v u id s); reflexivity.
Qed.

Lemma syncChannel_error u id name s :
  bridge.Bridger.GetChannelUsers br id = None →
  syncChannel br v u id name s = (Some tt, s).
Proof. intros Hu. unfold syncChannel. by rewrite Hu. Qed.

End SyncProofs.

Lemma synced_ghosts_owner u c id infos s :
  (u < length (heap s))%nat →
  (c, u) ∈ members (synced_ghosts id infos s) ↔ (c, u) ∈ members s.
Proof.
  intros Hu. unfold synced_ghosts. cbn [members set_members set_users set_heap].
  rewrite !elem_of_union, !elem_of_list_to_set, !list_elem_of_fmap.
  split; [|by auto].
  intros [(g & [= _ ->] & Hg%elem_of_seq)|[(g & [= _ ->] & Hg%elem_of_seq)|?]];
    [lia|lia|done].
Qed.

(** *** What the engine never touches *)

Lemma frame_refl s : frame s s.
Proof. by split_and!. Qed.

Lemma frame_trans s1 s2 s3 : frame s1 s2 → frame s2 s3 → frame s1 s3.
Proof.
  intros (Hn1 & Ht1 & Hh1 & Hok1) (Hn2 & Ht2 & Hh2 & Hok2). split_and!.
  - by rewrite Hn2.
  - by rewrite Ht2.
  - by etrans.
  - auto.
Qed.

Lemma frame_set_members ms s : frame s (set_members ms s).
Proof. by split_and!. Qed.

Lemma frame_set_topics ts s : frame s (set_topics ts s).
Proof. by split_and!. Qed.

Lemma frame_registered info s : frame s (registered info s).
Proof.
  split_and!; [done|done|by apply prefix_app_r|apply registered_ok_registered].
Qed.

Lemma frame_lookup s s' g x : frame s s' → heap s !! g = Some x → heap s' !! g = Some x.
Proof. intros (_ & _ & Hh & _) Hg. by eapply prefix_lookup_Some. Qed.

Lemma createUserFromInfo_frame u info s :
  ∃ g s', createUserFromInfo u info s = (Some g, s') ∧ frame s s' ∧
          g ∈ users s' ∧ members s' = members s.
Proof.
  destruct (Srv.HasUserID (bridge.UserInfo.User info) s) as [g|] eqn:E.
  - exists g, s. rewrite (createUserFromInfo_found _ _ _ _ E).
    split_and!; [done|apply frame_refl|by apply HasUserID_Some in E as [? _]|done].
  - eexists _, _. rewrite (createUserFromInfo_new _ _ _ E).
    split_and!; [done|apply frame_registered| |done].
    cbn. apply elem_of_app. right. by apply list_elem_of_singleton.
Qed.

Lemma registered_ok_synced_ghosts id infos s :
  registered_ok s → registered_ok (synced_ghosts id infos s).
Proof.
  intros Hok. apply Forall_forall. intros g. cbn.
  rewrite length_app, elem_of_app, elem_of_seq.
  intros [Hg | Hg]; [apply (registered_ok_elem _ _ Hok) in Hg|]; lia.
Qed.

Lemma frame_synced_ghosts id infos s : frame s (synced_ghosts id infos s).
Proof.
  split_and!; [done|done|by apply prefix_app_r|apply registered_ok_synced_ghosts].
Qed.

Lemma syncChannel_frame br v u id name s :
  ∃ s', syncChannel br v u id name s = (Some tt, s') ∧ frame s s'.
Proof.
  destruct (bridge.Bridger.GetChannelUsers br id) as [infos|] eqn:E.
  - eexists. rewrite (syncChannel_spec _ _ _ _ _ _ _ E). split; [done|]. cbn zeta.
    repeat case_match; apply frame_synced_ghosts.
  - exists s. rewrite (syncChannel_error _ _ _ _ _ _ E). split; [done|apply frame_refl].
Qed.

(** *** The router *)

Section RouterProofs.
Context (br : bridge.Bridger.t) (v : viper.Viper).

Lemma group_join_frame u channelID channelType s :
  ∃ s', when (bool_decide (channelType = "G"))
          (let* myself := createUserFromInfo u (bridge.Bridger.GetMe br) in
           let* has := gets (Channel.HasUser (Srv.Channel channelID) myself) in
           when (negb has)
                (Channel.Join (Srv.Channel channelID) myself ;;
                 syncChannel br v u channelID
                   (bridge.Bridger.GetChannelName br channelID))) s
        = (Some tt, s') ∧ frame s s'.
Proof.
  destruct (bool_decide (channelType = "G")); cbn [when].
  2:{ exists s. split; [done|apply frame_refl]. }
  destruct (createUserFromInfo_frame u (bridge.Bridger.GetMe br) s)
    as (g & s1 & Hc & Hf1 & _ & _).
  rewrite (bind_Some _ _ _ _ _ Hc). unfold gets at 1. unfold bind at 1.
  destruct (Channel.HasUser (Srv.Channel channelID) g s1); cbn [negb when].
  { exists s1. done. }
  unfold Channel.Join, modify, bind.
  match goal with
  | |- context [syncChannel br v u channelID ?n ?st] =>
      destruct (syncChannel_frame br v u channelID n st) as (s2 & Hs & Hf2)
  end.
  rewrite Hs. exists s2. split; [done|].
  eapply frame_trans; [exact Hf1|]. eapply frame_trans; [|exact Hf2].
  apply frame_set_members.
Qed.

Lemma policy_route_eq (names : string → string) channelID :
  (let ch := Srv.Channel channelID in
   let ch := if stringInSlice (names ch) (joinexclude br v)
             then Srv.Channel "&messages" else ch in
   if negb (stringInSlice (names ch) (joininclude br v))
      && (0 <? length (joininclude br v))%nat
   then Srv.Channel "&messages" else ch)
  = route_by_policy (joinexclude br v) (joininclude br v) names channelID.
Proof.
  unfold route_by_policy, stringInSlice, Srv.Channel. cbn zeta.
  destruct (bool_decide (names channelID ∈ joinexclude br v)).
  - by case_match.
  - destruct (decide (names channelID ∈ joininclude br v)) as [Hin|Hin].
    + rewrite (bool_decide_eq_true_2 _ Hin). cbn [negb andb].
      rewrite bool_decide_eq_false_2; [done|]. by intros [_ ?].
    + rewrite (bool_decide_eq_false_2 _ Hin). cbn [negb andb].
      destruct (joininclude br v) as [|a l] eqn:E; cbn [length Nat.ltb Nat.leb].
      * rewrite bool_decide_eq_false_2; [done|]. by intros [? _].
      * rewrite bool_decide_eq_true_2; [done|]. done.
Qed.

Lemma getMessageChannel_spec u channelID channelType sender s :
  registered_ok s →
  ∃ s', getMessageChannel br v u channelID channelType sender s
        = (Some (route_by_policy (joinexclude br v) (joininclude br v)
                                 (names s) channelID), s')
        ∧ frame s s'.
Proof.
  intros Hok. unfold getMessageChannel.
  destruct (group_join_frame u channelID channelType s) as (s1 & Hg & Hf1).
  run Hg.
  assert (registered_ok s1) as Hok1 by (by apply Hf1).
  destruct (createUserFromInfo_frame u sender s1) as (g & s2 & Hc & Hf2 & Hin & _).
  run Hc.
  assert (registered_ok s2) as Hok2 by (by apply Hf2).
  destruct (lookup_lt_is_Some_2 _ _ (registered_ok_elem _ _ Hok2 Hin)) as [x Hx].
  assert (frame s s2) as Hf by (by eapply frame_trans).
  rewrite (bind_Some _ _ _ _ _ (eq_refl : gets _ s2 = (Some _, s2))).
  assert (∃ join,
    (if Channel.HasUser (Srv.Channel channelID) g s2 then ret false
     else let* g0 := load g in ret (negb (bridge.UserInfo.Me (User.UserInfo g0)))) s2
    = (Some join, s2)) as [join Hj].
  { destruct (Channel.HasUser _ _ _); [by eexists|].
    eexists. by rewrite (bind_Some _ _ _ _ _ (load_Some _ _ _ Hx)). }
  run Hj.
  assert (∃ s3, when join (Channel.Join (Srv.Channel channelID) g) s2 = (Some tt, s3)
                ∧ frame s s3) as (s3 & Hw & Hf3).
  { destruct join; cbn [when]; [|by exists s2].
    eexists. split; [reflexivity|].
    eapply frame_trans; [exact Hf|apply frame_set_members]. }
  run Hw.
  assert (names s3 = names s) as Hn by apply Hf3.
  exists s3. split; [|done].
  unfold bind, ret, gets, Channel.String. rewrite Hn.
  fold (joinexclude br v) (joininclude br v).
  do 2 f_equal. apply policy_route_eq.
Qed.

End RouterProofs.

Section MessageProofs.
Context (br : bridge.Bridger.t) (v : viper.Viper).

Lemma handleChannelMessageEvent_spec u event s :
  registered_ok s → (u < length (heap s))%nat →
  ∃ s',
    handleChannelMessageEvent br v u event s = (Some tt, s') ∧
    names s' = names s ∧
    let ch := route_by_policy (joinexclude br v) (joininclude br v) (names s)
                (bridge.ChannelMessageEvent.ChannelID event) in
    trace s' = trace s ++
      [delivered event ch
         (if negb (bool_decide (bridge.ChannelMessageEvent.ChannelType event = "D"))
             && bool_decide (ch = "&messages")
          then shown_nick u event s +:+ "/" +:+
               names s (bridge.ChannelMessageEvent.ChannelID event)
          else shown_nick u event s)].
Proof.
  intros Hok Hu. unfold handleChannelMessageEvent.
  destruct (getMessageChannel_spec br v u (bridge.ChannelMessageEvent.ChannelID event)
              (bridge.ChannelMessageEvent.ChannelType event)
              (bridge.ChannelMessageEvent.Sender event) s Hok) as (s1 & Hg & Hf).
  run Hg.
  set (ch := route_by_policy _ _ _ _).
  destruct (lookup_lt_is_Some_2 _ _ Hu) as [me Hme].
  pose proof (frame_lookup _ _ _ _ Hf Hme) as Hme1.
  destruct Hf as (Hn & Ht & _ & _).
  assert ((if bridge.UserInfo.Me (bridge.ChannelMessageEvent.Sender event)
           then let* me := load u in ret (bridge.UserInfo.Nick (User.UserInfo me))
           else ret (bridge.UserInfo.Nick (bridge.ChannelMessageEvent.Sender event))) s1
          = (Some (shown_nick u event s), s1)) as Hnick.
  { unfold shown_nick. rewrite (info_of_lookup _ _ _ Hme).
    destruct (bridge.UserInfo.Me _); [|done].
    by rewrite (bind_Some _ _ _ _ _ (load_Some _ _ _ Hme1)). }
  run Hnick.
  unfold Channel.ID, Srv.Channel.
  set (b := negb _ && _).
  assert ((if b
           then let* name := gets (Channel.String (bridge.ChannelMessageEvent.ChannelID event)) in
                ret (shown_nick u event s +:+ "/" +:+ name)
           else ret (shown_nick u event s)) s1
          = (Some (if b then shown_nick u event s +:+ "/" +:+
                                names s (bridge.ChannelMessageEvent.ChannelID event)
                   else shown_nick u event s), s1)) as Hsuffix.
  { destruct b; [|done]. unfold bind, gets, ret, Channel.String. by rewrite Hn. }
  run Hsuffix.
  unfold delivered, Channel.SpoofNotice, Channel.SpoofMessage, emit, modify.
  destruct (bool_decide (bridge.ChannelMessageEvent.MessageType event = "notice"));
    eexists; (split; [reflexivity|]); cbn; by rewrite Ht, Hn.
Qed.

End MessageProofs.

(** *** The replay loops *)

Section ReplayProofs.
Context (br : bridge.Bridger.t) (Format : Z → string → string).
Context (spoof : string → string → M State unit).

#[local] Abbreviation call := (apply_spoof spoof).
#[local] Abbreviation post_date := (post_date Format).
#[local] Abbreviation line_of := (line_of br Format).

Lemma replayLines_same_date p rest s :
  replayLines br Format spoof p (post_time p) rest (post_date p) s
  = bind (forM_ (line_of p <$> rest) call) (λ _, ret (post_date p)) s.
Proof.
  revert s. induction rest as [|l rest IH]; intros s; [done|].
  cbn [replayLines fmap list_fmap forM_].
  fold (post_date p). rewrite bool_decide_eq_true_2 by done. cbn [negb].
  rewrite bind_assoc. unfold bind at 1. unfold ret at 1.
  apply bind_ext. intros _ s1. apply IH.
Qed.

Lemma replayLines_calls p l rest prev s :
  replayLines br Format spoof p (post_time p) (l :: rest) prev s
  = bind (forM_ ((if bool_decide (post_date p = prev) then []
                  else [marker (post_date p)])
                 ++ (line_of p <$> l :: rest)) call)
         (λ _, ret (post_date p)) s.
Proof.
  destruct (decide (post_date p = prev)) as [<-|Hne].
  - rewrite bool_decide_eq_true_2 by done. apply (replayLines_same_date p (l :: rest)).
  - rewrite bool_decide_eq_false_2 by done.
    cbn [replayLines]. fold (post_date p). rewrite bool_decide_eq_false_2 by done.
    cbn [negb app forM_ fmap list_fmap]. rewrite !bind_assoc. apply bind_ext. intros _ s1.
    unfold ret at 1. unfold bind at 1. rewrite bind_assoc.
    apply bind_ext. intros _ s2. apply replayLines_same_date.
Qed.

Lemma replayPosts_calls pl ids prev s :
  Forall (λ id, is_Some (model.PostList.Posts pl !! id)) ids →
  replayPosts br Format spoof pl ids prev s
  = bind (forM_ (replay_calls br Format prev (filter kept (listed pl ids))) call)
         (λ _, ret (last_date Format prev (filter kept (listed pl ids)))) s.
Proof.
  intros Hall. revert prev s. induction Hall as [|id ids [p Hp] _ IH]; intros prev s; [done|].
  cbn [replayPosts]. unfold listed. cbn [omap list_omap]. rewrite Hp. cbn [option_bind mbind].
  fold (listed pl ids). rewrite filter_cons.
  destruct (bool_decide (model.Post.Type_ p = model.POST_JOIN_LEAVE)) eqn:E1.
  { rewrite decide_False by (unfold kept; rewrite E1; cbn; tauto). apply IH. }
  destruct (model.Post.DeleteAt p >? model.Post.CreateAt p)%Z eqn:E2.
  { rewrite decide_False by (unfold kept; rewrite E1, E2; cbn; tauto). apply IH. }
  rewrite decide_True by (unfold kept; rewrite E1, E2; cbn; tauto).
  cbn [replay_calls]. fold (post_time p).
  destruct (Split_cons (model.Post.Message p) LF) as (l & rest & Hsplit).
  unfold post_lines. rewrite Hsplit.
  rewrite (bind_ext_l _ _ _ _ (replayLines_calls p l rest prev s)).
  rewrite app_assoc, (bind_ext_l _ _ _ _ (forM__app _ _ _ _)), !bind_assoc.
  apply bind_ext. intros _ s1.
  rewrite (bind_Some _ _ _ _ _ (eq_refl : ret _ s1 = (Some _, s1))).
  rewrite IH. unfold last_date. cbn [fmap list_fmap List.last].
  apply bind_ext. intros _ s2. do 2 f_equal.
  destruct (post_date <$> filter kept (listed pl ids)) as [|d ds]; [done|].
  apply last_default.
Qed.

End ReplayProofs.

(** *** The replay, call by call *)

Section ReplayLists.
Context (br : bridge.Bridger.t) (Format : Z → string → string).

#[local] Abbreviation post_date := (post_date Format).
#[local] Abbreviation post_lines := (post_lines br Format).
#[local] Abbreviation replay_calls := (replay_calls br Format).

Lemma listed_rev pl ids : listed pl (rev ids) = rev (listed pl ids).
Proof.
  unfold listed. induction ids as [|id ids IH]; [done|].
  cbn [rev omap list_omap]. rewrite omap_app, IH. cbn.
  destruct (model.PostList.Posts pl !! id); cbn; [done|by rewrite app_nil_r].
Qed.

Lemma is_line_line_of p seg : is_line (line_of br Format p seg) = true.
Proof. reflexivity. Qed.

Lemma is_line_marker d : is_line (marker d) = false.
Proof. reflexivity. Qed.

Lemma filter_post_lines p : filter (λ c, is_line c) (post_lines p) = post_lines p.
Proof.
  unfold post_lines. induction (strings.Split _ _) as [|seg segs IH]; [done|].
  cbn [fmap list_fmap].
  rewrite filter_cons, decide_True by (by rewrite is_line_line_of). by rewrite IH.
Qed.

Lemma filter_out_post_lines p : filter (λ c, ¬ is_line c) (post_lines p) = [].
Proof.
  unfold post_lines. induction (strings.Split _ _) as [|seg segs IH]; [done|].
  cbn [fmap list_fmap].
  rewrite filter_cons, decide_False by (rewrite is_line_line_of; cbn; tauto). done.
Qed.

Lemma replay_lines prev ps :
  filter (λ c, is_line c) (replay_calls prev ps) = concat (post_lines <$> ps).
Proof.
  revert prev. induction ps as [|p ps IH]; intros prev; [done|].
  cbn [replay_calls fmap list_fmap concat].
  rewrite !filter_app, filter_post_lines, IH.
  destruct (bool_decide _); [done|].
  rewrite filter_cons, decide_False by (rewrite is_line_marker; cbn; tauto). done.
Qed.

Lemma replay_markers prev ps :
  filter (λ c, ¬ is_line c) (replay_calls prev ps)
  = marker <$> day_changes prev (post_date <$> ps).
Proof.
  revert prev. induction ps as [|p ps IH]; intros prev; [done|].
  cbn [replay_calls fmap list_fmap day_changes].
  rewrite !filter_app, filter_out_post_lines, IH, fmap_app.
  destruct (bool_decide _); [done|].
  rewrite filter_cons, decide_True by (rewrite is_line_marker; cbn; tauto). done.
Qed.

End ReplayLists.

Section DayChanges.
Context (Format : Z → string → string).

#[local] Abbreviation post_date := (post_date Format).
#[local] Abbreviation day_monotone := (day_monotone Format).

Lemma day_changes_subseteq prev ds : day_changes prev ds ⊆ ds.
Proof.
  revert prev. induction ds as [|d ds IH]; intros prev; [done|].
  cbn [day_changes]. destruct (bool_decide _); cbn [app].
  - intros x Hx. apply elem_of_cons. right. by eapply IH.
  - intros x. rewrite !elem_of_cons. intros [->|Hx]; [by left|right; by eapply IH].
Qed.

Lemma day_changes_length prev ds :
  length (day_changes prev ds)
  = length (filter (λ ab : string * string, ab.1 ≠ ab.2) (zip (prev :: ds) ds)).
Proof.
  revert prev. induction ds as [|d ds IH]; intros prev; [done|].
  cbn [day_changes zip zip_with]. rewrite filter_cons, length_app, IH. cbn [fst snd].
  destruct (decide (prev ≠ d)) as [Hne|Heq].
  - rewrite bool_decide_eq_false_2 by done. done.
  - rewrite bool_decide_eq_true_2; [done|]. by destruct (decide (d = prev)); [|exfalso; auto].
Qed.

Lemma day_not_repeated p ps :
  day_monotone → chronological (p :: ps) →
  post_date p ∉ day_changes (post_date p) (post_date <$> ps).
Proof.
  intros Hmono. induction ps as [|q qs IH]; intros Hsorted.
  - apply not_elem_of_nil.
  - cbn [fmap list_fmap day_changes].
    apply StronglySorted_inv in Hsorted as [Htail Hhead].
    apply Forall_cons in Hhead as [Hpq Hpqs].
    apply StronglySorted_inv in Htail as [Hqs Hq].
    destruct (bool_decide_reflect (post_date q = post_date p)) as [Heq|Hne]; cbn [app].
    + rewrite Heq. apply IH. by constructor.
    + rewrite not_elem_of_cons. split; [done|].
      intros Hin%day_changes_subseteq.
      apply list_elem_of_fmap in Hin as (r & Hr & Hrin).
      rewrite Forall_forall in Hq. specialize (Hq r Hrin). cbn in Hq.
      apply Hne. unfold post_date in *. by apply (Hmono _ _ (post_time r)).
Qed.

Lemma day_changes_NoDup prev ps :
  day_monotone → chronological ps →
  NoDup (day_changes prev (post_date <$> ps)).
Proof.
  intros Hmono. revert prev. induction ps as [|p ps IH]; intros prev Hsorted.
  - constructor.
  - pose proof Hsorted as Hsorted'.
    apply StronglySorted_inv in Hsorted as [Htail _].
    cbn [fmap list_fmap day_changes]. destruct (bool_decide _); cbn [app].
    + by apply IH.
    + constructor; [by apply day_not_repeated|by apply IH].
Qed.

End DayChanges.

(** *** The worker *)

Section WorkerProofs.
Context (br : bridge.Bridger.t) (v : viper.Viper).
Context (Format : Z → string → string) (wordwrap_String : string → nat → string).

#[local] Abbreviation worker := (addUserToChannelWorker_channel br v Format wordwrap_String).
#[local] Abbreviation createSpoof := (createSpoof br v wordwrap_String).
#[local] Abbreviation mark_viewed := (mark_viewed br v).

Lemma worker_replay u brchannel pl s :
  bridge.Bridger.GetLastViewedAt br (bridge.ChannelInfo.ID brchannel) ≠ 0%Z →
  bridge.Bridger.GetPostsSince br (bridge.ChannelInfo.ID brchannel)
    (bridge.Bridger.GetLastViewedAt br (bridge.ChannelInfo.ID brchannel)) = Some pl →
  Forall (λ id, is_Some (model.PostList.Posts pl !! id)) (model.PostList.Order pl) →
  worker u brchannel s
  = (let* spoof := createSpoof u brchannel in
     forM_ (replay_calls br Format "" (replayed_posts pl)) (apply_spoof spoof) ;;
     mark_viewed (bridge.ChannelInfo.ID brchannel)) s.
Proof.
  intros Hsince Hposts Hall. unfold addUserToChannelWorker_channel.
  apply bind_ext. intros spoof s1.
  rewrite (proj2 (Z.eqb_neq _ _) Hsince), Hposts.
  assert (Forall (λ id, is_Some (model.PostList.Posts pl !! id))
                 (rev (model.PostList.Order pl))) as Hall' by (by apply Forall_rev).
  rewrite (bind_ext_l _ _ _ _ (replayPosts_calls br Format spoof pl _ "" s1 Hall')).
  rewrite bind_assoc. unfold replayed_posts. rewrite listed_rev.
  apply bind_ext. intros _ s2. reflexivity.
Qed.

Lemma worker_skip u brchannel s :
  bridge.Bridger.GetLastViewedAt br (bridge.ChannelInfo.ID brchannel) = 0%Z →
  worker u brchannel s = (createSpoof u brchannel ;; ret tt) s.
Proof.
  intros Hsince. unfold addUserToChannelWorker_channel.
  apply bind_ext. intros spoof s1. by rewrite Hsince.
Qed.

Lemma createSpoof_frame u brchannel s :
  ∃ spoof s', createSpoof u brchannel s = (Some spoof, s') ∧ frame s s'.
Proof.
  unfold irckit.createSpoof. destruct (strings.Contains _ _).
  - destruct (createUserFromInfo_frame u
                (bridge.Bridger.GetUser br
                   (hd "" (strings.Split (bridge.ChannelInfo.Name brchannel) "__"))) s)
      as (g & s1 & Hc & Hf & _).
    eexists _, s1. by rewrite (bind_Some _ _ _ _ _ Hc).
  - match goal with
    | |- context [syncChannel br v u ?id ?n] =>
        destruct (syncChannel_frame br v u id n s) as (s1 & Hs & Hf)
    end.
    eexists _, s1. by rewrite (bind_Some _ _ _ _ _ Hs).
Qed.

Lemma createSpoof_channel u brchannel s :
  strings.Contains (bridge.ChannelInfo.Name brchannel) "__" = false →
  ∃ s', createSpoof u brchannel s
        = (Some (Channel.SpoofMessage (bridge.ChannelInfo.ID brchannel)), s')
        ∧ frame s s'.
Proof.
  intros Hname. unfold irckit.createSpoof. rewrite Hname.
  match goal with
  | |- context [syncChannel br v u ?id ?n] =>
      destruct (syncChannel_frame br v u id n s) as (s1 & Hs & Hf)
  end.
  exists s1. by rewrite (bind_Some _ _ _ _ _ Hs).
Qed.

Lemma forM__SpoofMessage ch calls s :
  forM_ calls (apply_spoof (Channel.SpoofMessage ch)) s
  = (Some tt, set_trace (trace s ++ ((λ c, SpoofMessage ch c.1 c.2) <$> calls)) s).
Proof.
  revert s. induction calls as [|c calls IH]; intros s.
  - cbn. rewrite app_nil_r. by destruct s.
  - cbn [forM_ fmap list_fmap]. unfold apply_spoof at 1, Channel.SpoofMessage at 1.
    unfold bind, emit, modify. rewrite IH. cbn. by rewrite <- app_assoc.
Qed.

(** The trace a channel's replay leaves: the calls, each a spoofed message
    on the channel, then the mark. *)
Lemma worker_channel_trace u brchannel pl s :
  bridge.Bridger.GetLastViewedAt br (bridge.ChannelInfo.ID brchannel) ≠ 0%Z →
  bridge.Bridger.GetPostsSince br (bridge.ChannelInfo.ID brchannel)
    (bridge.Bridger.GetLastViewedAt br (bridge.ChannelInfo.ID brchannel)) = Some pl →
  Forall (λ id, is_Some (model.PostList.Posts pl !! id)) (model.PostList.Order pl) →
  strings.Contains (bridge.ChannelInfo.Name brchannel) "__" = false →
  ∃ s', worker u brchannel s = (Some tt, s') ∧
        trace s' = trace s
          ++ ((λ c, SpoofMessage (bridge.ChannelInfo.ID brchannel) c.1 c.2)
                <$> replay_calls br Format "" (replayed_posts pl))
          ++ (if viper.GetBool v (bridge.Bridger.Protocol br +:+ ".disableautoview")
              then [] else [UpdateLastViewed (bridge.ChannelInfo.ID brchannel)]).
Proof.
  intros Hsince Hposts Hall Hname. rewrite (worker_replay _ _ _ _ Hsince Hposts Hall).
  destruct (createSpoof_channel u brchannel s Hname) as (s1 & Hc & Hf).
  rewrite (bind_Some _ _ _ _ _ Hc), (bind_Some _ _ _ _ _ (forM__SpoofMessage _ _ _)).
  destruct Hf as (_ & Ht & _). unfold mark_viewed.
  destruct (viper.GetBool v _); cbn [negb when].
  - eexists. split; [reflexivity|]. cbn. by rewrite Ht, app_nil_r.
  - eexists. split; [reflexivity|]. cbn. by rewrite Ht, <- app_assoc.
Qed.

End WorkerProofs.

(** *** [MsgSpoofUser] *)

(** Trimming by a code: a list of non-empty words none of which is the
    start of another. *)

Section Codes.
Context (code : list (list ascii)).
Context (Hne : Forall (λ w, w ≠ []) code).
Context (Hpf : ∀ w1 w2, w1 ∈ code → w2 ∈ code → w1 `prefix_of` w2 → w1 = w2).

Lemma leading_word w l : w ∈ code → strings.leading code (w ++ l) = length w.
Proof.
  intros Hw. unfold strings.leading.
  destruct (list_find _ code) as [[i w']|] eqn:E.
  - apply list_find_Some in E as (Hi & Hp & _). cbn.
    assert (w' ∈ code) as Hw' by (by eapply list_elem_of_lookup_2).
    destruct (prefix_weak_total w' w (w ++ l) Hp (prefix_app_r w w l (reflexivity w)))
      as [H|H].
    + by rewrite (Hpf w' w Hw' Hw H).
    + by rewrite (Hpf w w' Hw Hw' H).
  - apply list_find_None in E. rewrite Forall_forall in E.
    destruct (E w Hw). by apply prefix_app_r.
Qed.

Lemma leading_S l n :
  strings.leading code l = S n → ∃ w, w ∈ code ∧ length w = S n ∧ l = w ++ drop (S n) l.
Proof.
  unfold strings.leading. destruct (list_find _ code) as [[i w]|] eqn:E; [|done].
  apply list_find_Some in E as (Hi & [k ->] & _). cbn. intros Hlen.
  exists w. split; [by eapply list_elem_of_lookup_2|]. split; [done|].
  by rewrite <- Hlen, drop_app_length.
Qed.

Lemma trim_from_drop k l : strings.trim_from code k l = strings.trim_from code 0 (drop k l).
Proof.
  revert k. induction l as [|c l IH]; intros k.
  - by rewrite drop_nil.
  - destruct k as [|k]; [done|]. cbn [strings.trim_from drop]. apply IH.
Qed.

Lemma trim_unfold l :
  strings.trim_from code 0 l
  = match strings.leading code l with
    | O => l
    | S k => strings.trim_from code 0 (drop (S k) l)
    end.
Proof.
  destruct l as [|c l].
  - cbn. by destruct (strings.leading code []).
  - cbn [strings.trim_from]. destruct (strings.leading code (c :: l)) as [|k]; [done|].
    cbn [drop]. apply trim_from_drop.
Qed.

Lemma trim_word w l :
  w ∈ code → strings.trim_from code 0 (w ++ l) = strings.trim_from code 0 l.
Proof.
  intros Hw. rewrite trim_unfold, (leading_word w l Hw).
  rewrite Forall_forall in Hne. specialize (Hne w Hw).
  destruct (length w) as [|n] eqn:E; [by apply length_zero_iff_nil in E|].
  by rewrite <- E, drop_app_length.
Qed.

Lemma trim_words ws l :
  Forall (λ w, w ∈ code) ws →
  strings.trim_from code 0 (concat ws ++ l) = strings.trim_from code 0 l.
Proof.
  induction 1 as [|w ws Hw _ IH]; [done|].
  cbn [concat]. by rewrite <- app_assoc, trim_word.
Qed.

(** What was trimmed off is made of words, and what is left starts with
    none. *)
Lemma trim_split l :
  ∃ ws, Forall (λ w, w ∈ code) ws ∧ l = concat ws ++ strings.trim_from code 0 l
        ∧ strings.leading code (strings.trim_from code 0 l) = 0%nat.
Proof.
  remember (length l) as n eqn:Hn. revert l Hn.
  induction n as [n IH] using lt_wf_ind. intros l ->.
  rewrite (trim_unfold l).
  destruct (strings.leading code l) as [|k] eqn:E.
  - exists []. by rewrite E.
  - destruct (leading_S l k E) as (w & Hw & Hlw & Hl).
    destruct (IH (length (drop (S k) l))) with (l := drop (S k) l) as (ws & Hws & Hd & H0);
      [|done|].
    { rewrite length_drop. destruct l; [by destruct w|cbn; lia]. }
    exists (w :: ws). split; [by constructor|]. split; [|done].
    cbn [concat]. rewrite <- app_assoc, <- Hd. exact Hl.
Qed.

#[local] Abbreviation made_of := (made_of code).

Lemma trim_nil l : strings.trim_from code 0 l = [] ↔ made_of l.
Proof.
  split.
  - intros Hnil. destruct (trim_split l) as (ws & Hws & Hl & _).
    exists ws. split; [done|]. by rewrite Hnil, app_nil_r in Hl.
  - intros (ws & Hws & ->).
    rewrite <- (app_nil_r (concat ws)). by rewrite trim_words.
Qed.

Lemma made_of_app_inv w l : w ∈ code → made_of (w ++ l) → made_of l.
Proof. intros Hw H%trim_nil. apply trim_nil. by rewrite trim_word in H. Qed.

Lemma made_of_leading l : made_of l → l ≠ [] → strings.leading code l ≠ 0%nat.
Proof.
  intros (ws & Hws & ->) Hnil H0.
  destruct Hws as [|w ws Hw Hws]; [done|].
  cbn [concat] in H0. rewrite leading_word in H0 by done.
  rewrite Forall_forall in Hne. by apply (Hne w Hw), length_zero_iff_nil.
Qed.

End Codes.

Lemma made_of_reverse code l : made_of code l → made_of (reverse <$> code) (reverse l).
Proof.
  intros (ws & Hws & ->). exists (reverse (reverse <$> ws)). split.
  - apply Forall_reverse, Forall_fmap. eapply Forall_impl; [exact Hws|].
    intros w Hw. cbn. by apply list_elem_of_fmap_2.
  - induction ws as [|w ws IH]; [done|].
    apply Forall_cons in Hws as [_ Hws].
    cbn [concat fmap list_fmap]. rewrite reverse_app, reverse_cons, concat_app, IH by done.
    cbn. by rewrite app_nil_r.
Qed.

(** The white-space runes in UTF-8 are such a code, read from the left and
    read from the right. *)
Lemma spaces_nonempty : Forall (λ w, w ≠ []) strings.spaces.
Proof. by repeat constructor. Qed.

Lemma prefix_free_check (code : list (list ascii)) :
  forallb (λ w1, forallb (λ w2, implb (bool_decide (w1 `prefix_of` w2))
                                      (bool_decide (w1 = w2))) code) code = true →
  ∀ w1 w2, w1 ∈ code → w2 ∈ code → w1 `prefix_of` w2 → w1 = w2.
Proof.
  intros Hall w1 w2 H1%list_elem_of_In H2%list_elem_of_In Hp.
  rewrite forallb_forall in Hall. specialize (Hall w1 H1).
  rewrite forallb_forall in Hall. specialize (Hall w2 H2).
  rewrite (bool_decide_eq_true_2 _ Hp) in Hall. by apply bool_decide_eq_true in Hall.
Qed.

Lemma spaces_prefix_free :
  ∀ w1 w2, w1 ∈ strings.spaces → w2 ∈ strings.spaces → w1 `prefix_of` w2 → w1 = w2.
Proof. apply prefix_free_check. vm_compute. reflexivity. Qed.

Lemma spaces_reverse_nonempty : Forall (λ w, w ≠ []) (reverse <$> strings.spaces).
Proof. by repeat constructor. Qed.

Lemma spaces_suffix_free :
  ∀ w1 w2, w1 ∈ reverse <$> strings.spaces → w2 ∈ reverse <$> strings.spaces →
           w1 `prefix_of` w2 → w1 = w2.
Proof. apply prefix_free_check. vm_compute. reflexivity. Qed.

Lemma list_ascii_of_string_app s t :
  list_ascii_of_string (s +:+ t) = list_ascii_of_string s ++ list_ascii_of_string t.
Proof. induction s as [|c s IH]; [done|]. cbn. by rewrite <- IH. Qed.

Lemma string_of_list_ascii_nil l : string_of_list_ascii l = "" ↔ l = [].
Proof. by destruct l. Qed.

Lemma list_ascii_of_string_nil s : list_ascii_of_string s = [] ↔ s = "".
Proof. by destruct s. Qed.

Lemma made_of_spaces l :
  made_of strings.spaces l
  ↔ ∃ rs, Forall (λ r, r ∈ unicode.White_Space) rs ∧ l = concat (utf8.EncodeRune <$> rs).
Proof.
  split.
  - intros (ws & Hws & ->). induction Hws as [|w ws Hw _ (rs & Hrs & IH)].
    + by exists [].
    + apply list_elem_of_fmap in Hw as (r & -> & Hr).
      exists (r :: rs). split; [by constructor|]. cbn. by rewrite IH.
  - intros (rs & Hrs & ->). exists (utf8.EncodeRune <$> rs). split; [|done].
    apply Forall_fmap. eapply Forall_impl; [exact Hrs|].
    intros r Hr. by apply list_elem_of_fmap_2.
Qed.

Lemma blank_made_of s : blank s ↔ made_of strings.spaces (list_ascii_of_string s).
Proof. symmetry. apply made_of_spaces. Qed.

Lemma made_of_spaces_reverse l :
  made_of (reverse <$> strings.spaces) (reverse l) ↔ made_of strings.spaces l.
Proof.
  split; [|apply made_of_reverse].
  intros H%made_of_reverse. by rewrite reverse_involutive in H.
Qed.

Lemma reverse_eq_nil {A} (l : list A) : reverse l = [] ↔ l = [].
Proof.
  split; [|by intros ->].
  intros H%(f_equal length). rewrite length_reverse in H. by destruct l.
Qed.

(** [TrimSpace] leaves nothing exactly of the strings that are white space
    only. *)
Lemma TrimSpace_empty s : strings.TrimSpace s = "" ↔ blank s.
Proof.
  unfold strings.TrimSpace. cbn zeta.
  rewrite string_of_list_ascii_nil, blank_made_of.
  set (l := list_ascii_of_string s).
  split.
  - intros Hnil. apply (proj1 (reverse_eq_nil _)) in Hnil. apply trim_nil in Hnil;
      [|exact spaces_reverse_nonempty|exact spaces_suffix_free].
    apply made_of_spaces_reverse in Hnil.
    destruct (trim_split strings.spaces l) as (_ & _ & _ & H0).
    apply (trim_nil strings.spaces spaces_nonempty spaces_prefix_free).
    destruct (strings.trim_from strings.spaces 0 l) as [|c t] eqn:E; [done|].
    by destruct (made_of_leading strings.spaces spaces_nonempty spaces_prefix_free _ Hnil).
  - intros Hw. rewrite (proj2 (trim_nil strings.spaces spaces_nonempty spaces_prefix_free l) Hw).
    by rewrite reverse_nil.
Qed.

Lemma TrimSpace_not_blank s : strings.TrimSpace s ≠ "" → ¬ blank (strings.TrimSpace s).
Proof.
  intros Hne Hb. apply blank_made_of in Hb. apply Hne, list_ascii_of_string_nil.
  revert Hb. unfold strings.TrimSpace. cbn zeta.
  rewrite list_ascii_of_string_of_list_ascii.
  set (x := reverse (strings.trim_from strings.spaces 0 (list_ascii_of_string s))).
  intros Hb%made_of_spaces_reverse. rewrite reverse_involutive in Hb.
  destruct (trim_split (reverse <$> strings.spaces) x) as (_ & _ & _ & H0).
  destruct (strings.trim_from (reverse <$> strings.spaces) 0 x) as [|c t] eqn:E; [done|].
  by destruct (made_of_leading _ spaces_reverse_nonempty spaces_suffix_free _ Hb).
Qed.

(** A trimmed string is trimmed: no white space is left at either end. *)
Lemma TrimSpace_idemp s : strings.TrimSpace (strings.TrimSpace s) = strings.TrimSpace s.
Proof.
  unfold strings.TrimSpace. cbn zeta. rewrite list_ascii_of_string_of_list_ascii.
  set (t := strings.trim_from strings.spaces 0 (list_ascii_of_string s)).
  set (y := strings.trim_from (reverse <$> strings.spaces) 0 (reverse t)).
  destruct (trim_split strings.spaces (list_ascii_of_string s)) as (_ & _ & _ & Ht).
  destruct (trim_split (reverse <$> strings.spaces) (reverse t)) as (ws & _ & Hsplit & Hy).
  fold t in Ht. fold y in Hsplit, Hy.
  assert (strings.trim_from strings.spaces 0 (reverse y) = reverse y) as ->.
  { rewrite trim_unfold. destruct (strings.leading strings.spaces (reverse y)) as [|n] eqn:E;
      [done|].
    destruct (leading_S _ _ _ E) as (w & Hw & Hlen & Hr).
    apply (f_equal reverse) in Hsplit. rewrite reverse_involutive, reverse_app in Hsplit.
    rewrite Hsplit, Hr, <- app_assoc in Ht.
    rewrite (leading_word _ spaces_prefix_free w _ Hw) in Ht. lia. }
  rewrite reverse_involutive.
  assert (strings.trim_from (reverse <$> strings.spaces) 0 y = y) as ->; [|done].
  rewrite trim_unfold. by rewrite Hy.
Qed.

Lemma LF_space : [ascii_of_nat 10] ∈ reverse <$> strings.spaces.
Proof.
  apply list_elem_of_fmap. exists [ascii_of_nat 10]. split; [done|].
  apply list_elem_of_fmap. exists 10%N. split; [done|].
  unfold unicode.White_Space. set_solver.
Qed.

Lemma blank_LF s : blank (s +:+ LF) ↔ blank s.
Proof.
  rewrite !blank_made_of, list_ascii_of_string_app.
  change (list_ascii_of_string LF) with [ascii_of_nat 10].
  rewrite <- !made_of_spaces_reverse, reverse_app.
  change (reverse [ascii_of_nat 10]) with [ascii_of_nat 10].
  split.
  - apply (made_of_app_inv _ spaces_reverse_nonempty spaces_suffix_free [ascii_of_nat 10]).
    exact LF_space.
  - intros (ws & Hws & Hl). exists ([ascii_of_nat 10] :: ws). split.
    + constructor; [exact LF_space|done].
    + cbn [concat]. by rewrite Hl.
Qed.

Lemma TrimSpace_line_nonempty s :
  strings.TrimSpace s ≠ "" → strings.TrimSpace (strings.TrimSpace s +:+ LF) ≠ "".
Proof.
  intros Hne Hempty. apply (proj1 (TrimSpace_empty _)) in Hempty.
  apply (proj1 (blank_LF _)) in Hempty. by apply (TrimSpace_not_blank s).
Qed.

Section SpoofProofs.
Context (wordwrap_String : string → nat → string).

Lemma MsgSpoofUser_lines (sender : ptr) snd rcvuser lines s :
  heap s !! sender = Some snd →
  forM_ lines (λ l,
    let l := strings.TrimSpace l in
    if (String.length l =? 0)%nat then ret tt
    else
      let* snd := load sender in
      emit (Encode (irc.Message.mk
                      (Some (irc.Prefix.mk
                               (bridge.UserInfo.Nick (User.UserInfo snd))
                               (bridge.UserInfo.Nick (User.UserInfo snd))
                               (bridge.UserInfo.Host (User.UserInfo snd))))
                      irc.PRIVMSG [rcvuser] (l +:+ LF)))) s
  = (Some tt,
     set_trace (trace s ++ (privmsg snd rcvuser
                              <$> filter (λ l, l ≠ "") (strings.TrimSpace <$> lines))) s).
Proof.
  intros Hsnd. revert s Hsnd. induction lines as [|l lines IH]; intros s Hsnd.
  - cbn. rewrite app_nil_r. by destruct s.
  - cbn [forM_ fmap list_fmap]. rewrite filter_cons.
    destruct (strings.TrimSpace l) as [|c t] eqn:E.
    + cbn [String.length Nat.eqb]. rewrite decide_False by (by intros []).
      rewrite (bind_Some _ _ _ _ _ (eq_refl : ret tt s = (Some tt, s))). by apply IH.
    + cbn [String.length Nat.eqb]. rewrite decide_True by done.
      rewrite bind_assoc, (bind_Some _ _ _ _ _ (load_Some _ _ _ Hsnd)).
      unfold emit, modify. unfold bind at 1.
      rewrite IH by done. cbn. by rewrite <- app_assoc.
Qed.

End SpoofProofs.

(** *** The adapter's echo suppression *)

Section AdapterProofs.
Context (mc : mattermost.MMClient.t) (v : viper.Viper).
Context (handleOther : mattermost.WebSocketEvent.t → M (list mattermost.Action) unit).

Lemma GetMe_User : bridge.UserInfo.User (mattermost.GetMe mc v) = model.User.Id (mattermost.MMClient.User mc).
Proof. reflexivity. Qed.

Lemma wsActionPostSkip_own_marked rmsg b :
  model.Post.UserId (mattermost.WebSocketEvent.Post rmsg) = model.User.Id (mattermost.MMClient.User mc) →
  model.Post.Props (mattermost.WebSocketEvent.Post rmsg) !! marker_key mc = Some (model.JBool b) →
  mattermost.wsActionPostSkip mc v rmsg = true.
Proof.
  intros Hme Hmark. unfold mattermost.wsActionPostSkip. rewrite GetMe_User.
  destruct (_ && _); [done|].
  rewrite (bool_decide_eq_true_2 _ Hme).
  fold (marker_key mc). rewrite Hmark. done.
Qed.

Lemma checkWsActionMessage_sends rmsg tick tr :
  ∃ tr', mattermost.checkWsActionMessage mc v rmsg tick tr = (Some tt, tr') ∧
         ∀ e, mattermost.Send e ∈ tr' → mattermost.Send e ∈ tr.
Proof.
  unfold mattermost.checkWsActionMessage. destruct (negb _); [by exists tr|].
  destruct tick; cbn [when]; [|by exists tr].
  eexists. split; [reflexivity|]. intros e. rewrite elem_of_app, list_elem_of_singleton.
  by intros [?|?].
Qed.

End AdapterProofs.

(** *** A registry that only grows *)

Lemma grown_refl s : grown s s.
Proof. by split_and!. Qed.

Lemma grown_trans s1 s2 s3 : grown s1 s2 → grown s2 s3 → grown s1 s3.
Proof.
  intros (Hn1 & Hh1 & Hu1 & Hok1) (Hn2 & Hh2 & Hu2 & Hok2). split_and!.
  - by rewrite Hn2.
  - by etrans.
  - by etrans.
  - auto.
Qed.

Lemma grown_set_members ms s : grown s (set_members ms s).
Proof. by split_and!. Qed.

Lemma grown_set_topics ts s : grown s (set_topics ts s).
Proof. by split_and!. Qed.

Lemma grown_set_trace tr s : grown s (set_trace tr s).
Proof. by split_and!. Qed.

Lemma grown_registered info s : grown s (registered info s).
Proof.
  split_and!; [done|by apply prefix_app_r|by apply prefix_app_r|apply registered_ok_registered].
Qed.

Lemma grown_info_of s s' g :
  grown s s' → (g < length (heap s))%nat → info_of s' g = info_of s g.
Proof.
  intros (_ & Hh & _) Hg. destruct (lookup_lt_is_Some_2 _ _ Hg) as [x Hx].
  rewrite (info_of_lookup _ _ _ Hx).
  apply info_of_lookup. by eapply prefix_lookup_Some.
Qed.

Lemma HasUserID_grown id s s' g :
  registered_ok s → grown s s' →
  Srv.HasUserID id s = Some g → Srv.HasUserID id s' = Some g.
Proof.
  intros Hok Hg. rewrite !HasUserID_eq.
  destruct (list_find _ (users s)) as [[i x]|] eqn:E; [|done]. intros [= <-].
  apply list_find_Some in E as (Hl & HP & Hbefore).
  assert (∀ y, y ∈ users s → uid s' y = uid s y) as Hsame.
  { intros y Hy. unfold uid. f_equal.
    apply grown_info_of; [done|by apply registered_ok_elem]. }
  destruct Hg as (_ & _ & [k Hu] & _). rewrite Hu.
  erewrite (proj2 (list_find_Some _ _ i x)); [done|].
  split_and!.
  - by apply lookup_app_l_Some.
  - rewrite Hsame; [done|]. by eapply list_elem_of_lookup_2.
  - intros j y Hj Hji. assert (users s !! j = Some y) as Hy.
    { rewrite lookup_app_l in Hj; [done|]. apply lookup_lt_Some in Hl. lia. }
    rewrite Hsame; [by eapply Hbefore|]. by eapply list_elem_of_lookup_2.
Qed.

Lemma HasUserID_registered_new info s :
  registered_ok s → Srv.HasUserID (bridge.UserInfo.User info) s = None →
  Srv.HasUserID (bridge.UserInfo.User info) (registered info s) = Some (length (heap s)).
Proof.
  intros Hok E. rewrite HasUserID_eq. cbn [users registered set_users].
  erewrite (proj2 (list_find_Some _ _ (length (users s)) (length (heap s)))); [done|].
  split_and!.
  - by rewrite list_lookup_middle.
  - apply uid_registered_new.
  - intros j y Hj Hlt. rewrite lookup_app_l in Hj by done.
    rewrite uid_registered_old; [|done|by eapply list_elem_of_lookup_2].
    apply HasUserID_None in E. intros Hy.
    assert (y ∈ ghosts_for (bridge.UserInfo.User info) s) as Hin.
    { apply list_elem_of_filter. split; [done|by eapply list_elem_of_lookup_2]. }
    rewrite E in Hin. by apply not_elem_of_nil in Hin.
Qed.

(** What a resolution leaves: the ghost it answers with is the one
    registered for the identifier, and nothing but the registry changed. *)
Lemma createUserFromInfo_grown u info s :
  registered_ok s →
  ∃ g s', createUserFromInfo u info s = (Some g, s') ∧ grown s s' ∧
          members s' = members s ∧ topics s' = topics s ∧ trace s' = trace s ∧
          Srv.HasUserID (bridge.UserInfo.User info) s' = Some g ∧
          registered_ok s'.
Proof.
  intros Hok.
  destruct (Srv.HasUserID (bridge.UserInfo.User info) s) as [g|] eqn:E.
  - exists g, s. rewrite (createUserFromInfo_found _ _ _ _ E).
    split_and!; done || apply grown_refl.
  - eexists _, _. rewrite (createUserFromInfo_new _ _ _ E).
    split_and!; try done.
    + apply grown_registered.
    + by apply HasUserID_registered_new.
    + by apply registered_ok_registered.
Qed.

Lemma grown_synced_ghosts id infos s : grown s (synced_ghosts id infos s).
Proof.
  split_and!; [done|by apply prefix_app_r|by apply prefix_app_r|
               apply registered_ok_synced_ghosts].
Qed.

Lemma members_synced_ghosts id infos s x :
  x ∈ members s → x ∈ members (synced_ghosts id infos s).
Proof. intros Hx. cbn. rewrite !elem_of_union. auto. Qed.

Lemma grown_owner_joined br u id s : grown s (owner_joined br u id s).
Proof.
  unfold owner_joined.
  eapply grown_trans; [apply grown_set_members|apply grown_set_topics].
Qed.

(** [syncChannel] sends nothing and takes nothing away. *)
Lemma syncChannel_grown br v u id name s :
  ∃ s', syncChannel br v u id name s = (Some tt, s') ∧ grown s s' ∧
        (∀ x, x ∈ members s → x ∈ members s') ∧ trace s' = trace s.
Proof.
  destruct (bridge.Bridger.GetChannelUsers br id) as [infos|] eqn:E.
  - eexists. rewrite (syncChannel_spec _ _ _ _ _ _ _ E). split; [done|]. cbn zeta.
    assert (grown s (synced_ghosts id infos s)
            ∧ (∀ x, x ∈ members s → x ∈ members (synced_ghosts id infos s))
            ∧ trace (synced_ghosts id infos s) = trace s) as Hs4.
    { split_and!; [apply grown_synced_ghosts| |done].
      intros x Hx. by apply members_synced_ghosts. }
    destruct (bool_decide _); [exact Hs4|].
    destruct (mayJoin_answer br v u id s); [|exact Hs4].
    destruct Hs4 as (Hg & Hm & Ht). split_and!.
    + eapply grown_trans; [exact Hg|apply grown_owner_joined].
    + intros x Hx. cbn. apply elem_of_union. right. by apply Hm.
    + exact Ht.
  - exists s. rewrite (syncChannel_error _ _ _ _ _ _ E).
    split_and!; [done|apply grown_refl|done|done].
Qed.

(** *** Members added and removed *)

Section MembershipEvents.
Context (br : bridge.Bridger.t) (v : viper.Viper).

Lemma handleChannelAddEvent_step u event added s :
  registered_ok s →
  ∃ s',
    (if bridge.UserInfo.Me added then
       syncChannel br v u (bridge.ChannelAddEvent.ChannelID event)
         (bridge.Bridger.GetChannelName br (bridge.ChannelAddEvent.ChannelID event))
     else
       let* ghost := createUserFromInfo u added in
       Channel.Join (Srv.Channel (bridge.ChannelAddEvent.ChannelID event)) ghost ;;
       match bridge.ChannelAddEvent.Adder event with
       | Some adder =>
           when (negb (bool_decide (bridge.UserInfo.Nick added = bridge.UserInfo.Nick adder))
                 && negb (bool_decide (bridge.UserInfo.Nick adder = "system")))
                (Channel.SpoofMessage (Srv.Channel (bridge.ChannelAddEvent.ChannelID event))
                   "system"
                   ("added " +:+ bridge.UserInfo.Nick added +:+ " to the channel by "
                    +:+ bridge.UserInfo.Nick adder))
       | None => ret tt
       end) s = (Some tt, s')
    ∧ grown s s' ∧ registered_ok s'
    ∧ (∀ x, x ∈ members s → x ∈ members s')
    ∧ trace s' = trace s ++ option_list (added_notice event added)
    ∧ (bridge.UserInfo.Me added = false →
       ∃ g, Srv.HasUserID (bridge.UserInfo.User added) s' = Some g
            ∧ (bridge.ChannelAddEvent.ChannelID event, g) ∈ members s').
Proof.
  intros Hok. unfold added_notice. destruct (bridge.UserInfo.Me added) eqn:Hme.
  - destruct (syncChannel_grown br v u (bridge.ChannelAddEvent.ChannelID event)
                (bridge.Bridger.GetChannelName br (bridge.ChannelAddEvent.ChannelID event)) s)
      as (s' & Hrun & Hg & Hm & Ht).
    exists s'. split_and!; [done|done|by apply Hg|done| |done].
    cbn. by rewrite app_nil_r.
  - destruct (createUserFromInfo_grown u added s Hok)
      as (g & s1 & Hrun & Hg & Hm & _ & Ht & Hid & Hok1).
    run Hrun. unfold Channel.Join, Srv.Channel, modify. unfold bind at 1.
    set (s2 := set_members _ s1).
    assert (grown s s2) as Hg2
      by (eapply grown_trans; [exact Hg|apply grown_set_members]).
    assert (∀ x, x ∈ members s → x ∈ members s2) as Hm2.
    { intros x Hx. cbn. apply elem_of_union. right. by rewrite Hm. }
    assert (Srv.HasUserID (bridge.UserInfo.User added) s2 = Some g
            ∧ (bridge.ChannelAddEvent.ChannelID event, g) ∈ members s2) as Hjoined.
    { split; [exact Hid|]. cbn. apply elem_of_union. left. by apply elem_of_singleton. }
    destruct (bridge.ChannelAddEvent.Adder event) as [adder|].
    2:{ exists s2. split_and!; [done|done|done|done| |by eauto].
        cbn. by rewrite app_nil_r, Ht. }
    destruct (decide (bridge.UserInfo.Nick added = bridge.UserInfo.Nick adder)) as [Hn|Hn].
    { rewrite (bool_decide_eq_true_2 _ Hn).
      rewrite (bool_decide_eq_false_2 (_ ∧ _)) by (by intros [? _]).
      exists s2. split_and!; [done|done|done|done| |by eauto].
      cbn. by rewrite app_nil_r, Ht. }
    rewrite (bool_decide_eq_false_2 _ Hn).
    destruct (decide (bridge.UserInfo.Nick adder = "system")) as [Hs|Hs].
    { rewrite (bool_decide_eq_true_2 _ Hs).
      rewrite (bool_decide_eq_false_2 (_ ∧ _)) by (by intros [_ ?]).
      exists s2. split_and!; [done|done|done|done| |by eauto].
      cbn. by rewrite app_nil_r, Ht. }
    rewrite (bool_decide_eq_false_2 _ Hs), (bool_decide_eq_true_2 (_ ∧ _)) by done.
    eexists. split; [reflexivity|]. split_and!.
    + eapply grown_trans; [exact Hg2|apply grown_set_trace].
    + done.
    + done.
    + cbn. by rewrite Ht.
    + intros _. by exists g.
Qed.

Lemma handleChannelAddEvent_spec u event s :
  registered_ok s →
  ∃ s',
    handleChannelAddEvent br v u event s = (Some tt, s')
    ∧ grown s s' ∧ registered_ok s'
    ∧ (∀ x, x ∈ members s → x ∈ members s')
    ∧ trace s' = trace s ++ omap (added_notice event) (bridge.ChannelAddEvent.Added event)
    ∧ (∀ added, added ∈ bridge.ChannelAddEvent.Added event →
         bridge.UserInfo.Me added = false →
         ∃ g, Srv.HasUserID (bridge.UserInfo.User added) s' = Some g
              ∧ (bridge.ChannelAddEvent.ChannelID event, g) ∈ members s').
Proof.
  unfold handleChannelAddEvent. cbn zeta.
  revert s. induction (bridge.ChannelAddEvent.Added event) as [|added l IH]; intros s Hok.
  - exists s. split_and!; [done|apply grown_refl|done|done|by rewrite app_nil_r|].
    intros added Hin. by apply elem_of_nil in Hin.
  - cbn [forM_].
    destruct (handleChannelAddEvent_step u event added s Hok)
      as (s1 & Hrun & Hg1 & Hok1 & Hm1 & Ht1 & Hj1).
    run Hrun.
    destruct (IH s1 Hok1) as (s2 & Hrest & Hg2 & Hok2 & Hm2 & Ht2 & Hj2).
    exists s2. split_and!; [done|by eapply grown_trans|done|by auto| |].
    + rewrite Ht2, Ht1, <- app_assoc. f_equal. cbn [omap list_omap].
      by destruct (added_notice event added).
    + intros a [->|Hin]%elem_of_cons Hme; [|by apply Hj2].
      destruct (Hj1 Hme) as (g & Hid & Hin). exists g. split; [|by apply Hm2].
      by apply (HasUserID_grown _ s1).
Qed.

Lemma handleChannelRemoveEvent_step u event removed s :
  registered_ok s →
  ∃ s',
    (if bridge.UserInfo.Me removed
     then Channel.Part (Srv.Channel (bridge.ChannelRemoveEvent.ChannelID event)) u
     else
       let* ghost := createUserFromInfo u removed in
       Channel.Part (Srv.Channel (bridge.ChannelRemoveEvent.ChannelID event)) ghost ;;
       match bridge.ChannelRemoveEvent.Remover event with
       | Some remover =>
           when (negb (bool_decide (bridge.UserInfo.Nick removed
                                    = bridge.UserInfo.Nick remover))
                 && negb (bool_decide (bridge.UserInfo.Nick remover = "system")))
                (Channel.SpoofMessage (Srv.Channel (bridge.ChannelRemoveEvent.ChannelID event))
                   "system"
                   ("removed " +:+ bridge.UserInfo.Nick removed +:+ " from the channel by "
                    +:+ bridge.UserInfo.Nick remover))
       | None => ret tt
       end) s = (Some tt, s')
    ∧ grown s s' ∧ registered_ok s'
    ∧ (∀ x, x ∈ members s' → x ∈ members s)
    ∧ (∀ c g, c ≠ bridge.ChannelRemoveEvent.ChannelID event →
              (c, g) ∈ members s → (c, g) ∈ members s')
    ∧ trace s' = trace s ++ option_list (removed_notice event removed)
    ∧ (if bridge.UserInfo.Me removed
       then (bridge.ChannelRemoveEvent.ChannelID event, u) ∉ members s'
       else ∃ g, Srv.HasUserID (bridge.UserInfo.User removed) s' = Some g
                 ∧ (bridge.ChannelRemoveEvent.ChannelID event, g) ∉ members s').
Proof.
  intros Hok. unfold removed_notice. destruct (bridge.UserInfo.Me removed) eqn:Hme.
  - eexists. split; [reflexivity|]. cbn.
    split_and!; [apply grown_set_members|done| | |by rewrite app_nil_r|].
    + intros x. rewrite elem_of_difference. tauto.
    + intros c g Hc Hin. rewrite elem_of_difference, elem_of_singleton.
      split; [done|]. by intros [= ? _].
    + rewrite elem_of_difference, elem_of_singleton. tauto.
  - destruct (createUserFromInfo_grown u removed s Hok)
      as (g & s1 & Hrun & Hg & Hm & _ & Ht & Hid & Hok1).
    run Hrun. unfold Channel.Part, Srv.Channel, modify. unfold bind at 1.
    set (s2 := set_members _ s1).
    assert (grown s s2) as Hg2
      by (eapply grown_trans; [exact Hg|apply grown_set_members]).
    assert (∀ x, x ∈ members s2 → x ∈ members s) as Hm2.
    { intros x. cbn. rewrite Hm, elem_of_difference. tauto. }
    assert (∀ c g0, c ≠ bridge.ChannelRemoveEvent.ChannelID event →
                    (c, g0) ∈ members s → (c, g0) ∈ members s2) as Hother.
    { intros c g0 Hc Hin. cbn. rewrite Hm, elem_of_difference, elem_of_singleton.
      split; [done|]. by intros [= ? _]. }
    assert (∃ g, Srv.HasUserID (bridge.UserInfo.User removed) s2 = Some g
                 ∧ (bridge.ChannelRemoveEvent.ChannelID event, g) ∉ members s2) as Hparted.
    { exists g. split; [exact Hid|]. cbn.
      rewrite elem_of_difference, elem_of_singleton. tauto. }
    destruct (bridge.ChannelRemoveEvent.Remover event) as [remover|].
    2:{ exists s2. split_and!; [done|done|done|done|done| |done].
        cbn. by rewrite app_nil_r, Ht. }
    destruct (decide (bridge.UserInfo.Nick removed = bridge.UserInfo.Nick remover)) as [Hn|Hn].
    { rewrite (bool_decide_eq_true_2 _ Hn).
      rewrite (bool_decide_eq_false_2 (_ ∧ _)) by (by intros [? _]).
      exists s2. split_and!; [done|done|done|done|done| |done].
      cbn. by rewrite app_nil_r, Ht. }
    rewrite (bool_decide_eq_false_2 _ Hn).
    destruct (decide (bridge.UserInfo.Nick remover = "system")) as [Hs|Hs].
    { rewrite (bool_decide_eq_true_2 _ Hs).
      rewrite (bool_decide_eq_false_2 (_ ∧ _)) by (by intros [_ ?]).
      exists s2. split_and!; [done|done|done|done|done| |done].
      cbn. by rewrite app_nil_r, Ht. }
    rewrite (bool_decide_eq_false_2 _ Hs), (bool_decide_eq_true_2 (_ ∧ _)) by done.
    eexists. split; [reflexivity|]. split_and!.
    + eapply grown_trans; [exact Hg2|apply grown_set_trace].
    + done.
    + done.
    + done.
    + cbn. by rewrite Ht.
    + done.
Qed.

Lemma handleChannelRemoveEvent_spec u event s :
  registered_ok s →
  ∃ s',
    handleChannelRemoveEvent u event s = (Some tt, s')
    ∧ grown s s' ∧ registered_ok s'
    ∧ (∀ x, x ∈ members s' → x ∈ members s)
    ∧ (∀ c g, c ≠ bridge.ChannelRemoveEvent.ChannelID event →
              (c, g) ∈ members s → (c, g) ∈ members s')
    ∧ trace s' = trace s
        ++ omap (removed_notice event) (bridge.ChannelRemoveEvent.Removed event)
    ∧ (∀ removed, removed ∈ bridge.ChannelRemoveEvent.Removed event →
         if bridge.UserInfo.Me removed
         then (bridge.ChannelRemoveEvent.ChannelID event, u) ∉ members s'
         else ∃ g, Srv.HasUserID (bridge.UserInfo.User removed) s' = Some g
                   ∧ (bridge.ChannelRemoveEvent.ChannelID event, g) ∉ members s').
Proof.
  unfold handleChannelRemoveEvent. cbn zeta.
  revert s. induction (bridge.ChannelRemoveEvent.Removed event) as [|removed l IH];
    intros s Hok.
  - exists s. split_and!; [done|apply grown_refl|done|done|done|by rewrite app_nil_r|].
    intros removed Hin. by apply elem_of_nil in Hin.
  - cbn [forM_].
    destruct (handleChannelRemoveEvent_step u event removed s Hok)
      as (s1 & Hrun & Hg1 & Hok1 & Hm1 & Ho1 & Ht1 & Hp1).
    run Hrun.
    destruct (IH s1 Hok1) as (s2 & Hrest & Hg2 & Hok2 & Hm2 & Ho2 & Ht2 & Hp2).
    exists s2. split_and!; [done|by eapply grown_trans|done|by auto|by auto| |].
    + rewrite Ht2, Ht1, <- app_assoc. f_equal. cbn [omap list_omap].
      by destruct (removed_notice event removed).
    + intros r [->|Hin]%elem_of_cons; [|by apply Hp2].
      destruct (bridge.UserInfo.Me removed).
      * intros Hin. by apply Hp1, Hm2.
      * destruct Hp1 as (g & Hid & Hout). exists g.
        split; [by apply (HasUserID_grown _ s1)|]. intros Hin. by apply Hout, Hm2.
Qed.

End MembershipEvents.

(** *** The memberships the router leaves *)

Section RouterMembers.
Context (br : bridge.Bridger.t) (v : viper.Viper).

Lemma group_join_grown u channelID channelType s :
  registered_ok s →
  ∃ s', when (bool_decide (channelType = "G"))
          (let* myself := createUserFromInfo u (bridge.Bridger.GetMe br) in
           let* has := gets (Channel.HasUser (Srv.Channel channelID) myself) in
           when (negb has)
                (Channel.Join (Srv.Channel channelID) myself ;;
                 syncChannel br v u channelID
                   (bridge.Bridger.GetChannelName br channelID))) s
        = (Some tt, s') ∧ grown s s' ∧ registered_ok s' ∧ trace s' = trace s
        ∧ (∀ x, x ∈ members s → x ∈ members s')
        ∧ (channelType = "G" →
           ∃ myself, Srv.HasUserID (bridge.UserInfo.User (bridge.Bridger.GetMe br)) s'
                     = Some myself
                     ∧ (channelID, myself) ∈ members s').
Proof.
  intros Hok. destruct (bool_decide_reflect (channelType = "G")) as [HG|HG]; cbn [when].
  2:{ exists s. split_and!; [done|apply grown_refl|done|done|done|done]. }
  destruct (createUserFromInfo_grown u (bridge.Bridger.GetMe br) s Hok)
    as (g & s1 & Hc & Hg1 & Hm1 & _ & Ht1 & Hid1 & Hok1).
  run Hc. unfold gets at 1. unfold bind at 1. unfold Channel.HasUser, Srv.Channel.
  destruct (bool_decide_reflect ((channelID, g) ∈ members s1)) as [Hin|Hout]; cbn [negb when].
  { exists s1. split_and!; [done|done|done|done|by rewrite Hm1|]. intros _. by exists g. }
  unfold Channel.Join, modify. unfold bind at 1.
  match goal with
  | |- context [syncChannel br v u channelID ?n ?st] =>
      destruct (syncChannel_grown br v u channelID n st) as (s2 & Hs & Hg2 & Hm2 & Ht2)
  end.
  rewrite Hs. exists s2. split_and!.
  - done.
  - eapply grown_trans; [exact Hg1|]. eapply grown_trans; [apply grown_set_members|exact Hg2].
  - apply Hg2. done.
  - by rewrite Ht2.
  - intros x Hx. apply Hm2. cbn. apply elem_of_union. right. by rewrite Hm1.
  - intros _. exists g. split.
    + apply (HasUserID_grown _ (set_members ({[(channelID, g)]} ∪ members s1) s1)); done.
    + apply Hm2. cbn. apply elem_of_union. left. by apply elem_of_singleton.
Qed.

(** The router, with what it does besides routing: it sends nothing, takes
    no one out of a channel, and leaves the sender's ghost registered and,
    unless the ghost is the owner's own, a member of the channel the
    message came from. *)
Lemma getMessageChannel_members u channelID channelType sender s :
  registered_ok s →
  ∃ g s',
    getMessageChannel br v u channelID channelType sender s
    = (Some (route_by_policy (joinexclude br v) (joininclude br v) (names s) channelID), s')
    ∧ grown s s' ∧ registered_ok s' ∧ trace s' = trace s
    ∧ (∀ x, x ∈ members s → x ∈ members s')
    ∧ Srv.HasUserID (bridge.UserInfo.User sender) s' = Some g
    ∧ (bridge.UserInfo.Me (info_of s' g) = false → (channelID, g) ∈ members s')
    ∧ (channelType = "G" →
       ∃ myself, Srv.HasUserID (bridge.UserInfo.User (bridge.Bridger.GetMe br)) s'
                 = Some myself
                 ∧ (channelID, myself) ∈ members s').
Proof.
  intros Hok. unfold getMessageChannel.
  destruct (group_join_grown u channelID channelType s Hok)
    as (s1 & Hg & Hg1 & Hok1 & Ht1 & Hm1 & Hgroup).
  run Hg.
  destruct (createUserFromInfo_grown u sender s1 Hok1)
    as (g & s2 & Hc & Hg2 & Hm2 & _ & Ht2 & Hid & Hok2).
  run Hc.
  destruct (HasUserID_Some _ _ _ Hid) as [Hin _].
  destruct (lookup_lt_is_Some_2 _ _ (registered_ok_elem _ _ Hok2 Hin)) as [x Hx].
  rewrite (bind_Some _ _ _ _ _ (eq_refl : gets _ s2 = (Some _, s2))).
  unfold Channel.HasUser, Srv.Channel.
  assert (∃ s3, (let* join := (if bool_decide ((channelID, g) ∈ members s2) then ret false
                               else let* g0 := load g in
                                    ret (negb (bridge.UserInfo.Me (User.UserInfo g0)))) in
                 when join (Channel.Join channelID g)) s2 = (Some tt, s3)
                ∧ heap s3 = heap s2 ∧ users s3 = users s2 ∧ names s3 = names s2
                ∧ trace s3 = trace s2
                ∧ (∀ x, x ∈ members s2 → x ∈ members s3)
                ∧ (bridge.UserInfo.Me (User.UserInfo x) = false → (channelID, g) ∈ members s3))
    as (s3 & Hj & Hh3 & Hu3 & Hn3 & Ht3 & Hm3 & Hjoined).
  { destruct (bool_decide_reflect ((channelID, g) ∈ members s2)) as [Hmem|Hmem].
    - exists s2. split_and!; done.
    - rewrite bind_assoc, (bind_Some _ _ _ _ _ (load_Some _ _ _ Hx)).
      unfold ret at 1. unfold bind at 1.
      destruct (bridge.UserInfo.Me (User.UserInfo x)); cbn [negb when].
      + exists s2. split_and!; done.
      + eexists. split; [reflexivity|]. cbn. split_and!; try done.
        * intros y Hy. apply elem_of_union. by right.
        * intros _. apply elem_of_union. left. by apply elem_of_singleton. }
  rewrite <- bind_assoc. run Hj.
  assert (grown s s3) as Hgrown.
  { eapply grown_trans; [exact Hg1|]. eapply grown_trans; [exact Hg2|].
    split_and!; [done|by rewrite Hh3|by rewrite Hu3|].
    unfold registered_ok. by rewrite Hh3, Hu3. }
  assert (registered_ok s3) as Hok3 by (unfold registered_ok; by rewrite Hh3, Hu3).
  assert (Srv.HasUserID (bridge.UserInfo.User sender) s3 = Some g) as Hid3.
  { rewrite <- Hid. apply HasUserID_ext; [done|]. intros y _. unfold uid, info_of.
    by rewrite Hh3. }
  exists g, s3. split_and!.
  - unfold bind, ret, gets, Channel.String.
    assert (names s3 = names s) as -> by apply Hgrown.
    fold (joinexclude br v) (joininclude br v).
    do 2 f_equal. apply policy_route_eq.
  - exact Hgrown.
  - exact Hok3.
  - by rewrite Ht3, Ht2.
  - intros y Hy. apply Hm3. rewrite Hm2. by apply Hm1.
  - exact Hid3.
  - assert (heap s3 !! g = Some x) as Hx3 by (by rewrite Hh3).
    by rewrite (info_of_lookup _ _ _ Hx3).
  - intros HG. destruct (Hgroup HG) as (myself & Hmy & Hmem). exists myself. split.
    + apply (HasUserID_grown _ s1); [done| |done].
      eapply grown_trans; [exact Hg2|].
      split_and!; [done|by rewrite Hh3|by rewrite Hu3|].
      unfold registered_ok. by rewrite Hh3, Hu3.
    + apply Hm3. rewrite Hm2. exact Hmem.
Qed.

End RouterMembers.

(** *** Private lines and announced files *)

Section PrivateLines.
Context (br : bridge.Bridger.t) (v : viper.Viper).
Context (Format : Z → string → string) (wordwrap_String : string → nat → string).

Lemma MsgSpoofUser_sent u (sender : ptr) snd rcvuser msg s :
  heap s !! sender = Some snd →
  MsgSpoofUser wordwrap_String u sender rcvuser msg s
  = (Some tt,
     set_trace (trace s ++ (privmsg snd rcvuser <$> sent_lines wordwrap_String msg)) s).
Proof. intros Hsnd. unfold MsgSpoofUser. by apply MsgSpoofUser_lines. Qed.

Lemma set_trace_set_trace tr tr' s : set_trace tr (set_trace tr' s) = set_trace tr s.
Proof. reflexivity. Qed.

Lemma forM__MsgSpoofUser (u : ptr) me calls s :
  heap s !! u = Some me →
  forM_ calls (apply_spoof (λ spoofUsername msg,
                              MsgSpoofUser wordwrap_String u u spoofUsername msg)) s
  = (Some tt,
     set_trace (trace s ++ concat (direct_lines wordwrap_String me <$> calls)) s).
Proof.
  revert s. induction calls as [|c calls IH]; intros s Hme.
  - cbn. rewrite app_nil_r. by destruct s.
  - cbn [forM_ fmap list_fmap concat]. unfold apply_spoof at 1.
    rewrite (bind_Some _ _ _ _ _ (MsgSpoofUser_sent u u me c.1 c.2 s Hme)).
    rewrite IH by done. cbn. by rewrite <- app_assoc.
Qed.

Lemma forM__download (u : ptr) me ch (sender : bridge.UserInfo.t) files s :
  heap s !! u = Some me →
  forM_ files (λ fname,
    if bridge.UserInfo.Me sender then
      let* me := load u in
      Channel.SpoofMessage ch (bridge.UserInfo.Nick (User.UserInfo me))
                           ("download file -" +:+ bridge.File.Name fname)
    else
      Channel.SpoofMessage ch (bridge.UserInfo.Nick sender)
                           ("download file -" +:+ bridge.File.Name fname)) s
  = (Some tt,
     set_trace (trace s ++
       ((λ fname, SpoofMessage ch
                    (if bridge.UserInfo.Me sender
                     then bridge.UserInfo.Nick (User.UserInfo me)
                     else bridge.UserInfo.Nick sender)
                    (download_line fname)) <$> files)) s).
Proof.
  revert s. induction files as [|f files IH]; intros s Hme.
  - cbn. rewrite app_nil_r. by destruct s.
  - cbn [forM_ fmap list_fmap].
    assert ((if bridge.UserInfo.Me sender then
               let* me := load u in
               Channel.SpoofMessage ch (bridge.UserInfo.Nick (User.UserInfo me))
                                    ("download file -" +:+ bridge.File.Name f)
             else
               Channel.SpoofMessage ch (bridge.UserInfo.Nick sender)
                                    ("download file -" +:+ bridge.File.Name f)) s
            = (Some tt, set_trace (trace s ++
                 [SpoofMessage ch (if bridge.UserInfo.Me sender
                                   then bridge.UserInfo.Nick (User.UserInfo me)
                                   else bridge.UserInfo.Nick sender)
                               (download_line f)]) s)) as Hstep.
    { destruct (bridge.UserInfo.Me sender); [|reflexivity].
      by rewrite (bind_Some _ _ _ _ _ (load_Some _ _ _ Hme)). }
    run Hstep. rewrite IH by done. cbn. by rewrite <- app_assoc.
Qed.

End PrivateLines.

(** *** The trace of a replay *)

Section ReplayTrace.
Context (br : bridge.Bridger.t) (v : viper.Viper).
Context (Format : Z → string → string) (wordwrap_String : string → nat → string).

(** The trace a direct channel's replay leaves: the private lines of the
    calls, then the mark; memberships and topics are as they were. *)
Lemma worker_direct_trace u brchannel pl s me :
  strings.Contains (bridge.ChannelInfo.Name brchannel) "__" = true →
  bridge.Bridger.GetLastViewedAt br (bridge.ChannelInfo.ID brchannel) ≠ 0%Z →
  bridge.Bridger.GetPostsSince br (bridge.ChannelInfo.ID brchannel)
    (bridge.Bridger.GetLastViewedAt br (bridge.ChannelInfo.ID brchannel)) = Some pl →
  Forall (λ id, is_Some (model.PostList.Posts pl !! id)) (model.PostList.Order pl) →
  heap s !! u = Some me →
  ∃ s',
    addUserToChannelWorker_channel br v Format wordwrap_String u brchannel s = (Some tt, s')
    ∧ members s' = members s ∧ topics s' = topics s
    ∧ trace s' = trace s
        ++ concat (direct_lines wordwrap_String me
                     <$> replay_calls br Format "" (replayed_posts pl))
        ++ (if viper.GetBool v (bridge.Bridger.Protocol br +:+ ".disableautoview")
            then [] else [UpdateLastViewed (bridge.ChannelInfo.ID brchannel)]).
Proof.
  intros Hname Hsince Hposts Hall Hme.
  rewrite (worker_replay br v Format wordwrap_String _ _ _ _ Hsince Hposts Hall).
  unfold createSpoof. rewrite Hname.
  destruct (createUserFromInfo_frame u
              (bridge.Bridger.GetUser br
                 (hd "" (strings.Split (bridge.ChannelInfo.Name brchannel) "__"))) s)
    as (g & s1 & Hc & Hf & _ & Hm).
  rewrite bind_assoc. run Hc.
  rewrite (bind_Some _ _ _ _ _ (eq_refl : ret _ s1 = (Some _, s1))).
  pose proof (frame_lookup _ _ _ _ Hf Hme) as Hme1.
  rewrite (bind_Some _ _ _ _ _ (forM__MsgSpoofUser wordwrap_String u me _ s1 Hme1)).
  assert (topics s1 = topics s) as Htopics.
  { unfold createUserFromInfo, bind, gets in Hc. cbn in Hc.
    destruct (Srv.HasUserID _ s); by injection Hc as _ <-. }
  destruct Hf as (_ & Ht & _). unfold mark_viewed.
  destruct (viper.GetBool v _); cbn [negb when].
  - eexists. split; [reflexivity|]. cbn. by rewrite Ht, app_nil_r.
  - eexists. split; [reflexivity|]. cbn. by rewrite Ht, <- app_assoc.
Qed.

Lemma concat_singletons {A B} (f : A → B) (l : list A) :
  concat ((λ x, [f x]) <$> l) = f <$> l.
Proof. induction l as [|x l IH]; [done|]. cbn. by rewrite IH. Qed.

(** The trace a replay leaves, whatever the channel. *)
Lemma worker_trace u brchannel pl s me :
  bridge.Bridger.GetLastViewedAt br (bridge.ChannelInfo.ID brchannel) ≠ 0%Z →
  bridge.Bridger.GetPostsSince br (bridge.ChannelInfo.ID brchannel)
    (bridge.Bridger.GetLastViewedAt br (bridge.ChannelInfo.ID brchannel)) = Some pl →
  Forall (λ id, is_Some (model.PostList.Posts pl !! id)) (model.PostList.Order pl) →
  heap s !! u = Some me →
  ∃ s',
    addUserToChannelWorker_channel br v Format wordwrap_String u brchannel s = (Some tt, s')
    ∧ trace s' = trace s
        ++ concat (emitted wordwrap_String brchannel me
                     <$> replay_calls br Format "" (replayed_posts pl))
        ++ (if viper.GetBool v (bridge.Bridger.Protocol br +:+ ".disableautoview")
            then [] else [UpdateLastViewed (bridge.ChannelInfo.ID brchannel)]).
Proof.
  intros Hsince Hposts Hall Hme.
  destruct (strings.Contains (bridge.ChannelInfo.Name brchannel) "__") eqn:Hname.
  - destruct (worker_direct_trace u brchannel pl s me Hname Hsince Hposts Hall Hme)
      as (s' & Hrun & _ & _ & Ht).
    exists s'. split; [exact Hrun|]. rewrite Ht. unfold emitted. by rewrite Hname.
  - destruct (worker_channel_trace br v Format wordwrap_String u brchannel pl s
                Hsince Hposts Hall Hname) as (s' & Hrun & Ht).
    exists s'. split; [exact Hrun|]. rewrite Ht. unfold emitted. rewrite Hname.
    by rewrite (concat_singletons (λ c, SpoofMessage (bridge.ChannelInfo.ID brchannel) c.1 c.2)).
Qed.

(** Among the messages a replay spoofs on a channel, the markers are those
    of the day changes. *)
Lemma is_marker_entry_line id p seg :
  is_marker_entry (SpoofMessage id (line_of br Format p seg).1 (line_of br Format p seg).2)
  = false.
Proof.
  unfold is_marker_entry, line_of. cbn [fst snd].
  destruct (bool_decide _); reflexivity.
Qed.

Lemma marker_entries id prev ps :
  filter (λ e, is_marker_entry e)
         ((λ c, SpoofMessage id c.1 c.2) <$> replay_calls br Format prev ps)
  = marker_entry id <$> day_changes prev (post_date Format <$> ps).
Proof.
  revert prev. induction ps as [|p ps IH]; intros prev; [done|].
  cbn [replay_calls fmap list_fmap day_changes].
  rewrite !fmap_app, !filter_app, IH.
  assert (filter (λ e, is_marker_entry e)
                 ((λ c, SpoofMessage id c.1 c.2) <$> post_lines br Format p) = []) as ->.
  { unfold post_lines. induction (strings.Split _ _) as [|seg segs IHs]; [done|].
    cbn [fmap list_fmap]. rewrite filter_cons, decide_False; [exact IHs|].
    intros Hm. cbn beta in Hm. by rewrite is_marker_entry_line in Hm. }
  destruct (bool_decide (post_date Format p = prev)); [done|].
  cbn [fmap list_fmap app]. by rewrite filter_cons, decide_True, filter_nil.
Qed.

End ReplayTrace.

(** *** Fresh ghosts *)

Lemma CreateUsersFromInfo_fresh (u : ptr) (infos : list bridge.UserInfo.t) (s : State) :
  ∃ gs s',
    CreateUsersFromInfo u infos s = (Some gs, s')
    ∧ NoDup gs
    ∧ Forall (λ g, (length (heap s) ≤ g)%nat) gs
    ∧ (λ g, heap s' !! g) <$> gs
      = (λ i, Some (User.mk i)) <$> filter (λ i, bridge.UserInfo.Me i = false) infos
    ∧ heap s `prefix_of` heap s'
    ∧ users s' = users s ∧ members s' = members s ∧ topics s' = topics s
    ∧ trace s' = trace s.
Proof.
  eexists _, _. split; [apply CreateUsersFromInfo_spec|].
  split_and!; try done.
  - apply NoDup_seq.
  - apply Forall_forall. intros g Hg%elem_of_seq. lia.
  - cbn [heap set_heap]. unfold fresh_infos.
    generalize (filter (λ i, bridge.UserInfo.Me i = false) infos). intros l.
    rewrite length_fmap.
    apply list_eq. intros i. rewrite !list_lookup_fmap.
    destruct (l !! i) as [x|] eqn:E; cbn.
    + rewrite (lookup_seq_lt _ _ _ (lookup_lt_Some _ _ _ E)). cbn.
      rewrite lookup_app_r by lia. replace (length (heap s) + i - length (heap s))%nat with i by lia.
      by rewrite list_lookup_fmap, E.
    + by rewrite (lookup_seq_ge _ _ _ (proj1 (lookup_ge_None _ _) E)).
  - by apply prefix_app_r.
Qed.

(** *** The lines of a message *)

Lemma HasPrefix_LF c s :
  strings.HasPrefix (String c s) LF = bool_decide (c = ascii_of_nat 10).
Proof.
  cbn. rewrite andb_true_r.
  destruct (decide (c = ascii_of_nat 10)) as [->|Hne].
  - by rewrite !bool_decide_eq_true_2.
  - rewrite !bool_decide_eq_false_2; [done|done|]. by intros <-.
Qed.

Lemma Contains_LF_cons c s :
  strings.Contains (String c s) LF
  = bool_decide (c = ascii_of_nat 10) || strings.Contains s LF.
Proof. cbn [strings.Contains]. by rewrite HasPrefix_LF. Qed.

Lemma Contains_LF_app s t :
  strings.Contains (s +:+ t) LF = strings.Contains s LF || strings.Contains t LF.
Proof.
  induction s as [|c s IH]; [done|].
  change (String c s +:+ t) with (String c (s +:+ t)).
  by rewrite !Contains_LF_cons, IH, orb_assoc.
Qed.

(** No piece between line feeds holds a line feed. *)
Lemma Split_LF_free s :
  Forall (λ piece, strings.Contains piece LF = false) (strings.Split s LF).
Proof.
  unfold strings.Split. induction s as [|c s IH]; [by repeat constructor|].
  cbn [strings.split_from]. rewrite HasPrefix_LF.
  destruct (bool_decide_reflect (c = ascii_of_nat 10)) as [->|Hne].
  - constructor; [done|exact IH].
  - destruct (strings.split_from LF 0 s) as [|seg rest].
    { constructor; [|done]. rewrite Contains_LF_cons. by rewrite bool_decide_eq_false_2. }
    apply Forall_cons in IH as [Hseg Hrest]. constructor; [|done].
    rewrite Contains_LF_cons, Hseg. by rewrite bool_decide_eq_false_2.
Qed.

Lemma markEdited_snoc msgs m :
  mattermost.markEdited (msgs ++ [m]) = msgs ++ [m +:+ " (edited)"].
Proof.
  induction msgs as [|x msgs IH]; [done|].
  cbn [app mattermost.markEdited]. rewrite IH.
  by destruct msgs.
Qed.

Lemma markEdited_last msgs :
  msgs ≠ [] → ∃ front m, msgs = front ++ [m]
                         ∧ mattermost.markEdited msgs = front ++ [m +:+ " (edited)"].
Proof.
  intros Hne. destruct (exists_last (l := msgs)) as (front & m & ->).
  { intros ->. by apply Hne. }
  exists front, m. split; [done|apply markEdited_snoc].
Qed.

(** *** Actions added to the adapter's trace *)

Section Appends.
Context (P : mattermost.Action → Prop).

Lemma appends_ret {A} (x : A) : appends P (ret x).
Proof. intros tr. exists []. by rewrite app_nil_r. Qed.

Lemma appends_panic {A} : appends P (panic (A := A)).
Proof. intros tr. exists []. by rewrite app_nil_r. Qed.

Lemma appends_bind {A B} (c : M (list mattermost.Action) A)
    (k : A → M (list mattermost.Action) B) :
  appends P c → (∀ x, appends P (k x)) → appends P (bind c k).
Proof.
  intros Hc Hk tr. destruct (Hc tr) as (acts1 & Htr1 & HP1). unfold bind.
  destruct (c tr) as [[x|] tr1]; cbn in Htr1; subst tr1.
  - destruct (Hk x (tr ++ acts1)) as (acts2 & Htr2 & HP2).
    exists (acts1 ++ acts2). rewrite Htr2, app_assoc. split; [done|by apply Forall_app].
  - by exists acts1.
Qed.

Lemma appends_add (a : mattermost.Action) :
  P a → appends P (modify (λ tr, tr ++ [a])).
Proof. intros Ha tr. exists [a]. split; [done|by repeat constructor]. Qed.

Lemma appends_send (e : bridge.Event) :
  P (mattermost.Send e) → appends P (mattermost.send e).
Proof. apply appends_add. Qed.

Lemma appends_when (b : bool) (c : M (list mattermost.Action) unit) :
  (b = true → appends P c) → appends P (when b c).
Proof. destruct b; cbn [when]; [by auto|intros _; apply appends_ret]. Qed.

Lemma appends_forM_ {A} (l : list A) (f : A → M (list mattermost.Action) unit) :
  (∀ x, x ∈ l → appends P (f x)) → appends P (forM_ l f).
Proof.
  induction l as [|x l IH]; intros Hf; [apply appends_ret|].
  cbn [forM_]. apply appends_bind; [apply Hf; by left|].
  intros _. apply IH. intros y Hy. apply Hf. by right.
Qed.

Lemma appends_addFallbacks entries msg : appends P (mattermost.addFallbacks entries msg).
Proof.
  revert msg. induction entries as [|entry entries IH]; intros msg; [apply appends_ret|].
  cbn [mattermost.addFallbacks].
  destruct entry; try apply IH.
  destruct (mattermost.asString _); [apply IH|apply appends_panic].
Qed.

End Appends.

(** *** The actions of the handler of posts *)

Lemma asString_Some (x : option model.JSON) s :
  mattermost.asString x = Some s → x = Some (model.JString s).
Proof. destruct x as [[]|]; cbn; congruence. Qed.

Lemma files_copied (links : list string) :
  (λ fname, bridge.File.mk (bridge.File.Name fname)) <$> (bridge.File.mk <$> links)
  = bridge.File.mk <$> links.
Proof. induction links as [|l links IH]; [done|]. cbn. by rewrite IH. Qed.

Section RelayedProofs.
Context (mc : mattermost.MMClient.t) (v : viper.Viper).

Lemma join_leave_type_test (t : string) :
  bool_decide (t = model.POST_JOIN_LEAVE) || bool_decide (t = "system_leave_channel")
  || bool_decide (t = "system_join_channel") || bool_decide (t = "system_add_to_channel")
  || bool_decide (t = "system_remove_from_channel") = true
  ↔ join_leave_type t.
Proof.
  unfold join_leave_type. rewrite !orb_true_iff, !bool_decide_eq_true. tauto.
Qed.

Lemma handleWsActionPost_relayed rmsg :
  appends (relayed mc v rmsg) (mattermost.handleWsActionPost mc v rmsg).
Proof.
  unfold mattermost.handleWsActionPost. cbn zeta.
  destruct (mattermost.wsActionPostSkip mc v rmsg) eqn:Hskip; [apply appends_ret|].
  set (data := mattermost.WebSocketEvent.Post rmsg).
  set (data1 := if negb (bool_decide (model.Post.ParentId data = "")) then _ else data).
  assert (model.Post.Type_ data1 = model.Post.Type_ data
          ∧ model.Post.ChannelId data1 = model.Post.ChannelId data
          ∧ model.Post.FileIds data1 = model.Post.FileIds data
          ∧ model.Post.UserId data1 = model.Post.UserId data) as (HT & HC & HF & HU).
  { unfold data1. repeat case_match; done. }
  apply appends_bind.
  { destruct (model.Post.Props data !! "attachments") as [[]|];
      apply appends_ret || apply appends_addFallbacks. }
  intros message. cbn [model.Post.Type_ model.Post.ChannelId mattermost.with_Message
                       model.Post.FileIds model.Post.UserId model.Post.Message].
  rewrite HT, HC, HU.
  match goal with
  | |- appends _ (if ?b then _ else _) => destruct b eqn:Hjl
  end.
  { apply join_leave_type_test in Hjl.
    apply appends_bind; [by apply appends_add|]. intros _.
    unfold mattermost.wsActionPostJoinLeave.
    cbn [model.Post.Type_ model.Post.ChannelId mattermost.with_Message]. rewrite HT, HC.
    destruct (bool_decide_reflect (model.Post.Type_ data = "system_add_to_channel")) as [Ha|_].
    { destruct (mattermost.asString (model.Post.Props data !! "addedUsername"))
        as [added|] eqn:E1; [|apply appends_ret].
      destruct (mattermost.asString (model.Post.Props data !! "username"))
        as [adder|] eqn:E2; [|apply appends_ret].
      apply asString_Some in E1, E2.
      apply appends_send. split; [done|]. split_and!; [done|done|]. by exists added, adder. }
    destruct (bool_decide_reflect (model.Post.Type_ data = "system_remove_from_channel"))
      as [Hr|_]; [|apply appends_ret].
    destruct (mattermost.asString (model.Post.Props data !! "removedUsername"))
      as [removed|] eqn:E1; [|apply appends_ret].
    apply asString_Some in E1.
    apply appends_send. split; [done|]. split_and!; [done|done|done|]. by exists removed. }
  assert (¬ join_leave_type (model.Post.Type_ data)) as Hnjl.
  { intros H%join_leave_type_test. congruence. }
  apply appends_bind.
  { apply appends_when. intros Hh%bool_decide_eq_true.
    destruct (mattermost.asString (model.Post.Props data !! "new_header"))
      as [topic|] eqn:E1; [|apply appends_ret].
    destruct (mattermost.asString (model.Post.Props data !! "username"))
      as [topicuser|] eqn:E2; [|apply appends_ret].
    apply asString_Some in E1, E2. apply appends_send. by split. }
  intros _. apply appends_bind.
  { apply appends_forM_. intros msg Hmsg.
    assert (strings.Contains msg LF = false) as Hfree.
    { pose proof (Split_LF_free message) as Hsplit.
      destruct (_ && bool_decide _) eqn:Hedited.
      - destruct (markEdited_last (strings.Split message LF)) as (front & m & Hl & Hm).
        { destruct (Split_cons message LF) as (l & rest & ->). done. }
        rewrite Hm in Hmsg. rewrite Hl in Hsplit.
        apply Forall_app in Hsplit as [Hfront Hlast].
        apply elem_of_app in Hmsg as [Hin | ->%list_elem_of_singleton].
        + by apply (proj1 (Forall_forall _ _) Hfront).
        + apply Forall_inv in Hlast. cbn beta in Hlast.
          by rewrite Contains_LF_app, Hlast.
      - by apply (proj1 (Forall_forall _ _) Hsplit). }
    destruct (bool_decide_reflect (msg = "")) as [_|Hne]; [apply appends_ret|].
    match goal with
    | |- appends _ (if bool_decide (?ct = "D") then _ else _) =>
        destruct (bool_decide_reflect (ct = "D")) as [HD|HD]
    end.
    { apply appends_send. by split. }
    destruct (strings.Contains message "@channel" || _ || _);
      apply appends_send; (split; [done|]); cbn; split_and!; auto. }
  intros _. apply appends_bind.
  { unfold mattermost.handleFileEvent.
    cbn [model.Post.ChannelId mattermost.with_Message]. rewrite HC.
    unfold mattermost.getFilesFromData. cbn [model.Post.FileIds mattermost.with_Message].
    rewrite HF, files_copied.
    destruct (0 <? length _)%nat eqn:Hlen; [|apply appends_ret].
    assert (bridge.File.mk <$> mattermost.MMClient.GetFileLinks mc (model.Post.FileIds data)
            ≠ []) as Hfiles.
    { intros Hnil. rewrite Hnil in Hlen. done. }
    match goal with
    | |- appends _ (if bool_decide (?ct = "D") then _ else _) =>
        destruct (bool_decide_reflect (ct = "D")) as [HD|HD]
    end.
    - apply appends_send. split; [done|]. cbn. rewrite (bool_decide_eq_true_2 _ HD). done.
    - apply appends_send. split; [done|]. cbn. rewrite (bool_decide_eq_false_2 _ HD). done. }
  intros _. apply appends_bind.
  { destruct (mattermost.MMClient.GetUser mc _); [apply appends_ret|apply appends_panic]. }
  intros _. apply appends_when. intros Hview%negb_true_iff.
  apply appends_add. by split.
Qed.
End RelayedProofs.

(** *** A post relayed as it is *)

Lemma texts_app acts1 acts2 : texts (acts1 ++ acts2) = texts acts1 ++ texts acts2.
Proof. unfold texts, sent. by rewrite !omap_app. Qed.

Lemma with_Message_same p : mattermost.with_Message (model.Post.Message p) p = p.
Proof. by destruct p. Qed.

Section PlainProofs.
Context (mc : mattermost.MMClient.t) (v : viper.Viper).

Lemma forM__messages (body : string → M (list mattermost.Action) unit)
    (ev : string → bridge.Event) (lines : list string) tr :
  (∀ msg tr, body msg tr
             = if bool_decide (msg = "") then (Some tt, tr)
               else (Some tt, tr ++ [mattermost.Send (ev msg)])) →
  (∀ msg, message_text (ev msg) = Some msg) →
  ∃ acts, forM_ lines body tr = (Some tt, tr ++ acts)
          ∧ texts acts = filter (λ l, l ≠ "") lines
          ∧ Forall (λ a, ∃ e, a = mattermost.Send e) acts.
Proof.
  intros Hbody Hev. revert tr. induction lines as [|l lines IH]; intros tr.
  - exists []. by rewrite app_nil_r.
  - cbn [forM_]. unfold bind at 1. rewrite Hbody, filter_cons.
    destruct (bool_decide_reflect (l = "")) as [Hl|Hl].
    + destruct (IH tr) as (acts & Hrun & Ht & Hs). exists acts.
      rewrite decide_False by (by intros ?). done.
    + destruct (IH (tr ++ [mattermost.Send (ev l)])) as (acts & Hrun & Ht & Hs).
      exists (mattermost.Send (ev l) :: acts). rewrite Hrun, <- app_assoc.
      split; [done|]. rewrite decide_True by done. split.
      * change (mattermost.Send (ev l) :: acts) with ([mattermost.Send (ev l)] ++ acts).
        rewrite texts_app, Ht. unfold texts. cbn. by rewrite Hev.
      * constructor; [by eexists|done].
Qed.

Lemma handleWsActionPost_plain rmsg tr :
  mattermost.wsActionPostSkip mc v rmsg = false →
  plain (mattermost.WebSocketEvent.Post rmsg) →
  ¬ join_leave_type (model.Post.Type_ (mattermost.WebSocketEvent.Post rmsg)) →
  ∃ acts,
    texts acts = filter (λ l, l ≠ "") (relayed_lines rmsg)
    ∧ Forall (λ a, ∃ e, a = mattermost.Send e) acts
    ∧ mattermost.handleWsActionPost mc v rmsg tr
      = match mattermost.MMClient.GetUser mc
                (model.Post.UserId (mattermost.WebSocketEvent.Post rmsg)) with
        | None => (None, tr ++ acts)
        | Some _ =>
            (Some tt,
             tr ++ acts
             ++ (if viper.GetBool v "mattermost.DisableAutoView" then []
                 else [mattermost.UpdateLastViewed
                         (model.Post.ChannelId (mattermost.WebSocketEvent.Post rmsg))]))
        end.
Proof.
  intros Hskip [Hparent Hatt] Hnjl.
  unfold mattermost.handleWsActionPost. cbn zeta. rewrite Hskip, Hparent, Hatt.
  rewrite bool_decide_eq_true_2 by done. cbn [negb].
  rewrite (bind_Some _ _ _ _ _ (eq_refl : ret _ tr = (Some _, tr))).
  rewrite with_Message_same.
  set (data := mattermost.WebSocketEvent.Post rmsg) in *.
  match goal with
  | |- context [if ?b then (modify _ ;; _) else _] =>
      assert (b = false) as ->
  end.
  { apply not_true_iff_false. intros H%join_leave_type_test. by apply Hnjl. }
  (* the topic *)
  match goal with
  | |- context [bind (when ?b ?c) _] =>
      assert (∃ pre, (∀ tr, when b c tr = (Some tt, tr ++ pre)) ∧ texts pre = []
                     ∧ Forall (λ a, ∃ e, a = mattermost.Send e) pre)
        as (pre & Hpre & Htpre & Hspre)
  end.
  { destruct (bool_decide _); cbn [when].
    2:{ exists []. split; [|done]. intros tr0. by rewrite app_nil_r. }
    destruct (mattermost.asString (model.Post.Props data !! "new_header")).
    2:{ exists []. split; [|done]. intros tr0. by rewrite app_nil_r. }
    destruct (mattermost.asString (model.Post.Props data !! "username")).
    2:{ exists []. split; [|done]. intros tr0. by rewrite app_nil_r. }
    eexists [_]. split; [done|]. split; [done|]. constructor; [by eexists|done]. }
  rewrite (bind_Some _ _ _ _ _ (Hpre tr)).
  (* the lines *)
  destruct (Split_cons (model.Post.Message data) LF) as (l0 & rest0 & Hsplit).
  assert ((0 <? length (strings.Split (model.Post.Message data) LF))%nat = true) as Hlen
    by (by rewrite Hsplit).
  rewrite Hlen. cbn [andb].
  change (if bool_decide (mattermost.WebSocketEvent.Event rmsg
                          = model.WEBSOCKET_EVENT_POST_EDITED)
          then mattermost.markEdited (strings.Split (model.Post.Message data) LF)
          else strings.Split (model.Post.Message data) LF)
    with (relayed_lines rmsg).
  match goal with
  | |- context [forM_ (relayed_lines rmsg) ?body] =>
      assert (∃ ev, (∀ msg tr, body msg tr
                               = if bool_decide (msg = "") then (Some tt, tr)
                                 else (Some tt, tr ++ [mattermost.Send (ev msg)]))
                    ∧ ∀ msg, message_text (ev msg) = Some msg) as (ev & Hbody & Hev)
  end.
  { destruct (bool_decide (_ = "D")).
    - eexists (λ msg, bridge.direct_message (bridge.DirectMessageEvent.mk msg _ _ _)).
      split; [|done].
      intros msg tr0. by destruct (bool_decide (msg = "")).
    - destruct (_ || _ || _).
      + eexists (λ msg, bridge.channel_message
                            (bridge.ChannelMessageEvent.mk msg _ _ _ _ _)).
        split; [|done]. intros msg tr0. by destruct (bool_decide (msg = "")).
      + eexists (λ msg, bridge.channel_message
                            (bridge.ChannelMessageEvent.mk msg _ _ _ _ _)).
        split; [|done]. intros msg tr0. by destruct (bool_decide (msg = "")). }
  match goal with
  | |- context [forM_ (relayed_lines rmsg) ?body] =>
      destruct (forM__messages body ev (relayed_lines rmsg) (tr ++ pre) Hbody Hev)
        as (evs & Hrun & Htexts & Hsevs)
  end.
  run Hrun.
  (* the files *)
  match goal with
  | |- context [bind (mattermost.handleFileEvent mc v ?ct ?g ?d) _] =>
      assert (∃ post, (∀ tr, mattermost.handleFileEvent mc v ct g d tr
                             = (Some tt, tr ++ post))
                      ∧ texts post = []
                      ∧ Forall (λ a, ∃ e, a = mattermost.Send e) post)
        as (post & Hpost & Htpost & Hspost)
  end.
  { unfold mattermost.handleFileEvent.
    destruct (0 <? length (_ <$> mattermost.getFilesFromData mc data))%nat.
    2:{ exists []. split; [|done]. intros tr0. by rewrite app_nil_r. }
    match goal with
    | |- context [if bool_decide (?ct = "D") then mattermost.send _ else mattermost.send _] =>
        destruct (bool_decide (ct = "D"))
    end; (eexists [_]; split; [done|]; split; [done|]);
      (constructor; [by eexists|by constructor]). }
  rewrite (bind_Some _ _ _ _ _ (Hpost _)).
  exists (pre ++ evs ++ post). split_and!.
  - by rewrite !texts_app, Htpre, Htpost, Htexts, app_nil_r.
  - by rewrite !Forall_app.
  - destruct (mattermost.MMClient.GetUser mc (model.Post.UserId data)).
    + rewrite (bind_Some _ _ _ _ _ (eq_refl : ret _ _ = (Some _, _))).
      destruct (viper.GetBool v "mattermost.DisableAutoView"); cbn [negb when].
      * unfold ret. by rewrite app_nil_r, <- !app_assoc.
      * unfold modify. by rewrite <- !app_assoc.
    + unfold bind, panic. by rewrite <- !app_assoc.
Qed.

End PlainProofs.

(** *** Events among the actions *)

Lemma texts_Forall (P : mattermost.Action → Prop) (Q : string → Prop) acts :
  (∀ e t, P (mattermost.Send e) → message_text e = Some t → Q t) →
  Forall P acts → Forall Q (texts acts).
Proof.
  intros HPQ Hacts. induction Hacts as [|a acts Ha _ IH]; [constructor|].
  unfold texts, sent in *. cbn [omap list_omap].
  destruct a as [e| | | |]; cbn; try exact IH.
  destruct (message_text e) as [t|] eqn:E; cbn; [|exact IH].
  constructor; [by eapply HPQ|exact IH].
Qed.

Lemma sent_Forall (P : mattermost.Action → Prop) (Q : bridge.Event → Prop) acts :
  (∀ e, P (mattermost.Send e) → Q e) → Forall P acts → Forall Q (sent acts).
Proof.
  intros HPQ Hacts. induction Hacts as [|a acts Ha _ IH]; [constructor|].
  unfold sent in *. cbn [omap list_omap].
  destruct a as [e| | | |]; cbn; try exact IH.
  constructor; [by apply HPQ|exact IH].
Qed.

Section AdapterTheorems.
Context (mc : mattermost.MMClient.t) (v : viper.Viper).

Lemma addFallbacks_panics entries msg tr f :
  model.JObject f ∈ entries →
  mattermost.asString (mattermost.jfield "fallback" f) = None →
  mattermost.addFallbacks entries msg tr = (None, tr).
Proof.
  intros Hin Hf. revert msg. induction entries as [|entry entries IH]; intros msg.
  { by apply elem_of_nil in Hin. }
  apply elem_of_cons in Hin as [<-|Hin].
  - cbn [mattermost.addFallbacks]. by rewrite Hf.
  - cbn [mattermost.addFallbacks].
    destruct entry as [| | | | |fields]; try by apply IH.
    destruct (mattermost.asString (mattermost.jfield "fallback" fields)); [by apply IH|done].
Qed.

Lemma handleWsActionPost_join_leave rmsg tr :
  mattermost.wsActionPostSkip mc v rmsg = false →
  model.Post.Props (mattermost.WebSocketEvent.Post rmsg) !! "attachments" = None →
  join_leave_type (model.Post.Type_ (mattermost.WebSocketEvent.Post rmsg)) →
  ∃ rest, mattermost.handleWsActionPost mc v rmsg tr
          = (Some tt, tr ++ mattermost.UpdateChannels :: rest)
          ∧ (length rest ≤ 1)%nat.
Proof.
  intros Hskip Hatt Hjl.
  unfold mattermost.handleWsActionPost. cbn zeta. rewrite Hskip, Hatt.
  rewrite (bind_Some _ _ _ _ _ (eq_refl : ret _ tr = (Some _, tr))).
  set (data := mattermost.WebSocketEvent.Post rmsg) in *.
  set (data1 := if negb (bool_decide (model.Post.ParentId data = "")) then _ else data).
  assert (model.Post.Type_ data1 = model.Post.Type_ data) as HT.
  { unfold data1. repeat case_match; done. }
  cbn [model.Post.Type_ mattermost.with_Message]. rewrite HT.
  rewrite (proj2 (join_leave_type_test _) Hjl).
  unfold modify at 1. unfold bind at 1.
  unfold mattermost.wsActionPostJoinLeave. cbn [model.Post.Type_ mattermost.with_Message].
  repeat case_match;
    first [ by (exists []; split; [|cbn; lia])
          | by (eexists [_]; unfold mattermost.send, modify; rewrite <- app_assoc;
                split; [|cbn; lia]) ].
Qed.

End AdapterTheorems.

(** *** Nicks *)

Lemma isValidNick_rest (l : list ascii) :
  forallb (λ c, let b := nat_of_ascii c in
                negb (negb (b =? 45)%nat && negb (b =? 59)%nat
                      && ((b <? 65)%nat || (125 <? b)%nat)
                      && ((b <? 48)%nat || (57 <? b)%nat))) l = true
  ↔ Forall (λ c, rfc_letter (nat_of_ascii c) ∨ rfc_digit (nat_of_ascii c)
                 ∨ rfc_special (nat_of_ascii c)) l.
Proof.
  induction l as [|c l IH]; [by split; [constructor|]|].
  cbn [forallb]. rewrite andb_true_iff, IH, Forall_cons. cbn zeta.
  unfold rfc_letter, rfc_digit, rfc_special.
  assert (∀ P Q R : Prop, (P ↔ Q) → (P ∧ R ↔ Q ∧ R)) as Hand by tauto.
  apply Hand.
  destruct (Nat.eqb_spec (nat_of_ascii c) 45), (Nat.eqb_spec (nat_of_ascii c) 59),
    (Nat.ltb_spec (nat_of_ascii c) 65), (Nat.ltb_spec 125 (nat_of_ascii c)),
    (Nat.ltb_spec (nat_of_ascii c) 48), (Nat.ltb_spec 57 (nat_of_ascii c));
    cbn; split; (done || lia).
Qed.

(** *** The channel list *)

Lemma ReplaceAll_LF_free s new :
  strings.Contains new LF = false →
  strings.Contains (strings.ReplaceAll s LF new) LF = false.
Proof.
  intros Hnew. unfold strings.ReplaceAll. induction s as [|c s IH]; [done|].
  cbn [strings.replace_from]. rewrite HasPrefix_LF.
  destruct (bool_decide_reflect (c = ascii_of_nat 10)) as [->|Hne].
  - change (String.length LF - 1)%nat with 0%nat. by rewrite Contains_LF_app, Hnew, IH.
  - rewrite Contains_LF_cons, IH. by rewrite bool_decide_eq_false_2.
Qed.

Section ListProofs.
Context (mc : mattermost.MMClient.t).

#[local] Abbreviation list_step := (list_step mc).

Lemma List_foldl chans more :
  mattermost.List mc chans more = foldl list_step ∅ (chans ++ more).
Proof.
  unfold mattermost.List. generalize (∅ : gmap string string).
  induction (chans ++ more) as [|c l IH]; intros m; [done|].
  cbn [foldl]. rewrite <- IH. f_equal. unfold list_step, listed_name.
  destruct (strings.Contains _ _); [done|].
  by destruct (bool_decide (model.Channel.TeamId c = mattermost.MMClient.Team_Id mc)).
Qed.

Lemma foldl_list_step_lookup l m name header :
  foldl list_step m l !! name = Some header →
  m !! name = Some header
  ∨ ∃ channel, channel ∈ l
      ∧ strings.Contains (model.Channel.Name channel) "__" = false
      ∧ name = listed_name mc channel
      ∧ header = strings.ReplaceAll (model.Channel.Header channel) LF " | ".
Proof.
  revert m. induction l as [|c l IH]; intros m; [by left|].
  cbn [foldl]. intros [Hm|(channel & Hin & Hrest)]%IH.
  - unfold list_step in Hm. destruct (strings.Contains _ _) eqn:E; [by left|].
    destruct (decide (name = listed_name mc c)) as [->|Hne].
    + rewrite lookup_insert_eq in Hm. injection Hm as <-.
      right. exists c. split; [by left|done].
    + rewrite lookup_insert_ne in Hm by done. by left.
  - right. exists channel. split; [by right|done].
Qed.

Lemma foldl_list_step_keeps l m name :
  is_Some (m !! name) → is_Some (foldl list_step m l !! name).
Proof.
  revert m. induction l as [|c l IH]; intros m Hm; [done|].
  cbn [foldl]. apply IH. unfold list_step. destruct (strings.Contains _ _); [done|].
  destruct (decide (name = listed_name mc c)) as [->|Hne].
  - rewrite lookup_insert_eq. by eexists.
  - by rewrite lookup_insert_ne.
Qed.

Lemma foldl_list_step_listed l m channel :
  channel ∈ l → strings.Contains (model.Channel.Name channel) "__" = false →
  is_Some (foldl list_step m l !! listed_name mc channel).
Proof.
  revert m. induction l as [|c l IH]; intros m Hin Hname.
  { by apply elem_of_nil in Hin. }
  apply elem_of_cons in Hin as [<-|Hin]; [|by apply IH].
  cbn [foldl]. apply foldl_list_step_keeps. unfold list_step. rewrite Hname.
  rewrite lookup_insert_eq. by eexists.
Qed.

End ListProofs.

(** *** Names with a team *)

Lemma HasPrefix_slash c s :
  strings.HasPrefix (String c s) "/" = bool_decide (c = "/"%char).
Proof.
  cbn. rewrite andb_true_r.
  destruct (decide (c = "/"%char)) as [->|Hne].
  - by rewrite !bool_decide_eq_true_2.
  - rewrite !bool_decide_eq_false_2; [done|done|]. by intros <-.
Qed.

Lemma Contains_slash_cons c s :
  strings.Contains (String c s) "/" = bool_decide (c = "/"%char) || strings.Contains s "/".
Proof. cbn [strings.Contains]. by rewrite HasPrefix_slash. Qed.

(** A name without a slash is one piece. *)
Lemma Split_no_slash s : strings.Contains s "/" = false → strings.Split s "/" = [s].
Proof.
  unfold strings.Split. induction s as [|c s IH]; [done|].
  rewrite Contains_slash_cons. intros [Hc Hs]%orb_false_iff.
  cbn [strings.split_from]. rewrite HasPrefix_slash, Hc. by rewrite IH.
Qed.

(** The first piece of a name is what stands before its first slash. *)
Lemma Split_slash_app a b :
  strings.Contains a "/" = false →
  strings.Split (a +:+ "/" +:+ b) "/" = a :: strings.Split b "/".
Proof.
  unfold strings.Split. induction a as [|c a IH].
  - intros _. change ("" +:+ "/" +:+ b) with (String "/"%char b).
    cbn [strings.split_from]. by rewrite HasPrefix_slash, bool_decide_eq_true_2.
  - rewrite Contains_slash_cons. intros [Hc Ha]%orb_false_iff.
    change (String c a +:+ "/" +:+ b) with (String c (a +:+ "/" +:+ b)).
    cbn [strings.split_from]. rewrite HasPrefix_slash, Hc. by rewrite IH.
Qed.

(** *** Pages of users *)

Section PagingProofs.
Context (mc : mattermost.MMClient.t) (v : viper.Viper).
Context (Client_GetUsersInChannel : string → nat → option (list model.User.t)).

#[local] Abbreviation pages := (mattermost.GetChannelUsers_pages Client_GetUsersInChannel).

Lemma GetChannelUsers_pages_spec channelID (ps : list (list model.User.t)) last :
  Forall (λ p, p ≠ []) ps →
  ∀ idx paged acc fuel,
    (∀ i p, ps !! i = Some p → Client_GetUsersInChannel channelID (idx + i) = Some p) →
    Client_GetUsersInChannel channelID (idx + length ps) = last →
    (last = None ∨ last = Some []) →
    paged ≠ [] → (length ps < fuel)%nat →
    pages fuel channelID idx paged acc
    = Some (match last with None => None | Some _ => Some (acc ++ concat ps) end).
Proof.
  intros Hps. induction Hps as [|p ps Hp _ IH]; intros idx paged acc fuel Hfetch Hlast Hend Hpaged Hfuel.
  - destruct paged as [|x paged]; [done|]. destruct fuel as [|fuel]; [cbn in Hfuel; lia|].
    cbn [mattermost.GetChannelUsers_pages]. cbn [length] in Hlast.
    rewrite Nat.add_0_r in Hlast. rewrite Hlast.
    destruct Hend as [->| ->]; [done|]. destruct fuel; cbn; by rewrite !app_nil_r.
  - destruct paged as [|x paged]; [done|]. destruct fuel as [|fuel]; [cbn in Hfuel; lia|].
    cbn [mattermost.GetChannelUsers_pages].
    pose proof (Hfetch 0%nat p eq_refl) as H0. rewrite Nat.add_0_r in H0. rewrite H0.
    rewrite (IH (idx + 1)%nat p (acc ++ p) fuel).
    + destruct last; [|done]. cbn [concat]. by rewrite app_assoc.
    + intros i q Hq. specialize (Hfetch (S i) q Hq).
      by replace (idx + 1 + i)%nat with (idx + S i)%nat by lia.
    + rewrite <- Hlast. f_equal. cbn [length]. lia.
    + exact Hend.
    + exact Hp.
    + cbn [length] in Hfuel. lia.
Qed.

Lemma GetChannelUsers_pages_endless channelID :
  (∀ i, ∃ p, Client_GetUsersInChannel channelID i = Some p ∧ p ≠ []) →
  ∀ fuel idx paged acc, paged ≠ [] → pages fuel channelID idx paged acc = None.
Proof.
  intros Hall. induction fuel as [|fuel IH]; intros idx paged acc Hpaged.
  - by destruct paged.
  - destruct paged as [|x paged]; [done|]. cbn [mattermost.GetChannelUsers_pages].
    destruct (Hall idx) as (p & -> & Hp). by apply IH.
Qed.

End PagingProofs.

(* ===================================================================== *)
(** ** The properties of the specification                                *)
(* ===================================================================== *)

(** *** The identity registry *)

(** C1. [resolve] ([createUserFromInfo]) returns the ghost already
    registered for the profile's backend identifier when there is one, and
    otherwise registers exactly one new ghost, a fresh object carrying the
    profile, and returns it. From a well-formed registry, any sequence of
    [resolve] and [refresh] calls returns and keeps, for every identifier,
    the bound of at most one registered ghost; and once [resolve] has
    answered for an identifier, every later [resolve] with that identifier,
    after any such calls, answers with the same ghost and changes nothing. *)
Theorem resolve_one_ghost_per_identifier
    (Prefix : User.t → irc.Prefix.t) (u : ptr) (s : State) :
  registered_ok s →
  (∀ info g, Srv.HasUserID (bridge.UserInfo.User info) s = Some g →
             createUserFromInfo u info s = (Some g, s))
  ∧ (∀ info, Srv.HasUserID (bridge.UserInfo.User info) s = None →
       ∃ s', createUserFromInfo u info s = (Some (length (heap s)), s')
             ∧ heap s' = heap s ++ [User.mk info]
             ∧ users s' = users s ++ [length (heap s)]
             ∧ (length (heap s) ∉ users s)
             ∧ ghosts_for (bridge.UserInfo.User info) s' = [length (heap s)])
  ∧ (∀ cs id, (length (ghosts_for id s) ≤ 1)%nat →
       ∃ s', calls Prefix u cs s = (Some tt, s')
             ∧ (length (ghosts_for id s') ≤ 1)%nat)
  ∧ (∀ info, ∃ g s1, createUserFromInfo u info s = (Some g, s1)
       ∧ ∀ cs, ∃ s2, calls Prefix u cs s1 = (Some tt, s2)
           ∧ ∀ info', bridge.UserInfo.User info' = bridge.UserInfo.User info →
                      createUserFromInfo u info' s2 = (Some g, s2)).
Proof.
  intros Hok. split_and!.
  - intros info g. apply createUserFromInfo_found.
  - intros info Hnone. exists (registered info s).
    rewrite (createUserFromInfo_new _ _ _ Hnone). split_and!; try done.
    + intros Hin. apply (registered_ok_elem _ _ Hok) in Hin. lia.
    + rewrite ghosts_for_registered, (HasUserID_None _ _ Hnone) by done.
      by rewrite decide_True.
  - intros cs id Hle.
    destruct (calls_spec Prefix u cs s Hok) as (s' & Hc & _ & Hinv & _).
    exists s'. auto.
  - intros info.
    destruct (call_spec Prefix u (resolve info) s Hok) as (g & s1 & Hc & Hok1 & _ & _).
    exists g, s1. split; [exact Hc|]. intros cs.
    destruct (calls_spec Prefix u cs s1 Hok1) as (s2 & Hcs & _ & _ & Hstable).
    exists s2. split; [exact Hcs|]. intros info' Hid.
    apply createUserFromInfo_found. rewrite Hid. apply Hstable.
    cbn [call] in Hc.
    destruct (Srv.HasUserID (bridge.UserInfo.User info) s) as [g0|] eqn:E.
    + rewrite (createUserFromInfo_found _ _ _ _ E) in Hc. injection Hc as <- <-. done.
    + rewrite (createUserFromInfo_new _ _ _ E) in Hc. injection Hc as <- <-.
      rewrite HasUserID_eq. cbn [users registered set_users].
      erewrite (proj2 (list_find_Some _ _ (length (users s)) (length (heap s)))); [done|].
      split_and!.
      * by rewrite list_lookup_middle.
      * apply uid_registered_new.
      * intros j y Hj Hlt. rewrite lookup_app_l in Hj by done.
        rewrite uid_registered_old; [|done|by eapply list_elem_of_lookup_2].
        apply HasUserID_None in E. intros Hy.
        assert (y ∈ ghosts_for (bridge.UserInfo.User info) s) as Hin.
        { apply list_elem_of_filter. split; [done|by eapply list_elem_of_lookup_2]. }
        rewrite E in Hin. by apply not_elem_of_nil in Hin.
Qed.

Lemma resolve_one_ghost_per_identifier_witness :
  registered_ok Scenario.fresh_session
  ∧ ∃ g s1,
      createUserFromInfo 0 Scenario.alice Scenario.fresh_session = (Some g, s1)
      ∧ createUserFromInfo 0 Scenario.alicia s1 = (Some g, s1).
Proof.
  assert (registered_ok Scenario.fresh_session) as Hok by (vm_compute; repeat constructor).
  split; [exact Hok|].
  destruct (resolve_one_ghost_per_identifier Scenario.user_prefix 0
              Scenario.fresh_session Hok) as (_ & _ & _ & Hsame).
  destruct (Hsame Scenario.alice) as (g & s1 & Hfirst & Hlater).
  exists g, s1. split; [exact Hfirst|].
  destruct (Hlater []) as (s2 & Hcalls & Hagain).
  injection Hcalls as <-. apply Hagain. reflexivity.
Defined.

(** C8. [refresh] ([updateUserFromInfo]) for a profile whose backend
    identifier already has a ghost returns that ghost and leaves it carrying
    the new profile, nick included; when the ghost's stored nick differs
    from the profile's, exactly one NICK line, with the old prefix and the
    new nick, is sent before the profile is replaced, and when the nicks are
    equal nothing is sent and the profile is replaced all the same. *)
Theorem refresh_nick_change
    (Prefix : User.t → irc.Prefix.t) (u : ptr) (info : bridge.UserInfo.t)
    (s : State) (g : ptr) :
  registered_ok s →
  Srv.HasUserID (bridge.UserInfo.User info) s = Some g →
  ∃ x s',
    heap s !! g = Some x
    ∧ updateUserFromInfo Prefix u info s = (Some g, s')
    ∧ heap s' !! g = Some (User.mk info)
    ∧ bridge.UserInfo.Nick (info_of s' g) = bridge.UserInfo.Nick info
    ∧ users s' = users s
    ∧ (bridge.UserInfo.Nick (User.UserInfo x) ≠ bridge.UserInfo.Nick info →
       trace s' = trace s ++ [nickChange Prefix x info])
    ∧ (bridge.UserInfo.Nick (User.UserInfo x) = bridge.UserInfo.Nick info →
       trace s' = trace s).
Proof.
  intros Hok Hfound. destruct (HasUserID_Some _ _ _ Hfound) as [Hin _].
  pose proof (registered_ok_elem _ _ Hok Hin) as Hlt.
  destruct (lookup_lt_is_Some_2 _ _ Hlt) as [x Hx].
  exists x, (refreshed Prefix g x info s).
  assert (heap (refreshed Prefix g x info s) !! g = Some (User.mk info)) as Hnew.
  { rewrite heap_refreshed. by apply list_lookup_insert_eq. }
  split_and!.
  - exact Hx.
  - by apply updateUserFromInfo_found.
  - exact Hnew.
  - by rewrite (info_of_lookup _ _ _ Hnew).
  - apply users_refreshed.
  - intros Hne. unfold refreshed. by rewrite decide_False.
  - intros Heq. unfold refreshed. by rewrite decide_True.
Qed.

Lemma refresh_nick_change_witness :
  registered_ok Scenario.session_with_alice
  ∧ Srv.HasUserID "alice-id" Scenario.session_with_alice = Some 1%nat
  ∧ ∃ s', updateUserFromInfo Scenario.user_prefix 0 Scenario.alicia
            Scenario.session_with_alice = (Some 1%nat, s')
          ∧ trace s' = [nickChange Scenario.user_prefix (User.mk Scenario.alice)
                                   Scenario.alicia].
Proof.
  assert (registered_ok Scenario.session_with_alice) as Hok
    by (vm_compute; repeat constructor).
  assert (Srv.HasUserID "alice-id" Scenario.session_with_alice = Some 1%nat) as Hfound
    by reflexivity.
  split_and!; [exact Hok|exact Hfound|].
  destruct (refresh_nick_change Scenario.user_prefix 0 Scenario.alicia
              Scenario.session_with_alice 1 Hok Hfound)
    as (x & s' & Hx & Hrun & _ & _ & _ & Hsent & _).
  exists s'. split; [exact Hrun|].
  injection Hx as <-. apply Hsent. discriminate.
Defined.

(** *** The channel router *)

(** C3. A channel message is delivered on the channel the router
    [getMessageChannel] answers with, and there only: the handler returns
    and the trace grows by exactly one entry, the message (a notice for a
    notice) spoofed on that channel. The channel is the one the policy of
    the spec names. With a non-empty inclusion list a channel whose display
    name is absent from it goes to the overflow channel; with an empty
    inclusion list a channel is redirected exactly when it is excluded; and
    exclusion is looked at first, so an excluded channel goes to the
    overflow channel whatever the inclusion list holds. *)
Theorem inclusion_after_exclusion
    (br : bridge.Bridger.t) (v : viper.Viper) (u : ptr)
    (event : bridge.ChannelMessageEvent.t) (s : State) :
  registered_ok s → (u < length (heap s))%nat →
  let channelID := bridge.ChannelMessageEvent.ChannelID event in
  let direct := bool_decide (bridge.ChannelMessageEvent.ChannelType event = "D") in
  ∃ ch s1 s',
    getMessageChannel br v u channelID (bridge.ChannelMessageEvent.ChannelType event)
      (bridge.ChannelMessageEvent.Sender event) s = (Some ch, s1)
    ∧ handleChannelMessageEvent br v u event s = (Some tt, s')
    ∧ trace s' = trace s ++
        [delivered event ch
           (if negb direct && bool_decide (ch = "&messages")
            then shown_nick u event s +:+ "/" +:+ names s channelID
            else shown_nick u event s)]
    ∧ ch = route_by_policy (joinexclude br v) (joininclude br v) (names s) channelID
    ∧ (joininclude br v ≠ [] → names s channelID ∉ joininclude br v →
       ch = "&messages")
    ∧ (joininclude br v = [] →
       ch = if bool_decide (names s channelID ∈ joinexclude br v)
            then "&messages" else channelID)
    ∧ (names s channelID ∈ joinexclude br v → ch = "&messages").
Proof.
  intros Hok Hu channelID direct.
  destruct (getMessageChannel_spec br v u channelID
              (bridge.ChannelMessageEvent.ChannelType event)
              (bridge.ChannelMessageEvent.Sender event) s Hok) as (s1 & Hroute & _).
  destruct (handleChannelMessageEvent_spec br v u event s Hok Hu) as (s' & Hrun & _ & Ht).
  eexists _, s1, s'. split; [exact Hroute|]. split; [exact Hrun|]. split; [exact Ht|].
  split; [done|]. unfold route_by_policy. split_and!.
  - intros Hji Hout. destruct (bool_decide (_ ∈ joinexclude br v)); [done|].
    by rewrite bool_decide_eq_true_2.
  - intros Hji. destruct (bool_decide (_ ∈ joinexclude br v)); [done|].
    rewrite bool_decide_eq_false_2; [done|]. by intros [? _].
  - intros Hin. by rewrite bool_decide_eq_true_2.
Qed.

Lemma inclusion_after_exclusion_witness :
  registered_ok Scenario.fresh_session ∧ (0 < 1)%nat
  ∧ ∃ s1 s',
      getMessageChannel (Scenario.backend 5) (Scenario.config ["#dev"] []) 0
        "town" "O" Scenario.alice Scenario.fresh_session = (Some "&messages", s1)
      ∧ handleChannelMessageEvent (Scenario.backend 5) (Scenario.config ["#dev"] [])
          0 (Scenario.hello "O") Scenario.fresh_session = (Some tt, s')
      ∧ trace s' = [SpoofMessage "&messages" "alice/#town" "hello"].
Proof.
  assert (registered_ok Scenario.fresh_session) as Hok by (vm_compute; repeat constructor).
  assert ((0 < 1)%nat) as Hu by lia.
  split_and!; [exact Hok|exact Hu|].
  destruct (inclusion_after_exclusion (Scenario.backend 5) (Scenario.config ["#dev"] [])
              0 (Scenario.hello "O") Scenario.fresh_session Hok Hu)
    as (ch & s1 & s' & Hroute & Hrun & Ht & _ & Hincl & _).
  assert (ch = "&messages") as ->.
  { apply Hincl; [discriminate|].
    change ("#town" ∉ ["#dev"]). rewrite not_elem_of_cons.
    split; [discriminate|apply not_elem_of_nil]. }
  exists s1, s'. split_and!; [exact Hroute|exact Hrun|]. rewrite Ht. reflexivity.
Defined.

(** C2. A channel message whose channel's display name is in the
    [joinexclude] list is delivered to the overflow channel [&messages]
    and to no other: the handler returns, and the trace grows by exactly
    one entry, a message (a notice for a notice) spoofed on [&messages];
    its nick is the shown nick with [/] and the original channel's display
    name behind it when the channel type is not ["D"], and the shown nick
    alone when it is. *)
Theorem excluded_channel_to_overflow
    (br : bridge.Bridger.t) (v : viper.Viper) (u : ptr)
    (event : bridge.ChannelMessageEvent.t) (s : State) :
  registered_ok s → (u < length (heap s))%nat →
  names s (bridge.ChannelMessageEvent.ChannelID event) ∈ joinexclude br v →
  ∃ s',
    handleChannelMessageEvent br v u event s = (Some tt, s')
    ∧ trace s' = trace s ++
        [delivered event "&messages"
           (if bool_decide (bridge.ChannelMessageEvent.ChannelType event = "D")
            then shown_nick u event s
            else shown_nick u event s +:+ "/" +:+
                 names s (bridge.ChannelMessageEvent.ChannelID event))].
Proof.
  intros Hok Hu Hex.
  destruct (handleChannelMessageEvent_spec br v u event s Hok Hu) as (s' & Hrun & _ & Ht).
  exists s'. split; [exact Hrun|]. rewrite Ht. cbn zeta.
  unfold route_by_policy. rewrite (bool_decide_eq_true_2 _ Hex).
  rewrite (bool_decide_eq_true_2 ("&messages" = "&messages")) by done.
  rewrite andb_true_r. by destruct (bool_decide (_ = "D")).
Qed.

Lemma excluded_channel_to_overflow_witness :
  registered_ok Scenario.fresh_session ∧ (0 < 1)%nat
  ∧ "#town" ∈ ["#town"]
  ∧ ∃ s', handleChannelMessageEvent (Scenario.backend 5) (Scenario.config [] ["#town"])
            0 (Scenario.hello "O") Scenario.fresh_session = (Some tt, s')
          ∧ trace s' = [SpoofMessage "&messages" "alice/#town" "hello"].
Proof.
  assert (registered_ok Scenario.fresh_session) as Hok by (vm_compute; repeat constructor).
  assert ("#town" ∈ ["#town"]) as Hin by (by left).
  split_and!; [exact Hok|lia|exact Hin|].
  apply (excluded_channel_to_overflow (Scenario.backend 5) (Scenario.config [] ["#town"])
           0 (Scenario.hello "O") Scenario.fresh_session Hok); [cbn; lia|exact Hin].
Defined.

(** *** The membership synchronizer *)

(** C6, as the code has it. [syncChannel] never panics, and joins the owner
    only through [mayJoin]: an owner who is a member afterwards was one
    before or [mayJoin] said yes. [mayJoin] says yes for every channel
    whose display name is in [joininclude], also when the name is in
    [joinexclude] as well; and when both lists are non-empty it says no for
    every channel whose name is not in [joininclude], so that for every
    channel whose name is in [joinexclude] and not in a non-empty
    [joininclude] the owner is not joined. *)
Theorem owner_joined_only_through_mayJoin
    (br : bridge.Bridger.t) (v : viper.Viper) (u : ptr) (id name : string)
    (s : State) :
  (u < length (heap s))%nat →
  ∃ s',
    syncChannel br v u id name s = (Some tt, s')
    ∧ ((id, u) ∈ members s' →
       (id, u) ∈ members s ∨ mayJoin br v u id s = (Some true, s))
    ∧ (names s id ∈ joininclude br v → mayJoin br v u id s = (Some true, s))
    ∧ (joininclude br v ≠ [] → joinexclude br v ≠ [] →
       names s id ∉ joininclude br v →
       mayJoin br v u id s = (Some false, s)
       ∧ ((id, u) ∈ members s' ↔ (id, u) ∈ members s))
    ∧ (names s id ∈ joinexclude br v → names s id ∉ joininclude br v →
       joininclude br v ≠ [] → (id, u) ∉ members s → (id, u) ∉ members s').
Proof.
  intros Hu.
  assert (∃ s', syncChannel br v u id name s = (Some tt, s')
    ∧ ((id, u) ∈ members s' →
       (id, u) ∈ members s ∨ mayJoin_answer br v u id s = true)
    ∧ (mayJoin_answer br v u id s = false →
       (id, u) ∈ members s' ↔ (id, u) ∈ members s)) as (s' & Hrun & Hgate & Hdenied).
  { destruct (bridge.Bridger.GetChannelUsers br id) as [infos|] eqn:E.
    - eexists. split; [by apply syncChannel_spec|]. cbn zeta.
      destruct (bool_decide_reflect ((id, u) ∈ members (synced_ghosts id infos s)))
        as [Hin|Hout].
      + apply (synced_ghosts_owner u id id infos s Hu) in Hin.
        split; [by auto|intros _; by apply synced_ghosts_owner].
      + destruct (mayJoin_answer br v u id s); [split; [by right|done]|].
        split; [intros Hin; left; by apply synced_ghosts_owner in Hin|].
        intros _. by apply synced_ghosts_owner.
    - exists s. split; [by apply syncChannel_error|]. split; [by auto|done]. }
  exists s'. split; [exact Hrun|]. rewrite mayJoin_returns. split_and!.
  - intros [? | ->]%Hgate; by auto.
  - intros Hin. by rewrite mayJoin_included.
  - intros Hji Hje Hout. rewrite mayJoin_both_lists by done.
    split; [done|]. apply Hdenied. by apply mayJoin_both_lists.
  - intros Hex Hout Hji Hbefore Hafter. apply Hbefore, Hdenied; [|done].
    apply mayJoin_both_lists; [done| |done]. intros Hje. rewrite Hje in Hex.
    by apply not_elem_of_nil in Hex.
Qed.

Lemma owner_joined_only_through_mayJoin_witness :
  (0 < 1)%nat
  ∧ ∃ s', syncChannel (Scenario.backend 5) (Scenario.config ["#dev"] ["#town"]) 0
            "town" "town" Scenario.fresh_session = (Some tt, s')
          ∧ ("town", 0%nat) ∉ members s'.
Proof.
  split; [lia|].
  destruct (owner_joined_only_through_mayJoin (Scenario.backend 5)
              (Scenario.config ["#dev"] ["#town"]) 0 "town" "town"
              Scenario.fresh_session) as (s' & Hrun & _ & _ & _ & Hexcluded);
    [cbn; lia|].
  exists s'. split; [exact Hrun|]. apply Hexcluded.
  - change ("#town" ∈ ["#town"]). by left.
  - change ("#town" ∉ ["#dev"]). rewrite not_elem_of_cons.
    split; [discriminate|apply not_elem_of_nil].
  - discriminate.
  - apply not_elem_of_empty.
Defined.

(** C6, the claim as stated, fails twice. A channel both included and
    excluded is redirected by the router and joined by [syncChannel]; and a
    channel excluded while no inclusion list is configured is redirected by
    the router and joined by [syncChannel] as well. *)
Lemma syncChannel_joins_where_router_redirects :
  (getMessageChannel (Scenario.backend 5) (Scenario.config ["#town"] ["#town"]) 0
     "town" "O" Scenario.alice Scenario.fresh_session).1 = Some "&messages"
  ∧ ("town", 0%nat) ∈ members
      (syncChannel (Scenario.backend 5) (Scenario.config ["#town"] ["#town"]) 0
         "town" "town" Scenario.fresh_session).2
  ∧ (getMessageChannel (Scenario.backend 5) (Scenario.config [] ["#town"]) 0
       "town" "O" Scenario.alice Scenario.fresh_session).1 = Some "&messages"
  ∧ ("#town" ∈ joinexclude (Scenario.backend 5) (Scenario.config [] ["#town"]))
  ∧ ("#town" ∉ joininclude (Scenario.backend 5) (Scenario.config [] ["#town"]))
  ∧ (("town", 0%nat) ∉ members Scenario.fresh_session)
  ∧ ("town", 0%nat) ∈ members
      (syncChannel (Scenario.backend 5) (Scenario.config [] ["#town"]) 0
         "town" "town" Scenario.fresh_session).2.
Proof.
  split_and!.
  - reflexivity.
  - compute_done.
  - reflexivity.
  - change ("#town" ∈ ["#town"]). by left.
  - apply not_elem_of_nil.
  - apply not_elem_of_empty.
  - compute_done.
Qed.

(** *** The backfill worker *)

(** C4, at an input where it fails. The post that the backend writes when
    a user joins a channel, of type [system_join_channel], is a
    membership-system post, and the worker replays it as a line of chat
    under the user's nick: the replay leaves out the posts of type
    [model.POST_JOIN_LEAVE] and of no other type. The adapter's handler of
    live posts relays no message for the same post. *)
Theorem join_channel_post_replayed :
  model.Post.Type_ Scenario.join_post = "system_join_channel"
  ∧ bridge.Bridger.GetPostsSince Scenario.backend_joined "town" 5
    = Some (model.PostList.mk ["j1"] (<["j1" := Scenario.join_post]> ∅))
  ∧ (addUserToChannelWorker_channel Scenario.backend_joined (Scenario.config [] [])
       Scenario.two_days Scenario.no_wrap 0 Scenario.town Scenario.fresh_session).1
    = Some tt
  ∧ trace (addUserToChannelWorker_channel Scenario.backend_joined (Scenario.config [] [])
             Scenario.two_days Scenario.no_wrap 0 Scenario.town Scenario.fresh_session).2
    = [SpoofMessage "town" "matterircd" "Replaying since 1970-01-01";
       SpoofMessage "town" "alice" "[00:00] alice joined the channel.";
       UpdateLastViewed "town"]
  ∧ texts (mattermost.handleWsActionPost Scenario.team_client (Scenario.config [] [])
             (Scenario.posted "alice-id" "alice joined the channel."
                "system_join_channel" ∅) []).2 = [].
Proof.
  split_and!; reflexivity.
Qed.

(** C5, as the code has it. For a channel whose last-viewed timestamp is
    zero the worker replays nothing and does not mark the channel viewed:
    it returns in the state in which [createSpoof] returned, and the trace
    is the one it started with. What [createSpoof] did stays done: the
    channel was synchronized before the timestamp was looked at. *)
Theorem zero_last_viewed_skips_replay_only
    (br : bridge.Bridger.t) (v : viper.Viper) (Format : Z → string → string)
    (wordwrap_String : string → nat → string) (u : ptr)
    (brchannel : bridge.ChannelInfo.t) (s : State) :
  bridge.Bridger.GetLastViewedAt br (bridge.ChannelInfo.ID brchannel) = 0%Z →
  ∃ spoof s',
    createSpoof br v wordwrap_String u brchannel s = (Some spoof, s')
    ∧ addUserToChannelWorker_channel br v Format wordwrap_String u brchannel s
      = (Some tt, s')
    ∧ trace s' = trace s.
Proof.
  intros Hsince.
  destruct (createSpoof_frame br v wordwrap_String u brchannel s)
    as (spoof & s' & Hspoof & Hframe).
  exists spoof, s'. split_and!; [exact Hspoof| |apply Hframe].
  by rewrite worker_skip, (bind_Some _ _ _ _ _ Hspoof).
Qed.

Lemma zero_last_viewed_skips_replay_only_witness :
  bridge.Bridger.GetLastViewedAt (Scenario.backend 0) "town" = 0%Z
  ∧ trace (addUserToChannelWorker_channel (Scenario.backend 0) (Scenario.config [] [])
             Scenario.two_days Scenario.no_wrap 0 Scenario.town
             Scenario.fresh_session).2 = [].
Proof.
  assert (bridge.Bridger.GetLastViewedAt (Scenario.backend 0) "town" = 0%Z) as Hzero
    by reflexivity.
  split; [exact Hzero|].
  destruct (zero_last_viewed_skips_replay_only (Scenario.backend 0) (Scenario.config [] [])
              Scenario.two_days Scenario.no_wrap 0 Scenario.town Scenario.fresh_session
              Hzero) as (spoof & s' & _ & Hrun & Htrace).
  rewrite Hrun. exact Htrace.
Defined.

(** C5, the claim as stated, fails: with a zero last-viewed timestamp the
    owner, not a member of the channel before, is one after the worker, and
    the channel's other member is registered as a ghost and joined. *)
Lemma zero_last_viewed_channel_is_joined :
  bridge.Bridger.GetLastViewedAt (Scenario.backend 0) "town" = 0%Z
  ∧ (("town", 0%nat) ∉ members Scenario.fresh_session)
  ∧ users Scenario.fresh_session = [0%nat]
  ∧ (("town", 0%nat) ∈ members
       (addUserToChannelWorker_channel (Scenario.backend 0) (Scenario.config [] [])
          Scenario.two_days Scenario.no_wrap 0 Scenario.town Scenario.fresh_session).2)
  ∧ users (addUserToChannelWorker_channel (Scenario.backend 0) (Scenario.config [] [])
             Scenario.two_days Scenario.no_wrap 0 Scenario.town Scenario.fresh_session).2
    = [0%nat; 1%nat]
  ∧ topics (addUserToChannelWorker_channel (Scenario.backend 0) (Scenario.config [] [])
              Scenario.two_days Scenario.no_wrap 0 Scenario.town Scenario.fresh_session).2
    !! "town" = Some (None, "header").
Proof.
  split_and!.
  - reflexivity.
  - apply not_elem_of_empty.
  - reflexivity.
  - compute_done.
  - reflexivity.
  - reflexivity.
Qed.

(** C7. The replay of one channel with a non-zero last-viewed timestamp
    and a post list whose identifiers all name a post, the owner being
    allocated: the worker returns, and the trace grows by what the replay's
    calls emit, in order, and the mark. The calls that are not lines of
    posts are the markers of the dates at which the day changes along the
    replayed posts, one marker for each change and none else: as many as
    there are posts whose date differs from the date of the post before
    (the first post counting against no date at all). On a channel that is
    not a direct one each call is one spoofed message, so the markers among
    the entries that the worker adds to the trace are exactly these, in
    order. The replay opens with the marker of the first post's date,
    before that post's lines; a post gives one marker at most, however many
    lines it has; and when the replayed posts are oldest first and days are
    not interrupted, no date has two markers. *)
Theorem marker_once_per_day_change
    (br : bridge.Bridger.t) (v : viper.Viper) (Format : Z → string → string)
    (wordwrap_String : string → nat → string) (u : ptr)
    (brchannel : bridge.ChannelInfo.t) (pl : model.PostList.t) (s : State)
    (me : User.t) :
  (∀ t, Format t "2006-01-02" ≠ "") →
  bridge.Bridger.GetLastViewedAt br (bridge.ChannelInfo.ID brchannel) ≠ 0%Z →
  bridge.Bridger.GetPostsSince br (bridge.ChannelInfo.ID brchannel)
    (bridge.Bridger.GetLastViewedAt br (bridge.ChannelInfo.ID brchannel)) = Some pl →
  Forall (λ id, is_Some (model.PostList.Posts pl !! id)) (model.PostList.Order pl) →
  heap s !! u = Some me →
  let posts := replayed_posts pl in
  let dates := post_date Format <$> posts in
  let calls := replay_calls br Format "" posts in
  ∃ s',
    addUserToChannelWorker_channel br v Format wordwrap_String u brchannel s = (Some tt, s')
    ∧ trace s' = trace s
        ++ concat (emitted wordwrap_String brchannel me <$> calls)
        ++ (if viper.GetBool v (bridge.Bridger.Protocol br +:+ ".disableautoview")
            then [] else [UpdateLastViewed (bridge.ChannelInfo.ID brchannel)])
    ∧ filter (λ c, ¬ is_line c) calls = marker <$> day_changes "" dates
    ∧ (strings.Contains (bridge.ChannelInfo.Name brchannel) "__" = false →
       filter (λ e, is_marker_entry e) (drop (length (trace s)) (trace s'))
       = marker_entry (bridge.ChannelInfo.ID brchannel) <$> day_changes "" dates)
    ∧ length (day_changes "" dates)
      = length (filter (λ ab : string * string, ab.1 ≠ ab.2) (zip ("" :: dates) dates))
    ∧ (∀ p rest, posts = p :: rest →
         calls = marker (post_date Format p)
                 :: post_lines br Format p ++ replay_calls br Format (post_date Format p) rest
         ∧ day_changes "" dates
           = post_date Format p :: day_changes (post_date Format p) (post_date Format <$> rest))
    ∧ (∀ p prev, (length (filter (λ c, ¬ is_line c) (replay_calls br Format prev [p])) ≤ 1)%nat)
    ∧ (day_monotone Format → chronological posts → NoDup (day_changes "" dates)).
Proof.
  intros Hdate Hsince Hposts Hall Hme posts dates calls.
  destruct (worker_trace br v Format wordwrap_String u brchannel pl s me
              Hsince Hposts Hall Hme) as (s' & Hrun & Ht).
  exists s'. split; [exact Hrun|]. split; [exact Ht|]. split_and!.
  - apply replay_markers.
  - intros Hname. rewrite Ht, drop_app_length. unfold emitted. rewrite Hname.
    rewrite (concat_singletons (λ c, SpoofMessage (bridge.ChannelInfo.ID brchannel) c.1 c.2)).
    rewrite filter_app, marker_entries.
    destruct (viper.GetBool v _); cbn; by rewrite app_nil_r.
  - apply day_changes_length.
  - intros p rest Hp. unfold calls, dates. rewrite Hp.
    cbn [replay_calls fmap list_fmap day_changes].
    rewrite (bool_decide_eq_false_2 _ (Hdate (post_time p))). done.
  - intros p prev. rewrite replay_markers. cbn [fmap list_fmap day_changes].
    destruct (bool_decide _); cbn; lia.
  - intros Hmono Hsorted. by apply day_changes_NoDup.
Qed.

Lemma marker_once_per_day_change_witness :
  (∀ t, Scenario.two_days t "2006-01-02" ≠ "")
  ∧ (5 ≠ 0)%Z
  ∧ Forall (λ id, is_Some (model.PostList.Posts Scenario.unread !! id))
           (model.PostList.Order Scenario.unread)
  ∧ heap Scenario.fresh_session !! 0%nat = Some (User.mk Scenario.owner)
  ∧ ∃ s', addUserToChannelWorker_channel (Scenario.backend 5) (Scenario.config [] [])
            Scenario.two_days Scenario.no_wrap 0 Scenario.town Scenario.fresh_session
          = (Some tt, s')
          ∧ trace s' = [SpoofMessage "town" "matterircd" "Replaying since 1970-01-01";
                        SpoofMessage "town" "alice" "[00:00] hello";
                        SpoofMessage "town" "alice" "[00:00] world";
                        SpoofMessage "town" "matterircd" "Replaying since 1970-01-02";
                        SpoofMessage "town" "alice" "[00:00] later";
                        UpdateLastViewed "town"]
          ∧ filter (λ e, is_marker_entry e) (trace s')
            = [marker_entry "town" "1970-01-01"; marker_entry "town" "1970-01-02"].
Proof.
  assert (∀ t, Scenario.two_days t "2006-01-02" ≠ "") as Hdate.
  { intros t. unfold Scenario.two_days. cbn. by destruct (t <? 86400000000000)%Z. }
  assert ((5 ≠ 0)%Z) as Hsince by lia.
  assert (Forall (λ id, is_Some (model.PostList.Posts Scenario.unread !! id))
                 (model.PostList.Order Scenario.unread)) as Hall
    by (repeat constructor; by eexists).
  split_and!; [exact Hdate|exact Hsince|exact Hall|reflexivity|].
  destruct (marker_once_per_day_change (Scenario.backend 5) (Scenario.config [] [])
              Scenario.two_days Scenario.no_wrap 0 Scenario.town Scenario.unread
              Scenario.fresh_session (User.mk Scenario.owner) Hdate Hsince eq_refl Hall
              eq_refl) as (s' & Hrun & Ht & _ & Hmarkers & _).
  exists s'. split_and!; [exact Hrun|by rewrite Ht|].
  pose proof (Hmarkers eq_refl) as Hm.
  change (drop (length (trace Scenario.fresh_session)) (trace s')) with (trace s') in Hm.
  rewrite Hm. reflexivity.
Defined.

(** *** Spoofed private messages *)

(** C10. [MsgSpoofUser], for a sender that is an allocated user, returns
    and adds to the trace one PRIVMSG for each sent line and nothing else,
    the sent lines being the pieces between line feeds of the text wrapped
    at 440, each trimmed of the white space around it, those that trim to
    nothing dropped. No sent line is empty or white space only, each one
    is trimmed (trimming it again changes nothing) and with its line feed
    still trims to something; and a piece gives a line exactly when it is
    not white space only. White space is Unicode's, as [strings.TrimSpace]
    has it. *)
Theorem spoofed_lines_never_blank
    (wordwrap_String : string → nat → string) (u sender : ptr)
    (rcvuser msg : string) (s : State) (snd : User.t) :
  heap s !! sender = Some snd →
  MsgSpoofUser wordwrap_String u sender rcvuser msg s
  = (Some tt,
     set_trace (trace s ++ (privmsg snd rcvuser <$> sent_lines wordwrap_String msg)) s)
  ∧ Forall (λ l, l ≠ "" ∧ ¬ blank l ∧ strings.TrimSpace l = l
                  ∧ strings.TrimSpace (l +:+ LF) ≠ "")
           (sent_lines wordwrap_String msg)
  ∧ (∀ piece, piece ∈ strings.Split (wordwrap_String msg 440%nat) LF →
       (strings.TrimSpace piece ∈ sent_lines wordwrap_String msg ↔ ¬ blank piece))
  ∧ (length (sent_lines wordwrap_String msg)
     ≤ length (strings.Split (wordwrap_String msg 440%nat) LF))%nat.
Proof.
  intros Hsnd. split_and!.
  - unfold MsgSpoofUser. by apply MsgSpoofUser_lines.
  - unfold sent_lines. apply Forall_forall. intros l.
    rewrite list_elem_of_filter, list_elem_of_fmap. intros (Hne & piece & -> & _).
    split_and!; [done|by apply TrimSpace_not_blank|by apply TrimSpace_idemp
                |by apply TrimSpace_line_nonempty].
  - intros piece Hin. unfold sent_lines.
    rewrite list_elem_of_filter, <- TrimSpace_empty. split; [by intros [? _]|].
    intros Hne. split; [done|]. by apply list_elem_of_fmap_2.
  - unfold sent_lines. etrans; [apply length_filter|]. by rewrite length_fmap.
Qed.

Lemma spoofed_lines_never_blank_witness :
  let nbsp := string_of_list_ascii (utf8.EncodeRune 0xA0) in
  let wide := string_of_list_ascii (utf8.EncodeRune 0x3000) in
  heap Scenario.fresh_session !! 0%nat = Some (User.mk Scenario.owner)
  ∧ trace (MsgSpoofUser Scenario.no_wrap 0 0 "alice"
             ("hi" +:+ LF +:+ "  " +:+ LF +:+ nbsp +:+ wide +:+ LF +:+ " there " +:+ nbsp)
             Scenario.fresh_session).2
    = [privmsg (User.mk Scenario.owner) "alice" "hi";
       privmsg (User.mk Scenario.owner) "alice" "there"].
Proof.
  cbn zeta.
  assert (heap Scenario.fresh_session !! 0%nat = Some (User.mk Scenario.owner)) as Hsnd
    by reflexivity.
  split; [exact Hsnd|].
  destruct (spoofed_lines_never_blank Scenario.no_wrap 0 0 "alice"
              ("hi" +:+ LF +:+ "  " +:+ LF
               +:+ string_of_list_ascii (utf8.EncodeRune 0xA0)
               +:+ string_of_list_ascii (utf8.EncodeRune 0x3000) +:+ LF +:+ " there "
               +:+ string_of_list_ascii (utf8.EncodeRune 0xA0)) Scenario.fresh_session
              (User.mk Scenario.owner) Hsnd) as (Hrun & _).
  rewrite Hrun. vm_compute. reflexivity.
Defined.

(** *** The adapter *)

(** C9. A posted event whose post was sent by the session owner and whose
    properties carry the owner's marker as a boolean is skipped: the
    handler of posts returns with the trace untouched, and the turn of the
    receive loop sends no event on the event channel. The marker is the
    property that [MsgChannel] puts on the posts it creates and [MsgUser]
    on the direct messages it sends. *)
Theorem own_marked_post_dropped
    (mc : mattermost.MMClient.t) (v : viper.Viper)
    (handleOther : mattermost.WebSocketEvent.t → M (list mattermost.Action) unit)
    (rmsg : mattermost.WebSocketEvent.t) (tick : bool) (b : bool)
    (tr : list mattermost.Action) :
  mattermost.WebSocketEvent.Event rmsg = model.WEBSOCKET_EVENT_POSTED →
  model.Post.UserId (mattermost.WebSocketEvent.Post rmsg)
    = bridge.UserInfo.User (mattermost.GetMe mc v) →
  model.Post.Props (mattermost.WebSocketEvent.Post rmsg) !! marker_key mc
    = Some (model.JBool b) →
  mattermost.handleWsActionPost mc v rmsg tr = (Some tt, tr)
  ∧ (∃ tr', mattermost.handleWsMessage mc v handleOther rmsg tick tr = (Some tt, tr')
            ∧ ∀ e, mattermost.Send e ∈ tr' → mattermost.Send e ∈ tr)
  ∧ (∀ channelID text tr0, ∃ p,
       mattermost.MsgChannel mc channelID text tr0
       = (Some tt, tr0 ++ [mattermost.CreatePost p])
       ∧ model.Post.Props p !! marker_key mc = Some (model.JBool true))
  ∧ (∀ username text tr0, ∃ props,
       mattermost.MsgUser mc username text tr0
       = (Some tt, tr0 ++ [mattermost.SendDirectMessageProps username text "" props])
       ∧ props !! marker_key mc = Some (model.JBool true)).
Proof.
  intros Hposted Hme Hmark.
  assert (mattermost.handleWsActionPost mc v rmsg tr = (Some tt, tr)) as Hskip.
  { unfold mattermost.handleWsActionPost.
    by rewrite (wsActionPostSkip_own_marked mc v rmsg b Hme Hmark). }
  split_and!.
  - exact Hskip.
  - unfold mattermost.handleWsMessage.
    destruct (checkWsActionMessage_sends mc v rmsg tick tr) as (tr' & Hcheck & Hsends).
    rewrite (bind_Some _ _ _ _ _ Hcheck), Hposted. cbn [orb bool_decide].
    rewrite bool_decide_eq_true_2 by done. cbn [orb].
    exists tr'. split; [|exact Hsends].
    unfold mattermost.handleWsActionPost.
    by rewrite (wsActionPostSkip_own_marked mc v rmsg b Hme Hmark).
  - intros channelID text tr0. eexists. split; [reflexivity|].
    cbn [model.Post.Props]. apply lookup_insert_eq.
  - intros username text tr0. eexists. split; [reflexivity|]. apply lookup_insert_eq.
Qed.

Lemma own_marked_post_dropped_witness :
  mattermost.WebSocketEvent.Event Scenario.echo = model.WEBSOCKET_EVENT_POSTED
  ∧ model.Post.UserId (mattermost.WebSocketEvent.Post Scenario.echo) = "me-id"
  ∧ model.Post.Props (mattermost.WebSocketEvent.Post Scenario.echo)
      !! marker_key Scenario.client = Some (model.JBool true)
  ∧ ∃ tr', mattermost.handleWsMessage Scenario.client (Scenario.config [] [])
             (λ _, ret tt) Scenario.echo true [] = (Some tt, tr')
           ∧ ∀ e, mattermost.Send e ∉ tr'.
Proof.
  split_and!; [reflexivity..|].
  destruct (own_marked_post_dropped Scenario.client (Scenario.config [] []) (λ _, ret tt)
              Scenario.echo true true []) as (_ & (tr' & Hrun & Hsends) & _);
    [reflexivity..|].
  exists tr'. split; [exact Hrun|].
  intros e He. apply Hsends in He. by apply not_elem_of_nil in He.
Defined.

(* ===================================================================== *)
(** ** Further properties of the code                                     *)
(* ===================================================================== *)

(** *** The session: events of membership, direct messages, files *)

(** X1. [handleChannelAddEvent], from a well-formed registry, returns; it
    takes no one out of a channel; every added user who is not the owner
    has, afterwards, a ghost registered for the identifier, and that ghost
    is a member of the event's channel; and the handler itself sends the
    line of [system] about an added user exactly when the user is not the
    owner and the event names an adder whose nick is neither the added
    user's nor ["system"]: these lines, in the order of the added users,
    are all that it adds to the trace. *)
Theorem added_users_joined
    (br : bridge.Bridger.t) (v : viper.Viper) (u : ptr)
    (event : bridge.ChannelAddEvent.t) (s : State) :
  registered_ok s →
  ∃ s',
    handleChannelAddEvent br v u event s = (Some tt, s')
    ∧ (∀ x, x ∈ members s → x ∈ members s')
    ∧ (∀ added, added ∈ bridge.ChannelAddEvent.Added event →
         bridge.UserInfo.Me added = false →
         ∃ g, Srv.HasUserID (bridge.UserInfo.User added) s' = Some g
              ∧ (bridge.ChannelAddEvent.ChannelID event, g) ∈ members s')
    ∧ trace s' = trace s ++ omap (added_notice event) (bridge.ChannelAddEvent.Added event).
Proof.
  intros Hok.
  destruct (handleChannelAddEvent_spec br v u event s Hok)
    as (s' & Hrun & _ & _ & Hm & Ht & Hj).
  exists s'. done.
Qed.

Lemma added_users_joined_witness :
  registered_ok Scenario.fresh_session
  ∧ ∃ s', handleChannelAddEvent (Scenario.backend 5) (Scenario.config [] []) 0
            Scenario.bob_adds Scenario.fresh_session = (Some tt, s')
          ∧ Srv.HasUserID "alice-id" s' = Some 1%nat
          ∧ trace s' = [SpoofMessage "town" "system" "added alice to the channel by bob"].
Proof.
  assert (registered_ok Scenario.fresh_session) as Hok by (vm_compute; repeat constructor).
  split; [exact Hok|].
  destruct (added_users_joined (Scenario.backend 5) (Scenario.config [] []) 0
              Scenario.bob_adds Scenario.fresh_session Hok) as (s' & Hrun & _ & _ & Ht).
  exists s'. split; [exact Hrun|]. split; [|exact Ht].
  injection Hrun as <-. reflexivity.
Defined.

(** X2. [handleChannelRemoveEvent], from a well-formed registry, returns;
    it adds no one to a channel and touches the members of no channel but
    the event's; every removed user who is not the owner has, afterwards, a
    ghost registered for the identifier (one is registered for a user never
    seen before) and that ghost is not a member of the event's channel,
    and when the owner is among the removed the owner is not a member
    either; and the client is shown one line of [system] for each removed
    user who is not the owner when the event names a remover whose nick is
    neither the removed user's nor ["system"], and nothing else. *)
Theorem removed_users_parted
    (u : ptr) (event : bridge.ChannelRemoveEvent.t) (s : State) :
  registered_ok s →
  ∃ s',
    handleChannelRemoveEvent u event s = (Some tt, s')
    ∧ (∀ x, x ∈ members s' → x ∈ members s)
    ∧ (∀ c g, c ≠ bridge.ChannelRemoveEvent.ChannelID event →
              (c, g) ∈ members s → (c, g) ∈ members s')
    ∧ (∀ removed, removed ∈ bridge.ChannelRemoveEvent.Removed event →
         if bridge.UserInfo.Me removed
         then (bridge.ChannelRemoveEvent.ChannelID event, u) ∉ members s'
         else ∃ g, Srv.HasUserID (bridge.UserInfo.User removed) s' = Some g
                   ∧ (bridge.ChannelRemoveEvent.ChannelID event, g) ∉ members s')
    ∧ trace s' = trace s
        ++ omap (removed_notice event) (bridge.ChannelRemoveEvent.Removed event).
Proof.
  intros Hok.
  destruct (handleChannelRemoveEvent_spec u event s Hok)
    as (s' & Hrun & _ & _ & Hm & Ho & Ht & Hp).
  exists s'. done.
Qed.

Lemma removed_users_parted_witness :
  registered_ok Scenario.alice_in_town
  ∧ ∃ s', handleChannelRemoveEvent 0 Scenario.bob_removes Scenario.alice_in_town
          = (Some tt, s')
          ∧ (("town", 1%nat) ∉ members s')
          ∧ trace s' = [SpoofMessage "town" "system" "removed alice from the channel by bob"].
Proof.
  assert (registered_ok Scenario.alice_in_town) as Hok by (vm_compute; repeat constructor).
  split; [exact Hok|].
  destruct (removed_users_parted 0 Scenario.bob_removes Scenario.alice_in_town Hok)
    as (s' & Hrun & _ & _ & Hp & Ht).
  exists s'. split; [exact Hrun|]. split; [|exact Ht].
  destruct (Hp Scenario.alice) as (g & Hid & Hout); [by left|].
  injection Hrun as <-. injection Hid as <-. exact Hout.
Defined.

(** X3. A direct message reaches the client as private lines, one for each
    sent line of the text (as [MsgSpoofUser] cuts it). The owner's own
    message is shown from the owner to the owner's nick. Anyone else's is
    shown to the nick of the event's receiver, from the ghost registered
    for the sender's identifier, under the nick that ghost carries, which
    need not be the nick the event gives the sender; when no ghost is
    registered for the identifier, one is registered with the event's
    profile first. Nothing else changes. *)
Theorem direct_message_lines
    (wordwrap_String : string → nat → string) (u : ptr)
    (event : bridge.DirectMessageEvent.t) (s : State) :
  let sender := bridge.DirectMessageEvent.Sender event in
  let receiver := bridge.UserInfo.Nick (bridge.DirectMessageEvent.Receiver event) in
  let lines := sent_lines wordwrap_String (bridge.DirectMessageEvent.Text event) in
  (∀ me, bridge.UserInfo.Me sender = true → heap s !! u = Some me →
     handleDirectMessageEvent wordwrap_String u event s
     = (Some tt,
        set_trace (trace s ++ (privmsg me (bridge.UserInfo.Nick (User.UserInfo me))
                                 <$> lines)) s))
  ∧ (∀ g x, bridge.UserInfo.Me sender = false →
       Srv.HasUserID (bridge.UserInfo.User sender) s = Some g → heap s !! g = Some x →
       handleDirectMessageEvent wordwrap_String u event s
       = (Some tt, set_trace (trace s ++ (privmsg x receiver <$> lines)) s))
  ∧ (bridge.UserInfo.Me sender = false →
     Srv.HasUserID (bridge.UserInfo.User sender) s = None →
     handleDirectMessageEvent wordwrap_String u event s
     = (Some tt,
        set_trace (trace s ++ (privmsg (User.mk sender) receiver <$> lines))
                  (registered sender s))).
Proof.
  intros sender receiver lines. unfold handleDirectMessageEvent. fold sender. split_and!.
  - intros me -> Hme. rewrite (bind_Some _ _ _ _ _ (load_Some _ _ _ Hme)).
    by apply MsgSpoofUser_sent.
  - intros g x -> Hid Hx.
    rewrite (bind_Some _ _ _ _ _ (createUserFromInfo_found u sender s g Hid)).
    by apply MsgSpoofUser_sent.
  - intros -> Hid.
    rewrite (bind_Some _ _ _ _ _ (createUserFromInfo_new u sender s Hid)).
    rewrite (MsgSpoofUser_sent wordwrap_String u _ (User.mk sender)); [done|].
    cbn. by rewrite list_lookup_middle.
Qed.

(** X4. [handleFileEvent] of the session, for an event of a channel that is
    not a direct one ([ChannelType] is not ["D"]): from a well-formed
    registry with the owner allocated it returns, and the trace grows by
    exactly one spoofed message for each file of the event, in order, on
    the channel the router answers with; the text is [download file -] and
    the file's name, and the nick is the owner's own for the owner's files
    and the sender's otherwise, with no channel name behind it even on
    [&messages]. *)
Theorem files_announced_in_channel
    (br : bridge.Bridger.t) (v : viper.Viper)
    (wordwrap_String : string → nat → string) (u : ptr)
    (event : bridge.FileEvent.t) (s : State) (me : User.t) :
  registered_ok s → heap s !! u = Some me →
  bridge.FileEvent.ChannelType event ≠ "D" →
  ∃ s',
    handleFileEvent br v wordwrap_String u event s = (Some tt, s')
    ∧ trace s' = trace s ++
        ((λ fname,
            SpoofMessage
              (route_by_policy (joinexclude br v) (joininclude br v) (names s)
                               (bridge.FileEvent.ChannelID event))
              (if bridge.UserInfo.Me (bridge.FileEvent.Sender event)
               then bridge.UserInfo.Nick (User.UserInfo me)
               else bridge.UserInfo.Nick (bridge.FileEvent.Sender event))
              (download_line fname))
           <$> bridge.FileEvent.Files event).
Proof.
  intros Hok Hme HD. unfold handleFileEvent.
  destruct (getMessageChannel_spec br v u (bridge.FileEvent.ChannelID event)
              (bridge.FileEvent.ChannelType event) (bridge.FileEvent.Sender event) s Hok)
    as (s1 & Hrun & Hf).
  run Hrun. rewrite (bool_decide_eq_false_2 _ HD).
  pose proof (frame_lookup _ _ _ _ Hf Hme) as Hme1.
  rewrite (forM__download u me _ _ _ s1 Hme1).
  eexists. split; [reflexivity|]. cbn.
  destruct Hf as (_ & -> & _). done.
Qed.

Lemma files_announced_in_channel_witness :
  registered_ok Scenario.fresh_session
  ∧ heap Scenario.fresh_session !! 0%nat = Some (User.mk Scenario.owner)
  ∧ "O" ≠ "D"
  ∧ ∃ s', handleFileEvent (Scenario.backend 5) (Scenario.config [] ["#town"])
            Scenario.no_wrap 0 Scenario.two_files Scenario.fresh_session = (Some tt, s')
          ∧ trace s' = [SpoofMessage "&messages" "alice" "download file -a.png";
                        SpoofMessage "&messages" "alice" "download file -b.txt"].
Proof.
  assert (registered_ok Scenario.fresh_session) as Hok by (vm_compute; repeat constructor).
  assert ("O" ≠ "D") as HD by discriminate.
  split_and!; [exact Hok|reflexivity|exact HD|].
  apply (files_announced_in_channel (Scenario.backend 5) (Scenario.config [] ["#town"])
           Scenario.no_wrap 0 Scenario.two_files Scenario.fresh_session (User.mk Scenario.owner)
           Hok eq_refl HD).
Defined.

(** *** The session: backfill and synchronization *)

(** X5. The backfill of a direct channel (one whose name holds [__]) with a
    non-zero last-viewed timestamp and a post list whose identifiers all
    name a post, the owner being allocated: the worker returns, changes no
    membership and no topic, and the trace grows by the private lines of
    the replay's calls, in order, and the mark. Every line, a date marker's
    too, carries the owner's own prefix, and is addressed to the nick the
    call names: the post's author, or [matterircd] for a marker. *)
Theorem direct_channel_replayed_in_private
    (br : bridge.Bridger.t) (v : viper.Viper) (Format : Z → string → string)
    (wordwrap_String : string → nat → string) (u : ptr)
    (brchannel : bridge.ChannelInfo.t) (pl : model.PostList.t) (s : State)
    (me : User.t) :
  strings.Contains (bridge.ChannelInfo.Name brchannel) "__" = true →
  bridge.Bridger.GetLastViewedAt br (bridge.ChannelInfo.ID brchannel) ≠ 0%Z →
  bridge.Bridger.GetPostsSince br (bridge.ChannelInfo.ID brchannel)
    (bridge.Bridger.GetLastViewedAt br (bridge.ChannelInfo.ID brchannel)) = Some pl →
  Forall (λ id, is_Some (model.PostList.Posts pl !! id)) (model.PostList.Order pl) →
  heap s !! u = Some me →
  ∃ s',
    addUserToChannelWorker_channel br v Format wordwrap_String u brchannel s = (Some tt, s')
    ∧ members s' = members s ∧ topics s' = topics s
    ∧ trace s' = trace s
        ++ concat (direct_lines wordwrap_String me
                     <$> replay_calls br Format "" (replayed_posts pl))
        ++ (if viper.GetBool v (bridge.Bridger.Protocol br +:+ ".disableautoview")
            then [] else [UpdateLastViewed (bridge.ChannelInfo.ID brchannel)]).
Proof.
  intros Hname Hsince Hposts Hall Hme.
  by apply worker_direct_trace.
Qed.

Lemma direct_channel_replayed_in_private_witness :
  strings.Contains "alice-id__me-id" "__" = true
  ∧ (5 ≠ 0)%Z
  ∧ Forall (λ id, is_Some (model.PostList.Posts Scenario.unread !! id))
           (model.PostList.Order Scenario.unread)
  ∧ heap Scenario.fresh_session !! 0%nat = Some (User.mk Scenario.owner)
  ∧ ∃ s', addUserToChannelWorker_channel (Scenario.backend 5) (Scenario.config [] [])
            Scenario.two_days Scenario.no_wrap 0 Scenario.alice_direct Scenario.fresh_session
          = (Some tt, s')
          ∧ members s' = ∅
          ∧ trace s' = [privmsg (User.mk Scenario.owner) "matterircd" "Replaying since 1970-01-01";
                        privmsg (User.mk Scenario.owner) "alice" "[00:00] hello";
                        privmsg (User.mk Scenario.owner) "alice" "[00:00] world";
                        privmsg (User.mk Scenario.owner) "matterircd" "Replaying since 1970-01-02";
                        privmsg (User.mk Scenario.owner) "alice" "[00:00] later";
                        UpdateLastViewed "dm1"].
Proof.
  assert (Forall (λ id, is_Some (model.PostList.Posts Scenario.unread !! id))
                 (model.PostList.Order Scenario.unread)) as Hall
    by (repeat constructor; by eexists).
  assert ((5 ≠ 0)%Z) as Hsince by lia.
  split_and!; [reflexivity|exact Hsince|exact Hall|reflexivity|].
  destruct (direct_channel_replayed_in_private (Scenario.backend 5) (Scenario.config [] [])
              Scenario.two_days Scenario.no_wrap 0 Scenario.alice_direct Scenario.unread
              Scenario.fresh_session (User.mk Scenario.owner) eq_refl Hsince eq_refl Hall
              eq_refl) as (s' & Hrun & Hm & _ & Ht).
  exists s'. split_and!; [exact Hrun|exact Hm|]. rewrite Ht. reflexivity.
Defined.

(** X6. [CreateUsersFromInfo] never looks at the registry and never
    changes it: it returns, for the profiles that are not the owner's and
    in their order, one newly allocated ghost each, carrying the profile;
    the ghosts are distinct from one another and from every user allocated
    before; and the registered users, the memberships, the topics and the
    trace are as they were. *)
Theorem fresh_ghost_for_each_profile
    (u : ptr) (infos : list bridge.UserInfo.t) (s : State) :
  ∃ gs s',
    CreateUsersFromInfo u infos s = (Some gs, s')
    ∧ NoDup gs
    ∧ Forall (λ g, (length (heap s) ≤ g)%nat) gs
    ∧ (λ g, heap s' !! g) <$> gs
      = (λ i, Some (User.mk i)) <$> filter (λ i, bridge.UserInfo.Me i = false) infos
    ∧ heap s `prefix_of` heap s'
    ∧ users s' = users s ∧ members s' = members s ∧ topics s' = topics s
    ∧ trace s' = trace s.
Proof. apply CreateUsersFromInfo_fresh. Qed.

(** X7. [syncChannel] always returns and never takes anything away:
    every membership and every registered user is kept. The topics are
    unchanged unless the owner, not a member before, is one after, in
    which case the topic of that one channel is set to the backend's. When
    the backend answers the request for the channel's users with an error,
    the state is left as it was. *)
Theorem syncChannel_monotone
    (br : bridge.Bridger.t) (v : viper.Viper) (u : ptr) (id name : string)
    (s : State) :
  ∃ s',
    syncChannel br v u id name s = (Some tt, s')
    ∧ (∀ x, x ∈ members s → x ∈ members s')
    ∧ users s `prefix_of` users s'
    ∧ (topics s' = topics s
       ∨ ((id, u) ∉ members s) ∧ ((id, u) ∈ members s')
         ∧ ∃ svc, topics s' = <[id := (svc, bridge.Bridger.Topic br id)]> (topics s))
    ∧ (bridge.Bridger.GetChannelUsers br id = None → s' = s).
Proof.
  destruct (bridge.Bridger.GetChannelUsers br id) as [infos|] eqn:E.
  2:{ exists s. rewrite (syncChannel_error _ _ _ _ _ _ E).
      split_and!; [done|done|done|by left|done]. }
  eexists. split; [by apply syncChannel_spec|]. cbn zeta.
  assert (∀ x, x ∈ members s → x ∈ members (synced_ghosts id infos s)) as Hm
    by (intros x; apply members_synced_ghosts).
  destruct (bool_decide_reflect ((id, u) ∈ members (synced_ghosts id infos s))) as [Hin|Hout].
  { split_and!; [done|by apply prefix_app_r|by left|done]. }
  destruct (mayJoin_answer br v u id s).
  2:{ split_and!; [done|by apply prefix_app_r|by left|done]. }
  split_and!; [ |by apply prefix_app_r| |done].
  - intros x Hx. cbn. apply elem_of_union. right. by apply Hm.
  - right. split_and!.
    + intros Hin. by apply Hout, Hm.
    + cbn. apply elem_of_union. left. by apply elem_of_singleton.
    + by eexists.
Qed.

(** *** The session: policy and routing *)

(** X8. [mayJoin] changes nothing, and it refuses exactly when both lists
    are configured and the channel's display name is not in [joininclude]:
    with either list empty it permits every channel, whatever the other
    list holds. *)
Theorem mayJoin_refuses_exactly
    (br : bridge.Bridger.t) (v : viper.Viper) (u : ptr) (channelID : string)
    (s : State) :
  mayJoin br v u channelID s
  = (Some (negb (bool_decide (joininclude br v ≠ [] ∧ joinexclude br v ≠ []
                              ∧ names s channelID ∉ joininclude br v))), s).
Proof.
  unfold mayJoin, bind, gets, ret, Channel.String, Srv.Channel, stringInSlice.
  fold (joininclude br v) (joinexclude br v).
  destruct (bool_decide_reflect (names s channelID ∈ joininclude br v)) as [Hin|Hout].
  { case_bool_decide as H; [by destruct H as (_ & _ & ?)|done]. }
  destruct (joininclude br v) as [|a ji] eqn:Eji.
  { destruct (bool_decide (names s channelID ∈ joinexclude br v)); cbn;
      first [done|case_bool_decide as H; [by destruct H as (? & _)|done]]. }
  destruct (joinexclude br v) as [|b je] eqn:Eje.
  { cbn. first [done|case_bool_decide as H; [by destruct H as (_ & ? & _)|done]]. }
  destruct (bool_decide (names s channelID ∈ b :: je)); cbn;
    (case_bool_decide as H; [done|by destruct H]).
Qed.

(** X9. Besides answering with a channel, the router [getMessageChannel],
    from a well-formed registry: takes no one out of a channel, leaves a
    ghost registered for the sender's identifier, and that ghost, unless it
    is flagged as the owner's own, is afterwards a member of the channel
    the message came from, also when the message is redirected to
    [&messages]; and for a message of a group (["G"]) the ghost registered
    for the bridge's own profile is a member of the channel afterwards. *)
Theorem routed_sender_joins_origin
    (br : bridge.Bridger.t) (v : viper.Viper) (u : ptr)
    (channelID channelType : string) (sender : bridge.UserInfo.t) (s : State) :
  registered_ok s →
  ∃ ch g s',
    getMessageChannel br v u channelID channelType sender s = (Some ch, s')
    ∧ (∀ x, x ∈ members s → x ∈ members s')
    ∧ Srv.HasUserID (bridge.UserInfo.User sender) s' = Some g
    ∧ (bridge.UserInfo.Me (info_of s' g) = false → (channelID, g) ∈ members s')
    ∧ (channelType = "G" →
       ∃ myself, Srv.HasUserID (bridge.UserInfo.User (bridge.Bridger.GetMe br)) s'
                 = Some myself
                 ∧ (channelID, myself) ∈ members s').
Proof.
  intros Hok.
  destruct (getMessageChannel_members br v u channelID channelType sender s Hok)
    as (g & s' & Hrun & _ & _ & _ & Hm & Hid & Hj & HG).
  by eexists _, g, s'.
Qed.

Lemma routed_sender_joins_origin_witness :
  registered_ok Scenario.fresh_session
  ∧ ∃ s', getMessageChannel (Scenario.backend 5) (Scenario.config [] ["#town"]) 0
            "town" "O" Scenario.alice Scenario.fresh_session = (Some "&messages", s')
          ∧ ("town", 1%nat) ∈ members s'.
Proof.
  assert (registered_ok Scenario.fresh_session) as Hok by (vm_compute; repeat constructor).
  split; [exact Hok|].
  destruct (routed_sender_joins_origin (Scenario.backend 5) (Scenario.config [] ["#town"]) 0
              "town" "O" Scenario.alice Scenario.fresh_session Hok)
    as (ch & g & s' & Hrun & _ & Hid & Hj & _).
  exists s'.
  assert (ch = "&messages" ∧ g = 1%nat) as [-> ->].
  { injection Hrun as <- <-. injection Hid as <-. done. }
  split; [exact Hrun|]. apply Hj. injection Hrun as <-. reflexivity.
Defined.

(** X10. Every channel message event, from a well-formed registry with the
    owner allocated, gives the client exactly one line, never none and
    never two: the event's text, as a notice when the event's message type
    is ["notice"] and as a message otherwise, on the channel the policy
    names; and when that channel is not [&messages] the line is under the
    shown nick alone, with nothing behind it. *)
Theorem one_line_for_each_channel_message
    (br : bridge.Bridger.t) (v : viper.Viper) (u : ptr)
    (event : bridge.ChannelMessageEvent.t) (s : State) :
  registered_ok s → (u < length (heap s))%nat →
  ∃ s' ch nick,
    handleChannelMessageEvent br v u event s = (Some tt, s')
    ∧ trace s' = trace s ++ [delivered event ch nick]
    ∧ ch = route_by_policy (joinexclude br v) (joininclude br v) (names s)
             (bridge.ChannelMessageEvent.ChannelID event)
    ∧ (ch = "&messages" ∨ (ch = bridge.ChannelMessageEvent.ChannelID event
                           ∧ nick = shown_nick u event s)).
Proof.
  intros Hok Hu.
  destruct (handleChannelMessageEvent_spec br v u event s Hok Hu) as (s' & Hrun & _ & Ht).
  cbn zeta in Ht. eexists s', _, _. split_and!; [exact Hrun|exact Ht|reflexivity|].
  destruct (bool_decide_reflect
              (route_by_policy (joinexclude br v) (joininclude br v) (names s)
                 (bridge.ChannelMessageEvent.ChannelID event) = "&messages")) as [Heq|Hne].
  - by left.
  - right. rewrite andb_false_r. split; [|done].
    unfold route_by_policy in *. by repeat case_match.
Qed.

Lemma one_line_for_each_channel_message_witness :
  registered_ok Scenario.fresh_session ∧ (0 < 1)%nat
  ∧ ∃ s', handleChannelMessageEvent (Scenario.backend 5) (Scenario.config [] [])
            0 (Scenario.hello "O") Scenario.fresh_session = (Some tt, s')
          ∧ trace s' = [SpoofMessage "town" "alice" "hello"].
Proof.
  assert (registered_ok Scenario.fresh_session) as Hok by (vm_compute; repeat constructor).
  assert ((0 < 1)%nat) as Hu by lia.
  split_and!; [exact Hok|exact Hu|].
  destruct (one_line_for_each_channel_message (Scenario.backend 5) (Scenario.config [] [])
              0 (Scenario.hello "O") Scenario.fresh_session Hok Hu)
    as (s' & ch & nick & Hrun & Ht & _).
  exists s'. split; [exact Hrun|]. injection Hrun as <-. reflexivity.
Defined.

(** *** The session: start-up and servers *)

(** X11. When [addUsersToChannels] starts its workers, with the bridge's
    channels to hand to them: the owner is a member of [&users] and of
    [&messages]; for every profile of the bridge's user list that is not
    the owner's there is a newly allocated ghost carrying it, registered
    and a member of [&users], these ghosts being registered behind the
    users registered before, in the order of the list; and no membership
    has been lost. *)
Theorem startup_joins_before_workers
    (GetUsers : list bridge.UserInfo.t) (GetChannels : list bridge.ChannelInfo.t)
    (u : ptr) (s : State) :
  ∃ gs s',
    addUsersToChannels_setup GetUsers GetChannels u s = (Some GetChannels, s')
    ∧ (("&users", u) ∈ members s') ∧ (("&messages", u) ∈ members s')
    ∧ users s' = users s ++ gs
    ∧ (λ g, heap s' !! g) <$> gs
      = (λ i, Some (User.mk i)) <$> filter (λ i, bridge.UserInfo.Me i = false) GetUsers
    ∧ Forall (λ g, (length (heap s) ≤ g)%nat ∧ ("&users", g) ∈ members s') gs
    ∧ (∀ x, x ∈ members s → x ∈ members s').
Proof.
  destruct (CreateUsersFromInfo_fresh u GetUsers s)
    as (gs & s1 & Hrun & _ & Hfresh & Hprofiles & _ & Hu & Hm & _ & _).
  exists gs. unfold addUsersToChannels_setup. run Hrun.
  eexists. split; [reflexivity|]. cbn. split_and!.
  - rewrite !elem_of_union, !elem_of_singleton. auto.
  - rewrite !elem_of_union, !elem_of_singleton. auto.
  - by rewrite Hu.
  - exact Hprofiles.
  - apply Forall_forall. intros g Hg. split.
    + by apply (proj1 (Forall_forall _ _) Hfresh).
    + rewrite !elem_of_union, elem_of_list_to_set, list_elem_of_fmap.
      right. right. left. by exists g.
  - intros x Hx. rewrite !elem_of_union, Hm. auto.
Qed.

(** X12. [isValidServer] accepts a server exactly when the protocol's
    [restrict] list is empty or names it: an empty list restricts
    nothing. *)
Theorem restrict_list_decides
    (v : viper.Viper) (u : ptr) (server protocol : string) :
  isValidServer v u server protocol = true
  ↔ viper.GetStringSlice v (protocol +:+ ".restrict") = []
    ∨ server ∈ viper.GetStringSlice v (protocol +:+ ".restrict").
Proof.
  unfold isValidServer.
  destruct (viper.GetStringSlice v (protocol +:+ ".restrict")) as [|a l] eqn:E.
  { cbn. split; by auto. }
  cbn [length Nat.eqb]. rewrite existsb_exists. split.
  - intros (x & Hin & Hx%bool_decide_eq_true). subst x. right.
    by apply list_elem_of_In.
  - intros [?|Hin]; [done|]. exists server. split; [by apply list_elem_of_In|].
    by apply bool_decide_eq_true.
Qed.

(** *** The adapter: the handler of posts *)

(** X13. Whatever the event, [handleWsActionPost] only adds actions to the
    trace, and every message event among them, of a channel or direct,
    carries one line: a text that is not empty and holds no line feed. *)
Theorem message_events_are_single_lines
    (mc : mattermost.MMClient.t) (v : viper.Viper)
    (rmsg : mattermost.WebSocketEvent.t) (tr : list mattermost.Action) :
  ∃ acts,
    (mattermost.handleWsActionPost mc v rmsg tr).2 = tr ++ acts
    ∧ Forall (λ t, t ≠ "" ∧ strings.Contains t LF = false) (texts acts).
Proof.
  destruct (handleWsActionPost_relayed mc v rmsg tr) as (acts & Hrun & Hacts).
  exists acts. split; [exact Hrun|].
  apply (texts_Forall (relayed mc v rmsg)); [|exact Hacts].
  intros [e|e|e|e|e|e] t [_ H]; cbn; intros [= <-]. all: by destruct H as (_ & ? & ? & _).
Qed.

(** X14. [handleWsActionPost] never writes to the backend: it creates no
    post and sends no direct message there. It marks a channel viewed only
    for a post that is not a join or leave post and only when
    [mattermost.DisableAutoView] is off, the channel being the post's own;
    and it asks for the channels to be refreshed only for a join or leave
    post. *)
Theorem post_handler_backend_calls
    (mc : mattermost.MMClient.t) (v : viper.Viper)
    (rmsg : mattermost.WebSocketEvent.t) (tr : list mattermost.Action) :
  ∃ acts,
    (mattermost.handleWsActionPost mc v rmsg tr).2 = tr ++ acts
    ∧ Forall (λ a,
        match a with
        | mattermost.CreatePost _ => False
        | mattermost.SendDirectMessageProps _ _ _ _ => False
        | mattermost.UpdateLastViewed ch =>
            ch = model.Post.ChannelId (mattermost.WebSocketEvent.Post rmsg)
            ∧ viper.GetBool v "mattermost.DisableAutoView" = false
            ∧ ¬ join_leave_type (model.Post.Type_ (mattermost.WebSocketEvent.Post rmsg))
        | mattermost.UpdateChannels =>
            join_leave_type (model.Post.Type_ (mattermost.WebSocketEvent.Post rmsg))
        | mattermost.Send _ => True
        end) acts.
Proof.
  destruct (handleWsActionPost_relayed mc v rmsg tr) as (acts & Hrun & Hacts).
  exists acts. split; [exact Hrun|].
  eapply Forall_impl; [exact Hacts|].
  intros [e|p|? ? ? ?| |ch] [_ H]; cbn in *; tauto.
Qed.

(** X15. Among the events [handleWsActionPost] sends, a direct message is
    always addressed to the bridge's own profile, a channel message never
    carries the channel type ["D"] and carries the identifier of the
    post's channel, and a file event, which is only sent for a post with
    at least one file link and lists the links in order, is addressed to
    the bridge's own profile when its channel type is ["D"] and to its own
    sender otherwise. *)
Theorem direct_events_addressed_to_owner
    (mc : mattermost.MMClient.t) (v : viper.Viper)
    (rmsg : mattermost.WebSocketEvent.t) (tr : list mattermost.Action) :
  ∃ acts,
    (mattermost.handleWsActionPost mc v rmsg tr).2 = tr ++ acts
    ∧ Forall (λ e,
        match e with
        | bridge.direct_message e =>
            bridge.DirectMessageEvent.Receiver e = mattermost.GetMe mc v
        | bridge.channel_message e =>
            bridge.ChannelMessageEvent.ChannelType e ≠ "D"
            ∧ bridge.ChannelMessageEvent.ChannelID e
              = model.Post.ChannelId (mattermost.WebSocketEvent.Post rmsg)
        | bridge.file_event e =>
            bridge.FileEvent.Files e
            = bridge.File.mk <$> mattermost.MMClient.GetFileLinks mc
                (model.Post.FileIds (mattermost.WebSocketEvent.Post rmsg))
            ∧ bridge.FileEvent.Files e ≠ []
            ∧ bridge.FileEvent.Receiver e
              = (if bool_decide (bridge.FileEvent.ChannelType e = "D")
                 then mattermost.GetMe mc v else bridge.FileEvent.Sender e)
        | _ => True
        end) (sent acts).
Proof.
  destruct (handleWsActionPost_relayed mc v rmsg tr) as (acts & Hrun & Hacts).
  exists acts. split; [exact Hrun|].
  apply (sent_Forall (relayed mc v rmsg)); [|exact Hacts].
  intros e [_ H]. destruct e; cbn in *; tauto.
Qed.

(** X16. A post of one of the join and leave types that is not skipped is
    never relayed as a message, a topic or a file, and its channel is
    not marked viewed: the handler asks for the channels to be refreshed,
    and the only events it sends are, for a [system_add_to_channel] post
    whose properties name the added user and the adder, a channel-add event
    for the post's channel with the two profiles looked up by user name,
    and, for a [system_remove_from_channel] post whose properties name the
    removed user, a channel-remove event that names no remover. *)
Theorem join_leave_post_not_relayed
    (mc : mattermost.MMClient.t) (v : viper.Viper)
    (rmsg : mattermost.WebSocketEvent.t) (tr : list mattermost.Action) :
  join_leave_type (model.Post.Type_ (mattermost.WebSocketEvent.Post rmsg)) →
  ∃ acts,
    (mattermost.handleWsActionPost mc v rmsg tr).2 = tr ++ acts
    ∧ texts acts = []
    ∧ (mattermost.wsActionPostSkip mc v rmsg = false →
       model.Post.Props (mattermost.WebSocketEvent.Post rmsg) !! "attachments" = None →
       (mattermost.handleWsActionPost mc v rmsg tr).1 = Some tt
       ∧ ∃ rest, acts = mattermost.UpdateChannels :: rest ∧ (length rest ≤ 1)%nat)
    ∧ Forall (λ a,
        match a with
        | mattermost.UpdateChannels => True
        | mattermost.Send (bridge.channel_add e) =>
            model.Post.Type_ (mattermost.WebSocketEvent.Post rmsg) = "system_add_to_channel"
            ∧ bridge.ChannelAddEvent.ChannelID e
              = model.Post.ChannelId (mattermost.WebSocketEvent.Post rmsg)
            ∧ ∃ added adder,
                model.Post.Props (mattermost.WebSocketEvent.Post rmsg) !! "addedUsername"
                = Some (model.JString added)
                ∧ model.Post.Props (mattermost.WebSocketEvent.Post rmsg) !! "username"
                  = Some (model.JString adder)
                ∧ bridge.ChannelAddEvent.Added e = [mattermost.GetUserByUsername mc v added]
                ∧ bridge.ChannelAddEvent.Adder e
                  = Some (mattermost.GetUserByUsername mc v adder)
        | mattermost.Send (bridge.channel_remove e) =>
            model.Post.Type_ (mattermost.WebSocketEvent.Post rmsg)
            = "system_remove_from_channel"
            ∧ bridge.ChannelRemoveEvent.ChannelID e
              = model.Post.ChannelId (mattermost.WebSocketEvent.Post rmsg)
            ∧ bridge.ChannelRemoveEvent.Remover e = None
            ∧ ∃ removed,
                model.Post.Props (mattermost.WebSocketEvent.Post rmsg) !! "removedUsername"
                = Some (model.JString removed)
                ∧ bridge.ChannelRemoveEvent.Removed e
                  = [mattermost.GetUserByUsername mc v removed]
        | _ => False
        end) acts.
Proof.
  intros Hjl.
  destruct (handleWsActionPost_relayed mc v rmsg tr) as (acts & Hrun & Hacts).
  exists acts. split; [exact Hrun|]. split_and!.
  - assert (Forall (λ _, False) (texts acts)) as Hnone.
    { apply (texts_Forall (relayed mc v rmsg)); [|exact Hacts].
      intros [e|e|e|e|e|e] t [_ H]; cbn; intros [= <-]; by destruct H as (? & _). }
    destruct (texts acts); [done|]. by apply Forall_cons in Hnone as [[] _].
  - intros Hskip Hatt.
    destruct (handleWsActionPost_join_leave mc v rmsg tr Hskip Hatt Hjl)
      as (rest & Hexact & Hlen).
    rewrite Hexact in Hrun |- *. cbn [fst snd] in *. split; [done|].
    exists rest. split; [|exact Hlen]. by apply app_inv_head in Hrun.
  - eapply Forall_impl; [exact Hacts|].
    intros [[e|e|e|e|e|e]|p|? ? ? ?| |ch] [_ H]; cbn in *; try tauto.
    destruct H as (Hh & _). destruct Hjl as [Hj|[Hj|[Hj|[Hj|Hj]]]];
      rewrite Hh in Hj; discriminate.
Qed.

Lemma join_leave_post_not_relayed_witness :
  join_leave_type "system_remove_from_channel"
  ∧ texts (mattermost.handleWsActionPost Scenario.team_client (Scenario.config [] [])
             (Scenario.posted "bob-id" "alice was removed" "system_remove_from_channel"
                (<["removedUsername" := model.JString "alice"]> ∅)) []).2 = [].
Proof.
  assert (join_leave_type "system_remove_from_channel") as Hjl
    by (unfold join_leave_type; tauto).
  split; [exact Hjl|].
  destruct (join_leave_post_not_relayed Scenario.team_client (Scenario.config [] [])
              (Scenario.posted "bob-id" "alice was removed" "system_remove_from_channel"
                 (<["removedUsername" := model.JString "alice"]> ∅)) [] Hjl)
    as (acts & Hrun & Htexts & _).
  rewrite Hrun. exact Htexts.
Defined.

(** X17. A post that is not skipped and whose properties hold, under
    [attachments], a list with an object that has no string under
    [fallback]: the handler panics, on the type assertion
    [f["fallback"].(string)], before it has sent or requested anything. *)
Theorem attachment_without_fallback_panics
    (mc : mattermost.MMClient.t) (v : viper.Viper)
    (rmsg : mattermost.WebSocketEvent.t) (tr : list mattermost.Action)
    (entries : list model.JSON) (f : list (string * model.JSON)) :
  mattermost.wsActionPostSkip mc v rmsg = false →
  model.Post.Props (mattermost.WebSocketEvent.Post rmsg) !! "attachments"
    = Some (model.JArray entries) →
  model.JObject f ∈ entries →
  mattermost.asString (mattermost.jfield "fallback" f) = None →
  mattermost.handleWsActionPost mc v rmsg tr = (None, tr).
Proof.
  intros Hskip Hatt Hin Hf. unfold mattermost.handleWsActionPost. cbn zeta.
  rewrite Hskip, Hatt. unfold bind.
  by rewrite (addFallbacks_panics entries _ tr f Hin Hf).
Qed.

Lemma attachment_without_fallback_panics_witness :
  let rmsg := Scenario.posted "alice-id" "see the picture" ""
                (<["attachments" := model.JArray
                     [model.JObject [("text", model.JString "a picture")]]]> ∅) in
  mattermost.wsActionPostSkip Scenario.team_client (Scenario.config [] []) rmsg = false
  ∧ model.JObject [("text", model.JString "a picture")]
    ∈ [model.JObject [("text", model.JString "a picture")]]
  ∧ mattermost.asString (mattermost.jfield "fallback" [("text", model.JString "a picture")])
    = None
  ∧ mattermost.handleWsActionPost Scenario.team_client (Scenario.config [] []) rmsg []
    = (None, []).
Proof.
  cbn zeta.
  assert (model.JObject [("text", model.JString "a picture")]
          ∈ [model.JObject [("text", model.JString "a picture")]]) as Hin by (by left).
  split_and!; [reflexivity|exact Hin|reflexivity|].
  apply (attachment_without_fallback_panics Scenario.team_client (Scenario.config [] []) _ []
           [model.JObject [("text", model.JString "a picture")]]
           [("text", model.JString "a picture")]); [reflexivity|reflexivity|exact Hin|reflexivity].
Defined.

(** X18. A post that is not skipped, is not of a join or leave type, is no
    reply and has no attachments is relayed line by line: the message
    events the handler sends carry, in order, exactly the pieces of the
    message between line feeds that are not empty, the last piece with
    [ (edited)] behind it when the event is an edit. An edit therefore
    always gives at least one message event, the last of which ends in
    [ (edited)], also when the message is empty. *)
Theorem one_message_event_for_each_line
    (mc : mattermost.MMClient.t) (v : viper.Viper)
    (rmsg : mattermost.WebSocketEvent.t) (tr : list mattermost.Action) :
  mattermost.wsActionPostSkip mc v rmsg = false →
  plain (mattermost.WebSocketEvent.Post rmsg) →
  ¬ join_leave_type (model.Post.Type_ (mattermost.WebSocketEvent.Post rmsg)) →
  ∃ acts,
    (mattermost.handleWsActionPost mc v rmsg tr).2 = tr ++ acts
    ∧ texts acts = filter (λ l, l ≠ "") (relayed_lines rmsg)
    ∧ (mattermost.WebSocketEvent.Event rmsg = model.WEBSOCKET_EVENT_POSTED →
       texts acts
       = filter (λ l, l ≠ "")
                (strings.Split (model.Post.Message (mattermost.WebSocketEvent.Post rmsg)) LF))
    ∧ (mattermost.WebSocketEvent.Event rmsg = model.WEBSOCKET_EVENT_POST_EDITED →
       ∃ front l, texts acts = front ++ [l +:+ " (edited)"]).
Proof.
  intros Hskip Hplain Hnjl.
  destruct (handleWsActionPost_plain mc v rmsg tr Hskip Hplain Hnjl)
    as (acts & Htexts & _ & Hrun).
  assert (∃ acts', (mattermost.handleWsActionPost mc v rmsg tr).2 = tr ++ acts'
                   ∧ texts acts' = texts acts) as (acts' & Hrun' & Htexts').
  { rewrite Hrun. destruct (mattermost.MMClient.GetUser mc _); [|by exists acts].
    eexists. split; [reflexivity|]. rewrite texts_app.
    destruct (viper.GetBool v _); cbn; by rewrite app_nil_r. }
  exists acts'. rewrite Htexts', Htexts. split_and!; [exact Hrun'|done| |].
  - intros Hposted. unfold relayed_lines. by rewrite Hposted.
  - intros Hedited. unfold relayed_lines. rewrite Hedited. cbn zeta.
    rewrite bool_decide_eq_true_2 by done.
    destruct (markEdited_last
                (strings.Split (model.Post.Message (mattermost.WebSocketEvent.Post rmsg)) LF))
      as (front & l & _ & ->).
    { destruct (Split_cons (model.Post.Message (mattermost.WebSocketEvent.Post rmsg)) LF)
        as (l0 & rest & ->). done. }
    exists (filter (λ l, l ≠ "") front), l.
    rewrite filter_app, filter_cons, decide_True, filter_nil; [done|].
    by destruct l.
Qed.

Lemma one_message_event_for_each_line_witness :
  let rmsg := Scenario.edited "alice-id" ("hello" +:+ LF +:+ LF +:+ "world") in
  mattermost.wsActionPostSkip Scenario.team_client (Scenario.config [] []) rmsg = false
  ∧ plain (mattermost.WebSocketEvent.Post rmsg)
  ∧ ¬ join_leave_type (model.Post.Type_ (mattermost.WebSocketEvent.Post rmsg))
  ∧ texts (mattermost.handleWsActionPost Scenario.team_client (Scenario.config [] []) rmsg []).2
    = ["hello"; "world (edited)"].
Proof.
  cbn zeta.
  assert (plain (mattermost.WebSocketEvent.Post
                   (Scenario.edited "alice-id" ("hello" +:+ LF +:+ LF +:+ "world"))))
    as Hplain by done.
  assert (¬ join_leave_type "") as Hnjl.
  { intros [H|[H|[H|[H|H]]]]; discriminate. }
  split_and!; [reflexivity|exact Hplain|exact Hnjl|].
  destruct (one_message_event_for_each_line Scenario.team_client (Scenario.config [] [])
              (Scenario.edited "alice-id" ("hello" +:+ LF +:+ LF +:+ "world")) []
              eq_refl Hplain Hnjl) as (acts & Hrun & Htexts & _).
  rewrite Hrun. cbn [app]. rewrite Htexts. reflexivity.
Defined.

(** X19. A post that is not skipped, is not of a join or leave type, is no
    reply and has no attachments, and whose author the client cannot
    resolve (its [GetUser] answers nil): the handler relays the lines all
    the same and then panics, at the dereference in its closing debug
    line; every action it has added is an event sent, so the channel is not
    marked viewed. *)
Theorem unresolved_author_panics_after_relay
    (mc : mattermost.MMClient.t) (v : viper.Viper)
    (rmsg : mattermost.WebSocketEvent.t) (tr : list mattermost.Action) :
  mattermost.wsActionPostSkip mc v rmsg = false →
  plain (mattermost.WebSocketEvent.Post rmsg) →
  ¬ join_leave_type (model.Post.Type_ (mattermost.WebSocketEvent.Post rmsg)) →
  mattermost.MMClient.GetUser mc (model.Post.UserId (mattermost.WebSocketEvent.Post rmsg))
    = None →
  ∃ acts,
    mattermost.handleWsActionPost mc v rmsg tr = (None, tr ++ acts)
    ∧ texts acts = filter (λ l, l ≠ "") (relayed_lines rmsg)
    ∧ Forall (λ a, ∃ e, a = mattermost.Send e) acts.
Proof.
  intros Hskip Hplain Hnjl Hnone.
  destruct (handleWsActionPost_plain mc v rmsg tr Hskip Hplain Hnjl)
    as (acts & Htexts & Hsent & Hrun).
  rewrite Hnone in Hrun. by exists acts.
Qed.

Lemma unresolved_author_panics_after_relay_witness :
  let rmsg := Scenario.posted "carol-id" "hello" "" ∅ in
  mattermost.wsActionPostSkip Scenario.team_client (Scenario.config [] []) rmsg = false
  ∧ plain (mattermost.WebSocketEvent.Post rmsg)
  ∧ ¬ join_leave_type (model.Post.Type_ (mattermost.WebSocketEvent.Post rmsg))
  ∧ mattermost.MMClient.GetUser Scenario.team_client "carol-id" = None
  ∧ ∃ acts, mattermost.handleWsActionPost Scenario.team_client (Scenario.config [] []) rmsg []
            = (None, acts)
            ∧ texts acts = ["hello"].
Proof.
  cbn zeta.
  assert (plain (mattermost.WebSocketEvent.Post (Scenario.posted "carol-id" "hello" "" ∅)))
    as Hplain by done.
  assert (¬ join_leave_type "") as Hnjl.
  { intros [H|[H|[H|[H|H]]]]; discriminate. }
  split_and!; [reflexivity|exact Hplain|exact Hnjl|reflexivity|].
  destruct (unresolved_author_panics_after_relay Scenario.team_client (Scenario.config [] [])
              (Scenario.posted "carol-id" "hello" "" ∅) [] eq_refl Hplain Hnjl eq_refl)
    as (acts & Hrun & Htexts & _).
  exists acts. split; [exact Hrun|]. rewrite Htexts. reflexivity.
Defined.

(** *** The adapter: skipped posts, names, nicks *)

(** X20. [wsActionPostSkip] drops a post in exactly two cases: the event is
    an edit of a post that has reactions, whoever wrote it; or the post is
    the owner's own and either carries the bridge's marker with a boolean
    under it, true or false alike, or is of type [system_join_leave] or
    [system_join_channel]. No new post of another user is ever dropped. *)
Theorem posts_skipped_exactly
    (mc : mattermost.MMClient.t) (v : viper.Viper) (rmsg : mattermost.WebSocketEvent.t) :
  let data := mattermost.WebSocketEvent.Post rmsg in
  mattermost.wsActionPostSkip mc v rmsg = true
  ↔ (mattermost.WebSocketEvent.Event rmsg = model.WEBSOCKET_EVENT_POST_EDITED
     ∧ model.Post.HasReactions data = true)
    ∨ (model.Post.UserId data = model.User.Id (mattermost.MMClient.User mc)
       ∧ ((∃ b, model.Post.Props data !! marker_key mc = Some (model.JBool b))
          ∨ model.Post.Type_ data = model.POST_JOIN_LEAVE
          ∨ model.Post.Type_ data = model.POST_JOIN_CHANNEL)).
Proof.
  intros data. unfold mattermost.wsActionPostSkip. fold data.
  change (bridge.UserInfo.User (mattermost.GetMe mc v))
    with (model.User.Id (mattermost.MMClient.User mc)).
  fold (marker_key mc).
  destruct (bool_decide_reflect (mattermost.WebSocketEvent.Event rmsg
                                 = model.WEBSOCKET_EVENT_POST_EDITED)) as [He|He];
    destruct (model.Post.HasReactions data) eqn:Hr; cbn [andb];
    try (split; [intros _; by left|done]).
  all: destruct (bool_decide_reflect (model.Post.UserId data
                                      = model.User.Id (mattermost.MMClient.User mc)))
         as [Hu|Hu];
    [|split; [done|intros [[? ?]|[? _]]; done]].
  all: destruct (model.Post.Props data !! marker_key mc) as [[|b| | | |]|] eqn:Hm;
    cbn [mattermost.asBool];
    try (rewrite bool_decide_eq_true_2 by (by eexists);
         split; [intros _; right; split; [done|left; by eexists]|done]).
  all: rewrite bool_decide_eq_false_2 by (by intros [? ?]).
  all: destruct (bool_decide_reflect (model.Post.Type_ data = model.POST_JOIN_LEAVE))
         as [Ht|Ht]; cbn [orb]; [split; [intros _; by auto|done]|].
  all: destruct (bool_decide_reflect (model.Post.Type_ data = model.POST_JOIN_CHANNEL))
         as [Ht'|Ht']; [split; [intros _; by auto|done]|].
  all: split; [done|].
  all: intros [[? ?]|[_ [[b ?]|[?|?]]]]; done.
Qed.

(** X21. The name [GetChannelName] gives a channel, [cn] being the name
    the client's cache has for it, [tid] its team and [tn] that team's
    name: the channel's identifier itself when the cache has no name; for
    a group ([tid] is ["G"]) always [#cn], whatever the configuration; for
    a channel of the own team [#cn], or [#tn/cn] with
    [mattermost.PrefixMainTeam]; for a channel of another team [#tn/cn]
    when that team has a name or [mattermost.PrefixMainTeam] is set, and
    the empty string otherwise. *)
Theorem channel_name_cases
    (mc : mattermost.MMClient.t) (v : viper.Viper) (channelID : string) :
  let cn := mattermost.MMClient.GetChannelName mc channelID in
  let tid := mattermost.MMClient.GetTeamFromChannel mc channelID in
  let tn := mattermost.MMClient.GetTeamName mc tid in
  let prefixed := viper.GetBool v "mattermost.PrefixMainTeam" in
  mattermost.GetChannelName mc v channelID
  = if bool_decide (cn = "") then channelID
    else if bool_decide (tid = "G") then "#" +:+ cn
    else if bool_decide (tid = mattermost.MMClient.Team_Id mc)
         then (if prefixed then "#" +:+ tn +:+ "/" +:+ cn else "#" +:+ cn)
    else if prefixed || negb (bool_decide (tn = "")) then "#" +:+ tn +:+ "/" +:+ cn
    else "".
Proof.
  intros cn tid tn prefixed. unfold mattermost.GetChannelName. fold cn tid tn prefixed.
  destruct (bool_decide (cn = "")); cbn [negb]; [done|].
  destruct (bool_decide (tid = "G")); [done|].
  destruct (bool_decide (tid = mattermost.MMClient.Team_Id mc)), prefixed,
    (bool_decide (tn = "")); done.
Qed.

(** X22. [isValidNick] accepts exactly the strings of 1 to 27 bytes that
    follow the grammar its comment quotes from RFC 2812: the first byte a
    letter or a special character other than [-], every further byte a
    letter, a digit or a special character. So no accepted nick is empty,
    starts with a digit or holds a space. *)
Theorem valid_nick_follows_rfc (s : string) :
  mattermost.isValidNick s = true
  ↔ (1 ≤ String.length s ≤ 27)%nat
    ∧ match list_ascii_of_string s with
      | [] => False
      | c0 :: rest =>
          (rfc_letter (nat_of_ascii c0)
           ∨ (rfc_special (nat_of_ascii c0) ∧ nat_of_ascii c0 ≠ 45%nat))
          ∧ Forall (λ c, rfc_letter (nat_of_ascii c) ∨ rfc_digit (nat_of_ascii c)
                         ∨ rfc_special (nat_of_ascii c)) rest
      end.
Proof.
  unfold mattermost.isValidNick.
  destruct (Nat.ltb_spec (String.length s) 1) as [Hlo|Hlo]; cbn [orb].
  { split; [done|]. intros [? _]. lia. }
  destruct (Nat.ltb_spec 27 (String.length s)) as [Hhi|Hhi].
  { split; [done|]. intros [? _]. lia. }
  destruct s as [|c0 rest]; [cbn in Hlo; lia|].
  cbn [list_ascii_of_string]. rewrite <- isValidNick_rest.
  unfold rfc_letter, rfc_special.
  destruct (Nat.eqb_spec (nat_of_ascii c0) 59), (Nat.ltb_spec (nat_of_ascii c0) 65),
    (Nat.ltb_spec 125 (nat_of_ascii c0)); cbn [negb andb orb];
    (split; [intros Hrest; first [discriminate|split; [lia|split; [lia|exact Hrest]]]
            |intros (_ & Hfirst & Hrest); first [exact Hrest | lia]]).
Qed.

(** *** The adapter and the session: members added and removed *)

(** X23. A [user_added] event of the web socket that names the user
    ([user_id] is a string) makes the adapter send one channel-add event
    for the broadcast's channel, with an adder whose nick is [system];
    handled by the session, from a well-formed registry, that event leaves
    a ghost registered for the added user's profile and a member of the
    channel, unless the profile is the owner's own, and the handler sends
    no line of [system] about it: such a line is not sent for the adder
    [system]. An event that does not name the user sends nothing on the
    event channel. *)
Theorem user_added_joins_without_notice
    (mc : mattermost.MMClient.t) (br : bridge.Bridger.t) (v : viper.Viper) (u : ptr)
    (rmsg : mattermost.WebSocketEvent.t) (tr : list mattermost.Action) (s : State) :
  registered_ok s →
  (mattermost.asString (mattermost.WebSocketEvent.Data rmsg !! "user_id") = None →
   mattermost.handleWsActionUserAdded mc v rmsg tr = (Some tt, tr))
  ∧ (∀ userID,
       mattermost.WebSocketEvent.Data rmsg !! "user_id" = Some (model.JString userID) →
       ∃ e s',
         mattermost.handleWsActionUserAdded mc v rmsg tr
         = (Some tt, tr ++ [mattermost.Send (bridge.channel_add e)])
         ∧ e = bridge.ChannelAddEvent.mk
                 (Some (bridge.UserInfo.with_Nick "system" bridge.UserInfo.zero))
                 [mattermost.GetUser mc v userID]
                 (mattermost.WebSocketEvent.Broadcast_ChannelId rmsg)
         ∧ handleChannelAddEvent br v u e s = (Some tt, s')
         ∧ trace s' = trace s
             ++ option_list (added_notice e (mattermost.GetUser mc v userID))
         ∧ added_notice e (mattermost.GetUser mc v userID) = None
         ∧ (bridge.UserInfo.Me (mattermost.GetUser mc v userID) = false →
            ∃ g, Srv.HasUserID (bridge.UserInfo.User (mattermost.GetUser mc v userID)) s'
                 = Some g
                 ∧ (mattermost.WebSocketEvent.Broadcast_ChannelId rmsg, g) ∈ members s')).
Proof.
  intros Hok. unfold mattermost.handleWsActionUserAdded. split.
  - by intros ->.
  - intros userID ->. cbn [mattermost.asString].
    set (e := bridge.ChannelAddEvent.mk
                (Some (bridge.UserInfo.with_Nick "system" bridge.UserInfo.zero))
                [mattermost.GetUser mc v userID]
                (mattermost.WebSocketEvent.Broadcast_ChannelId rmsg)).
    destruct (handleChannelAddEvent_spec br v u e s Hok)
      as (s' & Hrun & _ & _ & _ & Ht & Hj).
    exists e, s'. split_and!; [reflexivity|reflexivity|exact Hrun| | |].
    + rewrite Ht. cbn. by destruct (added_notice e _).
    + unfold added_notice. cbn.
      destruct (bridge.UserInfo.Me (mattermost.GetUser mc v userID)); [done|].
      by rewrite bool_decide_eq_false_2 by (by intros [_ ?]).
    + intros Hme. apply (Hj (mattermost.GetUser mc v userID)); [by left|exact Hme].
Qed.

Lemma user_added_joins_without_notice_witness :
  registered_ok Scenario.fresh_session
  ∧ ∃ e s',
      mattermost.handleWsActionUserAdded Scenario.team_client (Scenario.config [] [])
        Scenario.alice_added [] = (Some tt, [mattermost.Send (bridge.channel_add e)])
      ∧ handleChannelAddEvent (Scenario.backend 5) (Scenario.config [] []) 0 e
          Scenario.fresh_session = (Some tt, s')
      ∧ trace s' = []
      ∧ ("town", 1%nat) ∈ members s'.
Proof.
  assert (registered_ok Scenario.fresh_session) as Hok by (vm_compute; repeat constructor).
  split; [exact Hok|].
  destruct (user_added_joins_without_notice Scenario.team_client (Scenario.backend 5)
              (Scenario.config [] []) 0 Scenario.alice_added [] Scenario.fresh_session Hok)
    as [_ Hnamed].
  destruct (Hnamed "alice-id" eq_refl) as (e & s' & Hsend & _ & Hrun & Ht & Hnone & Hj).
  exists e, s'. split_and!; [exact Hsend|exact Hrun| |].
  - rewrite Ht, Hnone. reflexivity.
  - destruct (Hj eq_refl) as (g & Hid & Hin).
    injection Hsend as <-. injection Hrun as <-. injection Hid as <-. exact Hin.
Defined.

(** X24. A [user_removed] event of the web socket that names no remover
    ([remover_id] is not a string) is dropped: the adapter sends nothing.
    One that names the remover makes the adapter send one channel-remove
    event, the removed user and the channel taken from the event's data
    and, where the data has none, from its broadcast; handled by the
    session, from a well-formed registry, that event leaves the removed
    user's ghost outside the channel (the owner, when the removed profile
    is the owner's own), and the client is shown the line of [system] only
    when the remover's nick is neither the removed user's nor [system]. *)
Theorem user_removed_parts
    (mc : mattermost.MMClient.t) (v : viper.Viper) (u : ptr)
    (rmsg : mattermost.WebSocketEvent.t) (tr : list mattermost.Action) (s : State) :
  registered_ok s →
  let userID := default (mattermost.WebSocketEvent.Broadcast_UserId rmsg)
                  (mattermost.asString (mattermost.WebSocketEvent.Data rmsg !! "user_id")) in
  let channelID := default (mattermost.WebSocketEvent.Broadcast_ChannelId rmsg)
                     (mattermost.asString
                        (mattermost.WebSocketEvent.Data rmsg !! "channel_id")) in
  (mattermost.asString (mattermost.WebSocketEvent.Data rmsg !! "remover_id") = None →
   mattermost.handleWsActionUserRemoved mc v rmsg tr = (Some tt, tr))
  ∧ (∀ removerID,
       mattermost.WebSocketEvent.Data rmsg !! "remover_id"
       = Some (model.JString removerID) →
       ∃ e s',
         mattermost.handleWsActionUserRemoved mc v rmsg tr
         = (Some tt, tr ++ [mattermost.Send (bridge.channel_remove e)])
         ∧ e = bridge.ChannelRemoveEvent.mk (Some (mattermost.GetUser mc v removerID))
                 [mattermost.GetUser mc v userID] channelID
         ∧ handleChannelRemoveEvent u e s = (Some tt, s')
         ∧ (if bridge.UserInfo.Me (mattermost.GetUser mc v userID)
            then (channelID, u) ∉ members s'
            else ∃ g, Srv.HasUserID (bridge.UserInfo.User (mattermost.GetUser mc v userID)) s'
                      = Some g
                      ∧ (channelID, g) ∉ members s')
         ∧ trace s' = trace s
             ++ option_list (removed_notice e (mattermost.GetUser mc v userID))).
Proof.
  intros Hok userID channelID. unfold mattermost.handleWsActionUserRemoved.
  fold userID channelID. split.
  - by intros ->.
  - intros removerID ->. cbn [mattermost.asString].
    set (e := bridge.ChannelRemoveEvent.mk (Some (mattermost.GetUser mc v removerID))
                [mattermost.GetUser mc v userID] channelID).
    destruct (handleChannelRemoveEvent_spec u e s Hok)
      as (s' & Hrun & _ & _ & _ & _ & Ht & Hp).
    exists e, s'. split_and!; [reflexivity|reflexivity|exact Hrun| |].
    + apply (Hp (mattermost.GetUser mc v userID)). by left.
    + rewrite Ht. cbn. by destruct (removed_notice e _).
Qed.

Lemma user_removed_parts_witness :
  registered_ok Scenario.alice_in_town
  ∧ ∃ e s',
      mattermost.handleWsActionUserRemoved Scenario.team_client (Scenario.config [] [])
        Scenario.alice_removed [] = (Some tt, [mattermost.Send (bridge.channel_remove e)])
      ∧ handleChannelRemoveEvent 0 e Scenario.alice_in_town = (Some tt, s')
      ∧ trace s' = [SpoofMessage "town" "system" "removed alice from the channel by bob"].
Proof.
  assert (registered_ok Scenario.alice_in_town) as Hok by (vm_compute; repeat constructor).
  split; [exact Hok|].
  destruct (user_removed_parts Scenario.team_client (Scenario.config [] []) 0 Scenario.alice_removed []
              Scenario.alice_in_town Hok) as [_ Hnamed].
  destruct (Hnamed "bob-id" eq_refl) as (e & s' & Hsend & -> & Hrun & _ & Ht).
  eexists _, s'. split_and!; [exact Hsend|exact Hrun|exact Ht].
Defined.

(** *** The adapter: listing, joining, members of a channel *)

(** X25. The map [List] returns has an entry for every channel of the
    client's two lists whose name does not hold [__], under [#] and the
    name for a channel of the own team and under the team's name, [/] and
    the name, with no [#], for a channel of another team; it has no other
    entry; and the text under an entry is the header of a channel filed
    under that name with every line feed replaced by [ | ], so that no
    text holds a line feed. *)
Theorem listed_channels
    (mc : mattermost.MMClient.t) (mc_GetChannels mc_GetMoreChannels : list model.Channel.t) :
  (∀ channel, channel ∈ mc_GetChannels ++ mc_GetMoreChannels →
     strings.Contains (model.Channel.Name channel) "__" = false →
     is_Some (mattermost.List mc mc_GetChannels mc_GetMoreChannels
              !! listed_name mc channel))
  ∧ (∀ name header,
       mattermost.List mc mc_GetChannels mc_GetMoreChannels !! name = Some header →
       strings.Contains header LF = false
       ∧ ∃ channel, channel ∈ mc_GetChannels ++ mc_GetMoreChannels
           ∧ strings.Contains (model.Channel.Name channel) "__" = false
           ∧ name = listed_name mc channel
           ∧ header = strings.ReplaceAll (model.Channel.Header channel) LF " | ").
Proof.
  rewrite List_foldl. split.
  - intros channel Hin Hname. by apply foldl_list_step_listed.
  - intros name header [Hm|(channel & Hin & Hname & Hn & Hh)]%foldl_list_step_lookup.
    { by rewrite lookup_empty in Hm. }
    split; [|by exists channel]. rewrite Hh. by apply ReplaceAll_LF_free.
Qed.

(** X26. [Join] by name. A name without a slash is looked up in the own
    team, and for a name [team/name] the channel [name] is looked up in the
    team of that name (in the own team when that team's identifier is
    empty); the channel found is asked to be joined, once, and the answer
    is its identifier and header, or, when the request fails, the error
    [cannot join channel (+i)] with an empty identifier and header. When
    the team is not known the same error is answered and nothing is asked
    of the backend. What follows a second slash is ignored. *)
Theorem join_by_name
    (mc : mattermost.MMClient.t) (Client_GetTeamByName : string → option string)
    (mc_GetChannelId : string → string → string) (mc_JoinChannel_fails : string → bool)
    (mc_GetChannelHeader : string → string) (joined : list string) :
  let Join := mattermost.Join mc Client_GetTeamByName mc_GetChannelId
                mc_JoinChannel_fails mc_GetChannelHeader in
  let answer channelID :=
    if mc_JoinChannel_fails channelID then cannot_join
    else (channelID, mc_GetChannelHeader channelID, None) in
  (∀ name, strings.Contains name "/" = false →
     let channelID := mc_GetChannelId name (mattermost.MMClient.Team_Id mc) in
     Join name joined = (Some (answer channelID), joined ++ [channelID]))
  ∧ (∀ team name, strings.Contains team "/" = false → strings.Contains name "/" = false →
       Join (team +:+ "/" +:+ name) joined
       = match Client_GetTeamByName team with
         | None => (Some cannot_join, joined)
         | Some team_Id =>
             let channelID :=
               mc_GetChannelId name (if bool_decide (team_Id = "")
                                     then mattermost.MMClient.Team_Id mc else team_Id) in
             (Some (answer channelID), joined ++ [channelID])
         end)
  ∧ (∀ team name more, strings.Contains team "/" = false →
       strings.Contains name "/" = false →
       Join (team +:+ "/" +:+ name +:+ "/" +:+ more) joined
       = Join (team +:+ "/" +:+ name) joined).
Proof.
  intros Join answer.
  assert (∀ name teamID,
    (modify (λ joined0 : list string, joined0 ++ [mc_GetChannelId name teamID]) ;;
     if mc_JoinChannel_fails (mc_GetChannelId name teamID)
     then ret ("", "", Some "cannot join channel (+i)")
     else ret (mc_GetChannelId name teamID,
               mc_GetChannelHeader (mc_GetChannelId name teamID), None)) joined
    = (Some (answer (mc_GetChannelId name teamID)),
       joined ++ [mc_GetChannelId name teamID])) as Hask.
  { intros name teamID. unfold bind, modify, answer, cannot_join.
    by destruct (mc_JoinChannel_fails _). }
  assert (∀ team name, strings.Contains team "/" = false →
    ∀ l ls, strings.Split name "/" = l :: ls →
      Join (team +:+ "/" +:+ name) joined
      = match Client_GetTeamByName team with
        | None => (Some cannot_join, joined)
        | Some team_Id =>
            (Some (answer (mc_GetChannelId l
                             (if bool_decide (team_Id = "")
                              then mattermost.MMClient.Team_Id mc else team_Id))),
             joined ++ [mc_GetChannelId l
                          (if bool_decide (team_Id = "")
                           then mattermost.MMClient.Team_Id mc else team_Id)])
        end) as Hteam.
  { intros team name Hteam l ls Hname. unfold Join, mattermost.Join. cbn zeta.
    rewrite (Split_slash_app team name Hteam), Hname. cbn [length Nat.ltb Nat.leb nth].
    destruct (Client_GetTeamByName team) as [team_Id|]; [apply Hask|done]. }
  split_and!.
  - intros name Hname channelID. unfold Join, mattermost.Join. cbn zeta.
    rewrite (Split_no_slash name Hname). cbn [length Nat.ltb Nat.leb].
    rewrite bool_decide_eq_true_2 by done. apply Hask.
  - intros team name Ht Hn.
    rewrite (Hteam team name Ht name []); [done|]. by apply Split_no_slash.
  - intros team name more Ht Hn.
    rewrite (Hteam team (name +:+ "/" +:+ more) Ht name (strings.Split more "/"))
      by (by apply Split_slash_app).
    rewrite (Hteam team name Ht name []) by (by apply Split_no_slash). done.
Qed.

(** X27. [GetChannelUsers] gathers the users page by page. When the pages
    the backend answers with are not empty up to one that is, the loop
    ends, given turns enough, and the result is the users of those pages in
    order, each converted by [createUser], the first page, asked for twice,
    counted once; when instead of the empty page a request fails, the
    result is that error and no users. When no page ever comes back empty
    the loop never ends, whatever the number of turns. *)
Theorem users_of_all_pages
    (mc : mattermost.MMClient.t) (v : viper.Viper)
    (Client_GetUsersInChannel : string → nat → option (list model.User.t))
    (channelID : string) :
  (∀ (ps : list (list model.User.t)) last fuel,
     Forall (λ p, p ≠ []) ps →
     (∀ i p, ps !! i = Some p → Client_GetUsersInChannel channelID i = Some p) →
     Client_GetUsersInChannel channelID (length ps) = last →
     last = None ∨ last = Some [] →
     (length ps < fuel)%nat →
     mattermost.GetChannelUsers mc v Client_GetUsersInChannel fuel channelID
     = Some (match last with
             | None => None
             | Some _ => Some ((λ mmuser, mattermost.createUser mc v (Some mmuser))
                               <$> concat ps)
             end))
  ∧ ((∀ i, ∃ p, Client_GetUsersInChannel channelID i = Some p ∧ p ≠ []) →
     ∀ fuel, mattermost.GetChannelUsers mc v Client_GetUsersInChannel fuel channelID = None).
Proof.
  split.
  - intros ps last fuel Hps Hfetch Hlast Hend Hfuel. unfold mattermost.GetChannelUsers.
    cbn zeta. destruct ps as [|p ps].
    + cbn [length] in Hlast. rewrite Hlast. destruct Hend as [->| ->]; [done|].
      by destruct fuel.
    + rewrite (Hfetch 0%nat p eq_refl).
      rewrite (GetChannelUsers_pages_spec Client_GetUsersInChannel channelID (p :: ps) last Hps
                 0%nat p [] fuel); [by destruct last|done|done|done| |done].
      by apply Forall_cons in Hps as [? _].
  - intros Hall fuel. unfold mattermost.GetChannelUsers. cbn zeta.
    destruct (Hall 0%nat) as (p & -> & Hp).
    by rewrite (GetChannelUsers_pages_endless Client_GetUsersInChannel channelID Hall).
Qed.

(** *** The session: the order of a replay *)

(** X28. The replay of a channel with a non-zero last-viewed timestamp and
    a post list whose identifiers all name a post, the owner being
    allocated: the worker returns and the trace grows by what the replay's
    calls emit, in order (on a direct channel the private lines
    [MsgSpoofUser] sends for each call, on any other channel one spoofed
    message for each), and the mark. The calls that are lines of posts are,
    in order, the lines of the posts of the backend's list taken in reverse
    (oldest first), one call for each piece of the message between line
    feeds; left out are the posts of type [model.POST_JOIN_LEAVE], and of
    no other type, and the posts deleted after their creation. *)
Theorem replay_kept_posts_oldest_first
    (br : bridge.Bridger.t) (v : viper.Viper) (Format : Z → string → string)
    (wordwrap_String : string → nat → string) (u : ptr)
    (brchannel : bridge.ChannelInfo.t) (pl : model.PostList.t) (s : State)
    (me : User.t) :
  bridge.Bridger.GetLastViewedAt br (bridge.ChannelInfo.ID brchannel) ≠ 0%Z →
  bridge.Bridger.GetPostsSince br (bridge.ChannelInfo.ID brchannel)
    (bridge.Bridger.GetLastViewedAt br (bridge.ChannelInfo.ID brchannel)) = Some pl →
  Forall (λ id, is_Some (model.PostList.Posts pl !! id)) (model.PostList.Order pl) →
  heap s !! u = Some me →
  let calls := replay_calls br Format "" (replayed_posts pl) in
  ∃ s',
    addUserToChannelWorker_channel br v Format wordwrap_String u brchannel s = (Some tt, s')
    ∧ trace s' = trace s
        ++ concat (emitted wordwrap_String brchannel me <$> calls)
        ++ (if viper.GetBool v (bridge.Bridger.Protocol br +:+ ".disableautoview")
            then [] else [UpdateLastViewed (bridge.ChannelInfo.ID brchannel)])
    ∧ filter (λ c, is_line c) calls
      = concat (post_lines br Format
                  <$> filter (λ p, model.Post.Type_ p ≠ model.POST_JOIN_LEAVE
                                   ∧ (model.Post.DeleteAt p ≤ model.Post.CreateAt p)%Z)
                             (rev (listed pl (model.PostList.Order pl)))).
Proof.
  intros Hsince Hposts Hall Hme calls.
  destruct (worker_trace br v Format wordwrap_String u brchannel pl s me
              Hsince Hposts Hall Hme) as (s' & Hrun & Ht).
  exists s'. split; [exact Hrun|]. split; [exact Ht|].
  unfold calls. rewrite replay_lines. f_equal. f_equal.
  apply filter_ext_in. intros p _. unfold kept.
  destruct (bool_decide_reflect (model.Post.Type_ p = model.POST_JOIN_LEAVE)) as [Ht'|Ht'];
    cbn [negb andb].
  - split; [done|]. by intros [? _].
  - destruct (Z.gtb_spec (model.Post.DeleteAt p) (model.Post.CreateAt p)); cbn [negb].
    + split; [done|]. intros [_ ?]. lia.
    + split; [|done]. intros _. split; [done|lia].
Qed.

Lemma replay_kept_posts_oldest_first_witness :
  (5 ≠ 0)%Z
  ∧ Forall (λ id, is_Some (model.PostList.Posts Scenario.unread !! id))
           (model.PostList.Order Scenario.unread)
  ∧ heap Scenario.fresh_session !! 0%nat = Some (User.mk Scenario.owner)
  ∧ ∃ s', addUserToChannelWorker_channel (Scenario.backend 5) (Scenario.config [] [])
            Scenario.two_days Scenario.no_wrap 0 Scenario.town Scenario.fresh_session
          = (Some tt, s')
          ∧ filter (λ e, negb (is_marker_entry e)) (trace s')
            = [SpoofMessage "town" "alice" "[00:00] hello";
               SpoofMessage "town" "alice" "[00:00] world";
               SpoofMessage "town" "alice" "[00:00] later";
               UpdateLastViewed "town"].
Proof.
  assert ((5 ≠ 0)%Z) as Hsince by lia.
  assert (Forall (λ id, is_Some (model.PostList.Posts Scenario.unread !! id))
                 (model.PostList.Order Scenario.unread)) as Hall
    by (repeat constructor; by eexists).
  split_and!; [exact Hsince|exact Hall|reflexivity|].
  destruct (replay_kept_posts_oldest_first (Scenario.backend 5) (Scenario.config [] [])
              Scenario.two_days Scenario.no_wrap 0 Scenario.town Scenario.unread
              Scenario.fresh_session (User.mk Scenario.owner) Hsince eq_refl Hall eq_refl)
    as (s' & Hrun & Ht & _).
  exists s'. split; [exact Hrun|]. by rewrite Ht.
Defined.
